(** * krun: a thermal governor for one child process

    A shallow embedding of [krun.c].  The program starts a command in a
    process group of its own, samples six core temperatures through
    libsensors, stops the group when the hottest core exceeds the hot
    threshold and continues it once the temperature is below the cool
    threshold.  Ctrl-C is turned into a SIGKILL for the child, deferred
    while the child is stopped.

    What the program asks of its surroundings (libsensors, [fork],
    [kill], [waitid], the arrival of SIGINT) is supplied as data: the
    answers of the library in a record, the answers of the kernel in one
    record per loop iteration.  What the program does to its
    surroundings is logged as a list of events.  *)

From Stdlib Require Import ZArith List Bool Lia String Floats.
Import ListNotations.
Local Open Scope Z_scope.

(** ** C [double]

    Binary64 with the comparisons of IEEE 754: every comparison with a
    NaN is false. *)
Module Double.

Definition double : Set := float.

(** [a < b], [a > b], [a <= b] and [a >= b] of C. *)
Definition lt (a b : double) : bool := PrimFloat.ltb a b.
Definition gt (a b : double) : bool := PrimFloat.ltb b a.
Definition le (a b : double) : bool := PrimFloat.leb a b.
Definition ge (a b : double) : bool := PrimFloat.leb b a.

Definition isnan (a : double) : bool := PrimFloat.is_nan a.

End Double.
Import Double.
Bind Scope float_scope with double.

(** ** The libsensors boundary

    Only what [krun.c] uses of [<sensors/sensors.h>]: the header is not
    part of the program, so chips, features and subfeatures are modelled
    by the fields the program reads. *)
Module Sensors.

(** The two [sensors_subfeature_type] values the program names. *)
Inductive sensors_subfeature_type : Set :=
| SENSORS_SUBFEATURE_TEMP_INPUT
| SENSORS_SUBFEATURE_FAN_INPUT.

Definition subfeature_type_eqb (a b : sensors_subfeature_type) : bool :=
  match a, b with
  | SENSORS_SUBFEATURE_TEMP_INPUT, SENSORS_SUBFEATURE_TEMP_INPUT => true
  | SENSORS_SUBFEATURE_FAN_INPUT, SENSORS_SUBFEATURE_FAN_INPUT => true
  | _, _ => false
  end.

Record sensors_subfeature : Set := {
  sf_type : sensors_subfeature_type;
  number : Z
}.

(** [name] is a [char*] that may be NULL. *)
Record sensors_feature : Set := {
  name : option string;
  subfeatures : list sensors_subfeature
}.

(** A detected chip, with the features [sensors_get_features]
    enumerates for it, in enumeration order. *)
Record sensors_chip_name : Set := {
  chip_id : Z;
  features : list sensors_feature
}.

(** The answers of the library during start-up. *)
Record library : Set := {
  (** return code of [sensors_init(NULL)] *)
  sensors_init : Z;
  (** return code of [sensors_parse_chip_name] on a chip name *)
  sensors_parse_chip_name : string -> Z;
  (** the chips [sensors_get_detected_chips] enumerates for the
      parsed name, in enumeration order *)
  sensors_get_detected_chips : string -> list sensors_chip_name
}.

(** [sensors_get_subfeature]: the subfeature of the given type, NULL
    when the feature has none. *)
Definition sensors_get_subfeature (ft : sensors_feature)
    (ty : sensors_subfeature_type) : option sensors_subfeature :=
  find (fun sf => subfeature_type_eqb (sf_type sf) ty) (subfeatures ft).

(** One call of [sensors_get_value]: return code and the value stored
    through the pointer. *)
Definition reading : Set := (Z * double)%type.

End Sensors.
Import Sensors.

(** ** Events: what the program does to the outside *)

Inductive signal : Set := SIGSTOP | SIGCONT | SIGKILL.

Definition signal_eqb (a b : signal) : bool :=
  match a, b with
  | SIGSTOP, SIGSTOP | SIGCONT, SIGCONT | SIGKILL, SIGKILL => true
  | _, _ => false
  end.

(** The lines written to [stderr], by their format string. *)
Inductive diagnostic : Set :=
| Unable_to_parse_chip_name (chip_name : string) (rc : Z)
| Failed_to_find_feature (feature_name chip_name : string)
| Cant_find_input_subfeature (chip_name feature_name : string)
| Sensors_init_error (rc : Z)
| Unable_to_read_value (chip_name feature_name : string) (rc : Z)
| Could_not_set_pgrp (p err : Z)
| Error_running_subprocess (err : Z)
| Tried_to_CONT (child rc : Z)
| Tried_to_STOP (child rc : Z)
| Tried_to_INT (child rc : Z)
| Usage (argv0 : string)
| Hot_threshold_must_not_exceed_90 (hot_threshold : double)
| Cool_threshold_must_be_at_least_30 (cool_threshold : double)
| Hot_threshold_must_be_more_than_cool.

(** The status lines written to [stdout], by their numeric prefix. *)
Inductive notice : Set :=
| N171 (t : double) (child : Z)   (* Temperature up to t, suspending pid *)
| N172 (t : double) (child : Z)   (* Temperature down to t, resuming pid *)
| N173                            (* Ctrl-C detected while suspended *)
| N174.                           (* Ctrl-C detected, killing child *)

Inductive event : Set :=
| Stderr (d : diagnostic)
| Stdout (n : notice)
| Sensors_get_value (chip : option sensors_chip_name) (subfeature_i : Z)
| Install_SIGINT_handler
| Fork
| Setpgid (pid pgid : Z)
| Kill (pid : Z) (sig : signal)
| Waitid (pid : Z) (ret : Z) (status : option Z)
| Nanosleep (tv_sec tv_nsec : Z)
| Sensors_cleanup.

Definition is_kill (sig : signal) (e : event) : bool :=
  match e with
  | Kill _ sg => signal_eqb sg sig
  | _ => false
  end.

Definition is_waitid (e : event) : bool :=
  match e with
  | Waitid _ _ _ => true
  | _ => false
  end.

Definition is_notice (k : Z) (e : event) : bool :=
  match e with
  | Stdout (N171 _ _) => Z.eqb k 171
  | Stdout (N172 _ _) => Z.eqb k 172
  | Stdout N173 => Z.eqb k 173
  | Stdout N174 => Z.eqb k 174
  | _ => false
  end.

Definition count (p : event -> bool) (evs : list event) : nat :=
  List.length (filter p evs).

(** ** Programs: an event log, and a value unless the process ended

    [exit(status)] ends the process at once; a successful [execvp]
    replaces the program, so nothing of [krun.c] runs after it. *)

Inductive result (A : Type) : Type :=
| Value (a : A)
| Exit (status : Z)
| Exec (argv : list string).
Arguments Value {A} a.
Arguments Exit {A} status.
Arguments Exec {A} argv.

Definition prog (A : Type) : Type := (list event * result A)%type.

Definition ret {A} (a : A) : prog A := ([], Value a).

Definition bind {A B} (m : prog A) (k : A -> prog B) : prog B :=
  match m with
  | (l, Value a) => let (l', r) := k a in (l ++ l', r)
  | (l, Exit c) => (l, Exit c)
  | (l, Exec v) => (l, Exec v)
  end.

Definition emit (e : event) : prog unit := ([e], Value tt).
Definition exit {A} (status : Z) : prog A := ([], Exit status).
Definition fprintf_stderr (d : diagnostic) : prog unit := emit (Stderr d).
Definition printf (n : notice) : prog unit := emit (Stdout n).

Declare Scope prog_scope.
Delimit Scope prog_scope with prog.
Notation "x <- c ;; k" := (bind c (fun x => k))
  (at level 61, c at next level, right associativity) : prog_scope.
Notation "c ;; k" := (bind c (fun _ => k))
  (at level 61, right associativity) : prog_scope.
Local Open Scope prog_scope.

(** The status a waiting parent sees for [exit(status)] or for
    [return status] from [main]: the low eight bits. *)
Definition exit_status (status : Z) : Z := Z.land status 255.

(** ** The program *)
Module Krun.

Definition NUM_TEMPERATURE_FEATURES : Z := 6.
Definition NUM_FAN_FEATURES : Z := 2.

(** [struct timespec] as seconds and nanoseconds. *)
Definition hot_delay : Z * Z := (1, 0).
Definition cool_delay : Z * Z := (0, 100 * 1000000).

Record feature_t : Set := {
  chip_name : string;
  feature_name : string;
  chip : option sensors_chip_name;
  feature : option sensors_feature;
  subfeature_i : Z
}.

(** A table entry as the initialiser leaves it: the pointers NULL,
    the index 0. *)
Definition entry (chip_name feature_name : string) : feature_t :=
  {| chip_name := chip_name; feature_name := feature_name;
     chip := None; feature := None; subfeature_i := 0 |}.

Definition temperature_features : list feature_t :=
  [ entry "coretemp-isa-0000" "temp2";
    entry "coretemp-isa-0000" "temp3";
    entry "coretemp-isa-0000" "temp4";
    entry "coretemp-isa-0000" "temp5";
    entry "coretemp-isa-0000" "temp6";
    entry "coretemp-isa-0000" "temp7" ].

Definition fan_features : list feature_t :=
  [ entry "nct6776-isa-0290" "fan1";
    entry "nct6776-isa-0290" "fan2" ].

(** The [for] loops over the tables run to these bounds; the model
    walks the lists. *)
Definition table_sizes : bool :=
  (Z.of_nat (List.length temperature_features) =? NUM_TEMPERATURE_FEATURES)
  && (Z.of_nat (List.length fan_features) =? NUM_FAN_FEATURES).

(** The inner [while (1)] of [init_feature]: the first feature of the
    chip whose name is not NULL and equals [feature_name]. *)
Fixpoint scan_features (feature_name : string)
    (fs : list sensors_feature) : option sensors_feature :=
  match fs with
  | [] => None
  | ft :: rest =>
      match name ft with
      | Some n =>
          if String.eqb feature_name n then Some ft
          else scan_features feature_name rest
      | None => scan_features feature_name rest
      end
  end.

(** The outer [while (1)]: the first detected chip that has such a
    feature; [None] when the enumeration ends first. *)
Fixpoint scan_chips (feature_name : string)
    (cs : list sensors_chip_name)
    : option (sensors_chip_name * sensors_feature) :=
  match cs with
  | [] => None
  | c :: rest =>
      match scan_features feature_name (features c) with
      | Some ft => Some (c, ft)
      | None => scan_chips feature_name rest
      end
  end.

Definition init_feature (lib : library) (f : feature_t)
    (feature_type : sensors_subfeature_type) : prog feature_t :=
  let rc := sensors_parse_chip_name lib (chip_name f) in
  if negb (rc =? 0) then
    fprintf_stderr (Unable_to_parse_chip_name (chip_name f) rc) ;;
    exit (-1)
  else
    match scan_chips (feature_name f)
            (sensors_get_detected_chips lib (chip_name f)) with
    | None =>
        fprintf_stderr
          (Failed_to_find_feature (feature_name f) (chip_name f)) ;;
        exit (-1)
    | Some (c, ft) =>
        match sensors_get_subfeature ft feature_type with
        | None =>
            fprintf_stderr
              (Cant_find_input_subfeature (chip_name f) (feature_name f)) ;;
            exit (-1)
        | Some sf =>
            ret {| chip_name := chip_name f;
                   feature_name := feature_name f;
                   chip := Some c; feature := Some ft;
                   subfeature_i := number sf |}
        end
    end.

(** The two flags the signal handler shares with the loop, and the
    locals of [main] that change in the loop. *)
Record state : Set := {
  hot : Z;
  killed : Z;       (* ctrl-C was pressed and not yet handled *)
  hot_killed : Z;   (* ctrl-C pressed while suspended *)
  si_status : Z
}.

Definition set_hot (v : Z) (s : state) : state :=
  {| hot := v; killed := killed s; hot_killed := hot_killed s;
     si_status := si_status s |}.
Definition set_killed (v : Z) (s : state) : state :=
  {| hot := hot s; killed := v; hot_killed := hot_killed s;
     si_status := si_status s |}.
Definition set_hot_killed (v : Z) (s : state) : state :=
  {| hot := hot s; killed := killed s; hot_killed := v;
     si_status := si_status s |}.
Definition set_si_status (v : Z) (s : state) : state :=
  {| hot := hot s; killed := killed s; hot_killed := hot_killed s;
     si_status := v |}.

Definition handle_INT (s : state) : state :=
  set_hot_killed 1 (set_killed 1 s).

(** A [for] loop over a feature table that updates each entry. *)
Fixpoint init_features (lib : library) (fs : list feature_t)
    (feature_type : sensors_subfeature_type) : prog (list feature_t) :=
  match fs with
  | [] => ret []
  | f :: rest =>
      f' <- init_feature lib f feature_type ;;
      rest' <- init_features lib rest feature_type ;;
      ret (f' :: rest')
  end.

(** [init]: returns the two tables as resolved. *)
Definition init (lib : library) : prog (list feature_t * list feature_t) :=
  let rc := sensors_init lib in
  if negb (rc =? 0) then
    fprintf_stderr (Sensors_init_error rc) ;;
    exit (-1)
  else
    temps <- init_features lib temperature_features
               SENSORS_SUBFEATURE_TEMP_INPUT ;;
    fans <- init_features lib fan_features
              SENSORS_SUBFEATURE_FAN_INPUT ;;
    emit Install_SIGINT_handler ;;
    ret (temps, fans).

Definition cleanup : prog unit := emit Sensors_cleanup.

(** What [sensors_get_value] answers at one sampling instant, by chip
    and subfeature number. *)
Definition sensor_source : Set :=
  option sensors_chip_name -> Z -> reading.

(** The [for] loop of [detect_temp], with [max] so far. *)
Fixpoint detect_temp_from (src : sensor_source) (fs : list feature_t)
    (max : double) : prog double :=
  match fs with
  | [] => ret max
  | f :: rest =>
      let (rc, value) := src (chip f) (subfeature_i f) in
      emit (Sensors_get_value (chip f) (subfeature_i f)) ;;
      if negb (rc =? 0) then
        fprintf_stderr
          (Unable_to_read_value (chip_name f) (feature_name f) rc) ;;
        exit (-1)
      else
        detect_temp_from src rest (if gt value max then value else max)
  end.

Definition detect_temp (src : sensor_source) (temps : list feature_t)
    : prog double :=
  detect_temp_from src temps (-1.0)%float.

(** What the kernel answers to [start_child]. *)
Record spawn : Set := {
  fork_ret : Z;           (* what [fork] returns in this process *)
  setpgid_ret : Z;        (* the parent's [setpgid(p, 0)] *)
  setpgid_errno : Z;
  getpgid_ret : Z;        (* [getpgid(p)] *)
  execvp_errno : option Z (* [None]: the command is running *)
}.

Definition start_child (k : spawn) (argv : list string) : prog Z :=
  emit Fork ;;
  let p := fork_ret k in
  if negb (p =? 0) then
    emit (Setpgid p 0) ;;
    if negb (setpgid_ret k =? 0) then
      let err := setpgid_errno k in
      if negb (getpgid_ret k =? p) then
        fprintf_stderr (Could_not_set_pgrp p err) ;;
        exit (-1)
      else ret p
    else ret p
  else
    (* I'm the child *)
    emit (Setpgid 0 0) ;;
    match execvp_errno k with
    | None => ([], Exec argv)
    | Some err =>
        fprintf_stderr (Error_running_subprocess err) ;;
        exit (-1)
    end.

(** [kill(pid, sig)] with the return code the kernel gives. *)
Definition resume (kill_ret : Z -> signal -> Z) (child : Z) : prog unit :=
  emit (Kill (- child) SIGCONT) ;;
  let rc := kill_ret (- child) SIGCONT in
  if negb (rc =? 0) then fprintf_stderr (Tried_to_CONT child rc)
  else ret tt.

Definition suspend (kill_ret : Z -> signal -> Z) (child : Z) : prog unit :=
  emit (Kill (- child) SIGSTOP) ;;
  let rc := kill_ret (- child) SIGSTOP in
  if negb (rc =? 0) then fprintf_stderr (Tried_to_STOP child rc)
  else ret tt.

Definition kill_child (kill_ret : Z -> signal -> Z) (child : Z)
    : prog unit :=
  emit (Kill child SIGKILL) ;;
  let rc := kill_ret child SIGKILL in
  if negb (rc =? 0) then fprintf_stderr (Tried_to_INT child rc)
  else ret tt.

(** What the surroundings answer during one iteration of the loop of
    [main].

    [sigint] says whether the handler ran since the previous iteration
    read the flags and before this one tests them (during the sleep or
    the sampling).  The handler only stores 1 into the two flags.  A
    delivery later in the turn, after the test of a flag, is the
    subject of [iteration_at] below.

    [waitid] with [WNOHANG] returns 0 both when it reaps the child,
    storing the child's status in [si.si_status], and when the child
    has not changed state; it returns -1 on error, for instance when
    there is no such child any more, and what it then leaves in
    [si.si_status] is the kernel's choice (Linux since 4.13 clears
    it). *)
Record tick : Set := {
  sigint : bool;
  sensors : sensor_source;
  kill_ret : Z -> signal -> Z;
  (** [waitid(P_PID, child, &si, WEXITED | WNOHANG)]: the return
      value, and what it stored in [si.si_status], if anything *)
  waitid_ret : Z;
  waitid_status : option Z
}.

(** The flags as an iteration finds them: the handler has run if the
    signal was delivered. *)
Definition delivered (k : tick) (s : state) : state :=
  if sigint k then handle_INT s else s.

(** How an iteration of [while (1)] ends. *)
Inductive control : Set :=
| Continue (s : state)
| Break (s : state).

Definition state_of (c : control) : state :=
  match c with
  | Continue s => s
  | Break s => s
  end.

Section Loop.

Variables hot_threshold cool_threshold : double.
Variable child : Z.
Variable temps : list feature_t.

(** The [if (hot) ... else ...] of the loop, for the sample [t]. *)
Definition loop_body (t : double) (s : state) (k : tick)
    : prog control :=
  if negb (hot s =? 0) then
    s1 <- (if negb (hot_killed s =? 0) then
             printf N173 ;;
             ret (set_hot_killed 0 s)
           else ret s) ;;
    s2 <- (if lt t cool_threshold then
             printf (N172 t child) ;;
             resume (kill_ret k) child ;;
             ret (set_hot 0 s1)
           else ret s1) ;;
    ret (Continue s2)
  else
    s1 <- (if negb (killed s =? 0) then
             printf N174 ;;
             kill_child (kill_ret k) child ;;
             ret (set_killed 0 s)
           else ret s) ;;
    emit (Waitid child (waitid_ret k) (waitid_status k)) ;;
    let s2 := match waitid_status k with
              | Some st => set_si_status st s1
              | None => s1
              end in
    if negb (waitid_ret k =? 0) then ret (Break s2)
    else
      s3 <- (if gt t hot_threshold then
               printf (N171 t child) ;;
               suspend (kill_ret k) child ;;
               ret (set_hot 1 s2)
             else ret s2) ;;
      ret (Continue s3).

(** The [nanosleep] that ends a turn, unless the turn left the loop. *)
Definition sleep (c : control) : prog control :=
  match c with
  | Continue s' =>
      let (sec, nsec) :=
        if negb (hot s' =? 0) then hot_delay else cool_delay in
      emit (Nanosleep sec nsec) ;;
      ret c
  | Break _ => ret c
  end.

(** One turn of [while (1)]: sample, act, sleep. *)
Definition iteration (s : state) (k : tick) : prog control :=
  let s := delivered k s in
  t <- detect_temp (sensors k) temps ;;
  c <- loop_body t s k ;;
  sleep c.

(** How a run of the loop over finitely many ticks ends: by [break],
    or with the loop still turning. *)
Inductive loop_end : Set :=
| Broke (s : state)
| Unfinished (s : state).

Fixpoint run (s : state) (ks : list tick) : prog loop_end :=
  match ks with
  | [] => ret (Unfinished s)
  | k :: rest =>
      c <- iteration s k ;;
      match c with
      | Continue s' => run s' rest
      | Break s' => ret (Broke s')
      end
  end.

End Loop.

(** SIGINT is asynchronous: the handler can also run inside a turn,
    after the branch has tested its flag.  [After_the_test] is a
    delivery between the evaluation of [if (hot_killed)] or
    [if (killed)] and the assignment inside its block, when the block
    is entered; [After_the_block] is a delivery after that [if]
    statement and before the turn changes [hot].  A delivery before
    the test is [sigint], and a delivery after the change of [hot] is
    the [sigint] of the next turn. *)
Inductive moment : Set :=
| Never
| After_the_test
| After_the_block.

Definition moment_eqb (a b : moment) : bool :=
  match a, b with
  | Never, Never => true
  | After_the_test, After_the_test => true
  | After_the_block, After_the_block => true
  | _, _ => false
  end.

(** The handler runs at the point [here] when that is the moment [m]
    of the delivery. *)
Definition taken (m here : moment) (s : state) : state :=
  if moment_eqb m here then handle_INT s else s.

Section Timing.

Variables hot_threshold cool_threshold : double.
Variable child : Z.
Variable temps : list feature_t.

(** The [if (hot) ... else ...] of the loop with the handler running
    at the moment [m]. *)
Definition loop_body_at (m : moment) (t : double) (s : state) (k : tick)
    : prog control :=
  if negb (hot s =? 0) then
    s1 <- (if negb (hot_killed s =? 0) then
             printf N173 ;;
             ret (set_hot_killed 0 (taken m After_the_test s))
           else ret (taken m After_the_test s)) ;;
    let s1 := taken m After_the_block s1 in
    s2 <- (if lt t cool_threshold then
             printf (N172 t child) ;;
             resume (kill_ret k) child ;;
             ret (set_hot 0 s1)
           else ret s1) ;;
    ret (Continue s2)
  else
    s1 <- (if negb (killed s =? 0) then
             printf N174 ;;
             kill_child (kill_ret k) child ;;
             ret (set_killed 0 (taken m After_the_test s))
           else ret (taken m After_the_test s)) ;;
    let s1 := taken m After_the_block s1 in
    emit (Waitid child (waitid_ret k) (waitid_status k)) ;;
    let s2 := match waitid_status k with
              | Some st => set_si_status st s1
              | None => s1
              end in
    if negb (waitid_ret k =? 0) then ret (Break s2)
    else
      s3 <- (if gt t hot_threshold then
               printf (N171 t child) ;;
               suspend (kill_ret k) child ;;
               ret (set_hot 1 s2)
             else ret s2) ;;
      ret (Continue s3).

(** One turn of [while (1)] with the handler running before the test
    if [sigint k], and at the moment [m]. *)
Definition iteration_at (m : moment) (s : state) (k : tick)
    : prog control :=
  let s := delivered k s in
  t <- detect_temp (sensors k) temps ;;
  c <- loop_body_at m t s k ;;
  sleep c.

Fixpoint run_at (s : state) (bs : list (moment * tick))
    : prog loop_end :=
  match bs with
  | [] => ret (Unfinished s)
  | (m, k) :: rest =>
      c <- iteration_at m s k ;;
      match c with
      | Continue s' => run_at s' rest
      | Break s' => ret (Broke s')
      end
  end.

End Timing.

(** The command line and the surroundings of one execution.
    [hot_arg] and [cool_arg] are what [strtod] makes of [argv[1]] and
    [argv[2]]; [command] is [&argv[3]]. *)
Record world : Set := {
  argc : Z;
  argv0 : string;
  hot_arg : double;
  cool_arg : double;
  command : list string;
  lib : library;
  child_start : spawn;
  ticks : list tick
}.

(** The checks at the head of [main]. *)
Definition check_arguments (argc : Z) (argv0 : string)
    (hot_threshold cool_threshold : double) : prog unit :=
  if argc <? 4 then
    fprintf_stderr (Usage argv0) ;;
    exit (-1)
  else if gt hot_threshold 90.0%float then
    fprintf_stderr (Hot_threshold_must_not_exceed_90 hot_threshold) ;;
    exit (-1)
  else if lt cool_threshold 30.0%float then
    fprintf_stderr (Cool_threshold_must_be_at_least_30 cool_threshold) ;;
    exit (-1)
  else if lt hot_threshold cool_threshold then
    fprintf_stderr Hot_threshold_must_be_more_than_cool ;;
    exit (-1)
  else ret tt.

Definition initial : state :=
  {| hot := 0; killed := 0; hot_killed := 0; si_status := 0 |}.

(** How [main] ends when the process is not ended by [exit] or
    replaced by [execvp]. *)
Inductive main_end : Set :=
| Returned (v : Z)
| Looping (s : state).

Definition main (w : world) : prog main_end :=
  check_arguments (argc w) (argv0 w) (hot_arg w) (cool_arg w) ;;
  tables <- init (lib w) ;;
  child <- start_child (child_start w) (command w) ;;
  e <- run (hot_arg w) (cool_arg w) child (fst tables) initial (ticks w) ;;
  match e with
  | Broke s => cleanup ;; ret (Returned (si_status s))
  | Unfinished s => ret (Looping s)
  end.

End Krun.
Import Krun.

(** ** Sample surroundings

    A machine on which every configured sensor resolves, and ticks in
    which every core reports the same temperature. *)
Module Sample.

Definition temp_feature (n : string) (i : Z) : sensors_feature :=
  {| name := Some n;
     subfeatures := [ {| sf_type := SENSORS_SUBFEATURE_TEMP_INPUT;
                         number := i |} ] |}.

Definition fan_feature (n : string) (i : Z) : sensors_feature :=
  {| name := Some n;
     subfeatures := [ {| sf_type := SENSORS_SUBFEATURE_FAN_INPUT;
                         number := i |} ] |}.

Definition coretemp : sensors_chip_name :=
  {| chip_id := 0;
     features := [ temp_feature "temp1" 0; temp_feature "temp2" 4;
                   temp_feature "temp3" 8; temp_feature "temp4" 12;
                   temp_feature "temp5" 16; temp_feature "temp6" 20;
                   temp_feature "temp7" 24 ] |}.

Definition nct6776 : sensors_chip_name :=
  {| chip_id := 1;
     features := [ fan_feature "fan1" 0; fan_feature "fan2" 3 ] |}.

Definition machine : library :=
  {| sensors_init := 0;
     sensors_parse_chip_name := fun _ => 0;
     sensors_get_detected_chips := fun n =>
       if String.eqb n "coretemp-isa-0000" then [coretemp]
       else if String.eqb n "nct6776-isa-0290" then [nct6776]
       else [] |}.

(** The same machine with libsensors failing to initialise. *)
Definition unconfigured : library :=
  {| sensors_init := -4;
     sensors_parse_chip_name := sensors_parse_chip_name machine;
     sensors_get_detected_chips := sensors_get_detected_chips machine |}.

(** The parent's view of a [fork] that gave pid 4242. *)
Definition forked : spawn :=
  {| fork_ret := 4242; setpgid_ret := 0; setpgid_errno := 0;
     getpgid_ret := 4242; execvp_errno := None |}.

(** Every core reads [t]. *)
Definition all_cores (t : double) : sensor_source := fun _ _ => (0, t).

(** Cores that read the listed values, by subfeature number 4, 8, ... *)
Definition cores (ts : list double) : sensor_source :=
  fun _ i => (0, nth (Z.to_nat (i / 4 - 1)) ts 0%float).

(** A tick in which every core reads [t], no Ctrl-C arrives, every
    [kill] succeeds, and [waitid] finds the child still running (it
    returns 0 and clears [si_status], as Linux does). *)
Definition quiet (t : double) : tick :=
  {| sigint := false; sensors := all_cores t;
     kill_ret := fun _ _ => 0;
     waitid_ret := 0; waitid_status := Some 0 |}.

(** The same, with Ctrl-C pressed before the iteration. *)
Definition interrupted (t : double) : tick :=
  {| sigint := true; sensors := all_cores t;
     kill_ret := fun _ _ => 0;
     waitid_ret := 0; waitid_status := Some 0 |}.

(** A tick in which [waitid] reaps the child: it returns 0 and stores
    the child's status. *)
Definition reaped (t : double) (status : Z) : tick :=
  {| sigint := false; sensors := all_cores t;
     kill_ret := fun _ _ => 0;
     waitid_ret := 0; waitid_status := Some status |}.

(** A tick in which [waitid] fails because there is no such child any
    more: it returns -1 and, as Linux does since 4.13, clears
    [si.si_status]. *)
Definition no_child (t : double) : tick :=
  {| sigint := false; sensors := all_cores t;
     kill_ret := fun _ _ => -1;
     waitid_ret := -1; waitid_status := Some 0 |}.

(** A tick at which no sensor can be read. *)
Definition unreadable : tick :=
  {| sigint := false; sensors := fun _ _ => (-5, 0%float);
     kill_ret := fun _ _ => 0;
     waitid_ret := 0; waitid_status := Some 0 |}.

(** Cores that read 50, except that the read of subfeature 8 fails. *)
Definition second_fails : sensor_source :=
  fun _ i => if i =? 8 then (-5, 0%float) else (0, 50%float).

(** The forked child's view of the same [fork], the command found. *)
Definition in_child : spawn :=
  {| fork_ret := 0; setpgid_ret := 0; setpgid_errno := 0;
     getpgid_ret := 0; execvp_errno := None |}.

(** A machine with two chips of the wanted name: the first has a
    feature [temp2] that offers a fan input only, the second is the
    real one. *)
Definition mislabelled : library :=
  {| sensors_init := 0;
     sensors_parse_chip_name := fun _ => 0;
     sensors_get_detected_chips := fun n =>
       if String.eqb n "coretemp-isa-0000"
       then [ {| chip_id := 7; features := [fan_feature "temp2" 1] |};
              coretemp ]
       else [nct6776] |}.

(** The temperature table as [init] resolves it on this machine. *)
Definition resolved : list feature_t :=
  match snd (init machine) with
  | Value tables => fst tables
  | _ => []
  end.

(** The governor with the child stopped and no Ctrl-C pending. *)
Definition heated : state :=
  {| hot := 1; killed := 0; hot_killed := 0; si_status := 0 |}.

Definition command_line (hot cool : double) (ks : list tick) : world :=
  {| argc := 4; argv0 := "krun"; hot_arg := hot; cool_arg := cool;
     command := ["sleep"%string]; lib := machine; child_start := forked;
     ticks := ks |}.

(** The same command line, followed in the forked child. *)
Definition child_side : world :=
  {| argc := 4; argv0 := "krun"; hot_arg := 75; cool_arg := 60;
     command := ["sleep"%string]; lib := machine; child_start := in_child;
     ticks := [quiet 70] |}.

End Sample.

(** ** Vocabulary of the properties *)

(** The temperature an iteration samples at a tick, when every read
    succeeds. *)
Definition sampled (temps : list feature_t) (k : tick) : option double :=
  match snd (detect_temp (sensors k) temps) with
  | Value t => Some t
  | _ => None
  end.

(** The state a run of the loop ends in. *)
Definition end_state (e : loop_end) : state :=
  match e with
  | Broke s => s
  | Unfinished s => s
  end.

(** The only way the process ends by [exit] is [exit(-1)], and the
    program is not replaced. *)
Definition fatal_only {A : Type} (p : prog A) : Prop :=
  match snd p with
  | Value _ => True
  | Exit c => c = -1
  | Exec _ => False
  end.

(** The events sampling can log: reads of sensors and, on failure, a
    diagnostic. *)
Definition sampling_event (e : event) : Prop :=
  match e with
  | Sensors_get_value _ _ | Stderr _ => True
  | _ => False
  end.

(** A tick whose sample keeps a Hot governor Hot. *)
Definition stays_hot (cool_threshold : double) (temps : list feature_t)
    (k : tick) : Prop :=
  exists t, sampled temps k = Some t /\ lt t cool_threshold = false.


(** The values the configured sensors report at one instant. *)
Definition readings (src : sensor_source) (fs : list feature_t)
    : list double :=
  map (fun f => snd (src (chip f) (subfeature_i f))) fs.

(** Every configured sensor can be read. *)
Definition all_succeed (src : sensor_source) (fs : list feature_t) : Prop :=
  Forall (fun f => fst (src (chip f) (subfeature_i f)) = 0) fs.

(** [r] is the maximum of [vs]: one of them, and none is greater. *)
Definition maximum_of (r : double) (vs : list double) : Prop :=
  In r vs /\ Forall (fun v => gt v r = false) vs.

(** The status [si.si_status] holds after the [waitid] calls of a log,
    starting from [init]. *)
Definition last_status (evs : list event) (init : Z) : Z :=
  fold_left (fun acc e =>
               match e with
               | Waitid _ _ (Some st) => st
               | _ => acc
               end) evs init.

(** A table entry resolves on a machine. *)
Definition resolves (l : library) (ty : sensors_subfeature_type)
    (f : feature_t) : Prop :=
  exists f', init_feature l f ty = ([], Value f').

(** The chip has no feature of that name. *)
Definition lacks_feature (n : string) (c : sensors_chip_name) : Prop :=
  Forall (fun ft => name ft <> Some n) (features c).

(** The events of start-up: diagnostics, the handler, the fork. *)
Definition startup_event (e : event) : Prop :=
  match e with
  | Stderr _ | Install_SIGINT_handler | Fork | Setpgid _ _ => True
  | _ => False
  end.

(** 1 when the int is true in C, else 0. *)
Definition truth (v : Z) : nat := if v =? 0 then 0%nat else 1%nat.

(** The number of ticks at which SIGINT is delivered. *)
Definition deliveries (ks : list tick) : nat :=
  List.length (filter sigint ks).

(** The same tick with other answers to [kill]. *)
Definition with_kill_ret (f : Z -> signal -> Z) (k : tick) : tick :=
  {| sigint := sigint k; sensors := sensors k; kill_ret := f;
     waitid_ret := waitid_ret k; waitid_status := waitid_status k |}.

(** The log without the lines written to [stderr]. *)
Definition without_stderr (evs : list event) : list event :=
  filter (fun e => match e with Stderr _ => false | _ => true end) evs.

Definition is_cleanup (e : event) : bool :=
  match e with
  | Sensors_cleanup => true
  | _ => false
  end.

Definition is_read (e : event) : bool :=
  match e with
  | Sensors_get_value _ _ => true
  | _ => false
  end.

Definition is_sleep (e : event) : bool :=
  match e with
  | Nanosleep _ _ => true
  | _ => false
  end.

(** The same tick with SIGINT taken before the test or not. *)
Definition with_sigint (b : bool) (k : tick) : tick :=
  {| sigint := b; sensors := sensors k; kill_ret := kill_ret k;
     waitid_ret := waitid_ret k; waitid_status := waitid_status k |}.

(** The flag the turn tests: [hot_killed] in state Hot, [killed] in
    state Cool. *)
Definition tested_flag (s : state) : Z :=
  if negb (hot s =? 0) then hot_killed s else killed s.

(** The handler runs when the turn has ended. *)
Definition interrupted_after (c : control) : control :=
  match c with
  | Continue s => Continue (handle_INT s)
  | Break s => Break (handle_INT s)
  end.

(** SIGINT is delivered in the turn, before the test of the flag or
    later. *)
Definition arrives (b : moment * tick) : Prop :=
  sigint (snd b) = true \/ fst b <> Never.

(** Whether a log's SIGSTOPs and SIGCONTs alternate, for a child that
    is stopped or not at its start: a SIGSTOP only for a child that is
    not stopped, a SIGCONT only for a stopped one.  The result is
    whether the child is stopped at the end, or [None] when two of a
    kind follow each other. *)
Fixpoint stop_cont (stopped : bool) (evs : list event) : option bool :=
  match evs with
  | [] => Some stopped
  | Kill _ SIGSTOP :: rest =>
      if stopped then None else stop_cont true rest
  | Kill _ SIGCONT :: rest =>
      if stopped then stop_cont false rest else None
  | _ :: rest => stop_cont stopped rest
  end.

(** A signal is aimed at the child: SIGKILL at the pid itself, SIGSTOP
    and SIGCONT at the process group of that number. *)
Definition aimed (child : Z) (e : event) : Prop :=
  match e with
  | Kill p SIGKILL => p = child
  | Kill p _ => p = - child
  | _ => True
  end.

(** What [main] logs after the loop. *)
Definition epilogue (r : result loop_end) : list event :=
  match r with
  | Value (Broke _) => [Sensors_cleanup]
  | _ => []
  end.

(** * Properties *)

(** ** Comparisons of doubles *)
Module DoubleFacts.

Lemma SFcompare_antisym (x y : spec_float) :
  SFcompare y x = option_map CompOpp (SFcompare x y).
Proof.
  destruct x as [s1|s1| |s1 m1 e1], y as [s2|s2| |s2 m2 e2]; simpl;
    try reflexivity;
    try (destruct s1; reflexivity); try (destruct s2; reflexivity);
    try (destruct s1, s2; reflexivity).
  change (PosDef.Pos.compare_cont Eq) with Pos.compare.
  destruct s1, s2; simpl; try reflexivity;
    rewrite (Z.compare_antisym e2 e1);
    destruct (e2 ?= e1); simpl; try reflexivity.
  - rewrite CompOpp_involutive. symmetry. f_equal. apply Pos.compare_antisym.
  - f_equal. apply Pos.compare_antisym.
Qed.

Lemma SFcompare_lt_trans (x y z : spec_float) :
  SFcompare x y = Some Lt -> SFcompare y z = Some Lt ->
  SFcompare x z = Some Lt.
Proof.
  destruct x as [s1|s1| |s1 m1 e1], y as [s2|s2| |s2 m2 e2],
           z as [s3|s3| |s3 m3 e3]; simpl;
    try discriminate; try reflexivity;
    try (destruct s1; simpl; congruence);
    try (destruct s2; simpl; congruence);
    try (destruct s3; simpl; congruence);
    try (destruct s1, s2; simpl; congruence);
    try (destruct s2, s3; simpl; congruence);
    try (destruct s1, s3; simpl; congruence);
    try (destruct s1, s2, s3; simpl; congruence).
  change (PosDef.Pos.compare_cont Eq) with Pos.compare.
  destruct s1, s2, s3; simpl; try congruence;
    destruct (Z.compare_spec e1 e2), (Z.compare_spec e2 e3),
             (Z.compare_spec e1 e3); try congruence; try lia;
    destruct (Pos.compare_spec m1 m2), (Pos.compare_spec m2 m3),
             (Pos.compare_spec m1 m3); simpl; try congruence; try lia.
Qed.

Lemma SFcompare_refl (x : spec_float) :
  x <> S754_nan -> SFcompare x x = Some Eq.
Proof.
  destruct x as [s|s| |s m e]; simpl; try congruence;
    try (destruct s; reflexivity).
  change (PosDef.Pos.compare_cont Eq) with Pos.compare.
  intros _. destruct s; rewrite Z.compare_refl, Pos.compare_refl; reflexivity.
Qed.

Lemma SFcompare_total (x y : spec_float) :
  x <> S754_nan -> y <> S754_nan -> exists c, SFcompare x y = Some c.
Proof.
  destruct x, y; simpl; try congruence; eauto.
Qed.

Lemma isnan_spec (a : double) :
  isnan a = true <-> Prim2SF a = S754_nan.
Proof.
  unfold isnan, PrimFloat.is_nan. rewrite eqb_spec. unfold SFeqb.
  destruct (Prim2SF a) eqn:E.
  - rewrite SFcompare_refl by discriminate. simpl. split; discriminate.
  - rewrite SFcompare_refl by discriminate. simpl. split; discriminate.
  - simpl. split; reflexivity.
  - rewrite SFcompare_refl by discriminate. simpl. split; discriminate.
Qed.

Lemma not_nan (a : double) :
  isnan a = false -> Prim2SF a <> S754_nan.
Proof.
  intros H E. apply isnan_spec in E. congruence.
Qed.

Lemma lt_irrefl (a : double) : lt a a = false.
Proof.
  unfold lt. rewrite ltb_spec. unfold SFltb.
  destruct (Prim2SF a) eqn:E; try reflexivity;
    rewrite SFcompare_refl by discriminate; reflexivity.
Qed.

Lemma lt_asym (a b : double) : lt a b = true -> lt b a = false.
Proof.
  unfold lt. rewrite !ltb_spec. unfold SFltb.
  rewrite (SFcompare_antisym (Prim2SF a) (Prim2SF b)).
  destruct (SFcompare (Prim2SF a) (Prim2SF b)) as [[]|]; simpl; congruence.
Qed.

Lemma lt_trans (a b c : double) :
  lt a b = true -> lt b c = true -> lt a c = true.
Proof.
  unfold lt. rewrite !ltb_spec. unfold SFltb. intros H1 H2.
  rewrite (SFcompare_lt_trans (Prim2SF a) (Prim2SF b) (Prim2SF c)).
  - reflexivity.
  - destruct (SFcompare (Prim2SF a) (Prim2SF b)) as [[]|]; congruence.
  - destruct (SFcompare (Prim2SF b) (Prim2SF c)) as [[]|]; congruence.
Qed.

(** [a <= b] excludes [a > b], NaN or not. *)
Lemma le_not_gt (a b : double) : le a b = true -> gt a b = false.
Proof.
  unfold le, gt. rewrite ltb_spec, leb_spec. unfold SFltb, SFleb.
  rewrite (SFcompare_antisym (Prim2SF a) (Prim2SF b)).
  destruct (SFcompare (Prim2SF a) (Prim2SF b)) as [[]|]; simpl; congruence.
Qed.

(** Among numbers, [a < b] fails exactly when [a >= b]. *)
Lemma not_lt_ge (a b : double) :
  isnan a = false -> isnan b = false ->
  (lt a b = false <-> ge a b = true).
Proof.
  intros Ha Hb. unfold lt, ge. rewrite ltb_spec, leb_spec.
  unfold SFltb, SFleb.
  rewrite (SFcompare_antisym (Prim2SF a) (Prim2SF b)).
  destruct (SFcompare_total (Prim2SF a) (Prim2SF b)) as [c Hc];
    auto using not_nan.
  rewrite Hc. destruct c; simpl; split; congruence.
Qed.

Lemma not_gt_le (a b : double) :
  isnan a = false -> isnan b = false ->
  (gt a b = false <-> le a b = true).
Proof.
  intros Ha Hb. unfold gt, le. apply (not_lt_ge b a); assumption.
Qed.

End DoubleFacts.

(** ** The tables *)

Lemma tables_have_their_sizes : table_sizes = true.
Proof. reflexivity. Qed.

(** ** Event logs *)

Lemma count_app (p : event -> bool) (l1 l2 : list event) :
  count p (l1 ++ l2) = (count p l1 + count p l2)%nat.
Proof.
  unfold count. rewrite filter_app, length_app. reflexivity.
Qed.

Lemma count_none (p : event -> bool) (l : list event) :
  (forall e, In e l -> p e = false) -> count p l = 0%nat.
Proof.
  unfold count. induction l as [|e l IH]; intros H; simpl.
  - reflexivity.
  - rewrite (H e) by (left; reflexivity).
    apply IH. intros e' He'. apply H. right. exact He'.
Qed.

Lemma count_positive (p : event -> bool) (l : list event) (e : event) :
  In e l -> p e = true -> (0 < count p l)%nat.
Proof.
  unfold count. induction l as [|e' l IH]; simpl; intros Hin Hp.
  - contradiction.
  - destruct Hin as [-> | Hin].
    + rewrite Hp. simpl. lia.
    + destruct (p e'); simpl; auto with arith.
Qed.

Lemma last_status_app (l1 l2 : list event) (init : Z) :
  last_status (l1 ++ l2) init = last_status l2 (last_status l1 init).
Proof.
  unfold last_status. apply fold_left_app.
Qed.

(** ** Sampling *)

Lemma detect_temp_from_events (src : sensor_source) (fs : list feature_t) :
  forall max e,
    In e (fst (detect_temp_from src fs max)) -> sampling_event e.
Proof.
  induction fs as [|f fs IH]; intros max e; simpl.
  - contradiction.
  - destruct (src (chip f) (subfeature_i f)) as [rc value].
    destruct (rc =? 0); simpl.
    + specialize (IH (if gt value max then value else max) e).
      destruct (detect_temp_from src fs
                  (if gt value max then value else max)) as [l r].
      simpl in *. intros [<- | H]; [exact I | auto].
    + intros [<- | [<- | []]]; exact I.
Qed.

Lemma sampled_detect_temp (temps : list feature_t) (k : tick) (t : double) :
  sampled temps k = Some t ->
  exists revs,
    detect_temp (sensors k) temps = (revs, Value t) /\
    (forall e, In e revs -> sampling_event e).
Proof.
  unfold sampled. intros H.
  pose proof (detect_temp_from_events (sensors k) temps (-1.0)%float) as Hev.
  fold (detect_temp (sensors k) temps) in Hev.
  destruct (detect_temp (sensors k) temps) as [revs [t'| |]];
    simpl in *; try discriminate.
  exists revs. split; [congruence | exact Hev].
Qed.

Lemma sampling_no_kill (sig : signal) (revs : list event) :
  (forall e, In e revs -> sampling_event e) -> count (is_kill sig) revs = 0%nat.
Proof.
  intros H. apply count_none. intros e He. apply H in He.
  destruct e; simpl in *; try reflexivity; contradiction.
Qed.

Lemma sampling_no_waitid (revs : list event) :
  (forall e, In e revs -> sampling_event e) -> count is_waitid revs = 0%nat.
Proof.
  intros H. apply count_none. intros e He. apply H in He.
  destruct e; simpl in *; try reflexivity; contradiction.
Qed.

Lemma sampling_no_notice (n : Z) (revs : list event) :
  (forall e, In e revs -> sampling_event e) ->
  count (is_notice n) revs = 0%nat.
Proof.
  intros H. apply count_none. intros e He. apply H in He.
  destruct e; simpl in *; try reflexivity; contradiction.
Qed.

Lemma sampling_last_status (revs : list event) (init : Z) :
  (forall e, In e revs -> sampling_event e) -> last_status revs init = init.
Proof.
  unfold last_status. revert init.
  induction revs as [|e revs IH]; intros init H; simpl.
  - reflexivity.
  - rewrite IH by (intros e' He'; apply H; right; exact He').
    specialize (H e (or_introl eq_refl)).
    destruct e; simpl in *; try reflexivity; contradiction.
Qed.

(** ** One turn of the loop *)

(** Unfolds the body of a turn down to the event lists, then splits on
    each test the body makes. *)
Ltac unfold_turn :=
  unfold Krun.loop_body, sleep, resume, suspend, kill_child, printf,
    fprintf_stderr, emit, exit, ret, bind, hot_delay, cool_delay.

Ltac split_tests :=
  repeat match goal with
         | |- context [if ?b then _ else _] => destruct b eqn:?
         | |- context [match waitid_status ?k with _ => _ end] =>
             destruct (waitid_status k) eqn:?
         end.

Lemma eqb_zero (x : Z) : x = 0 -> negb (x =? 0) = false.
Proof. intros ->. reflexivity. Qed.

Lemma eqb_nonzero (x : Z) : x <> 0 -> negb (x =? 0) = true.
Proof. intros H. apply Z.eqb_neq in H. rewrite H. reflexivity. Qed.

Section Turn.

Variables hot_threshold cool_threshold : double.
Variable child : Z.
Variable temps : list feature_t.

Local Abbreviation loop_body := (loop_body hot_threshold cool_threshold child).
Local Abbreviation iteration :=
  (iteration hot_threshold cool_threshold child temps).
Local Abbreviation run := (run hot_threshold cool_threshold child temps).

Lemma iteration_sampled (s : state) (k : tick) (t : double) :
  sampled temps k = Some t ->
  exists revs,
    (forall e, In e revs -> sampling_event e) /\
    iteration s k =
      (revs ++ fst (c <- loop_body t (delivered k s) k ;; sleep c),
       snd (c <- loop_body t (delivered k s) k ;; sleep c)).
Proof.
  intros H. destruct (sampled_detect_temp temps k t H) as [revs [E Hev]].
  exists revs. split; [exact Hev|].
  unfold Krun.iteration. rewrite E.
  unfold bind at 1.
  destruct (c <- loop_body t (delivered k s) k ;; sleep c) as [l r].
  reflexivity.
Qed.

Lemma hot_delivered (k : tick) (s : state) : hot (delivered k s) = hot s.
Proof. unfold delivered. destruct (sigint k); reflexivity. Qed.

Lemma si_status_delivered (k : tick) (s : state) :
  si_status (delivered k s) = si_status s.
Proof. unfold delivered. destruct (sigint k); reflexivity. Qed.

(** A turn whose sampling fails logs sampling events only and ends the
    process. *)
Lemma iteration_unsampled (s : state) (k : tick) :
  sampled temps k = None ->
  (forall e, In e (fst (iteration s k)) -> sampling_event e) /\
  (forall c, snd (iteration s k) <> Value c).
Proof.
  unfold Krun.iteration, sampled. intros H.
  pose proof (detect_temp_from_events (sensors k) temps (-1.0)%float) as Hev.
  fold (detect_temp (sensors k) temps) in Hev.
  destruct (detect_temp (sensors k) temps) as [revs [t| |]];
    try discriminate; simpl in *; split; auto; discriminate.
Qed.

(** C3: a sample above the hot threshold in state Cool, with [waitid]
    returning 0, makes the state Hot, prints one 171 line and sends one
    SIGSTOP, to the child's process group; a turn that starts in state
    Hot sends no SIGSTOP and prints no 171 line. *)
Theorem heating_suspends_once :
  (forall s k t,
      hot s = 0 ->
      sampled temps k = Some t ->
      waitid_ret k = 0 ->
      gt t hot_threshold = true ->
      exists evs s',
        iteration s k = (evs, Value (Continue s')) /\
        hot s' = 1 /\
        count (is_notice 171) evs = 1%nat /\
        In (Stdout (N171 t child)) evs /\
        count (is_kill SIGSTOP) evs = 1%nat /\
        In (Kill (- child) SIGSTOP) evs) /\
  (forall s k,
      hot s <> 0 ->
      count (is_kill SIGSTOP) (fst (iteration s k)) = 0%nat /\
      count (is_notice 171) (fst (iteration s k)) = 0%nat).
Proof.
  split.
  - intros s k t Hcool Hs Hw Hgt.
    destruct (iteration_sampled s k t Hs) as [revs [Hev ->]].
    rewrite <- (hot_delivered k s) in Hcool.
    generalize dependent (delivered k s). intros s0 Hcool.
    unfold_turn. rewrite (eqb_zero _ Hcool), (eqb_zero _ Hw), Hgt.
    split_tests; simpl;
      (eexists; eexists; split; [reflexivity|]);
      rewrite !count_app, (sampling_no_notice 171 revs Hev),
        (sampling_no_kill SIGSTOP revs Hev);
      (split; [reflexivity|]); (split; [reflexivity|]);
      (split; [apply in_or_app; right; simpl; tauto|]);
      (split; [reflexivity|]); apply in_or_app; right; simpl; tauto.
  - intros s k Hhot.
    destruct (sampled temps k) as [t|] eqn:Hs.
    + destruct (iteration_sampled s k t Hs) as [revs [Hev ->]].
      rewrite <- (hot_delivered k s) in Hhot.
      generalize dependent (delivered k s). intros s0 Hhot.
      unfold_turn. rewrite (eqb_nonzero _ Hhot).
      split_tests; simpl;
        rewrite !count_app, (sampling_no_notice 171 revs Hev),
          (sampling_no_kill SIGSTOP revs Hev); split; reflexivity.
    + destruct (iteration_unsampled s k Hs) as [Hev _].
      split; auto using sampling_no_kill, sampling_no_notice.
Qed.

(** A Hot turn whose sample is below the cool threshold sends SIGCONT
    to the child's process group. *)
Lemma cooling_turn_resumes (s : state) (k : tick) (t : double) :
  hot s <> 0 ->
  sampled temps k = Some t ->
  lt t cool_threshold = true ->
  exists evs s',
    iteration s k = (evs, Value (Continue s')) /\
    In (Kill (- child) SIGCONT) evs.
Proof.
  intros Hhot Hs Hlt.
  destruct (iteration_sampled s k t Hs) as [revs [Hev ->]].
  rewrite <- (hot_delivered k s) in Hhot.
  generalize dependent (delivered k s). intros s0 Hhot.
  unfold_turn. rewrite (eqb_nonzero _ Hhot), Hlt.
  split_tests; simpl;
    (eexists; eexists; split; [reflexivity|]);
    apply in_or_app; right; simpl; tauto.
Qed.

(** C4: a sample below the cool threshold in state Hot makes the state
    Cool, prints one 172 line and sends one SIGCONT, to the child's
    process group. *)
Theorem cooling_resumes_once :
  forall s k t,
    hot s <> 0 ->
    sampled temps k = Some t ->
    lt t cool_threshold = true ->
    exists evs s',
      iteration s k = (evs, Value (Continue s')) /\
      hot s' = 0 /\
      count (is_notice 172) evs = 1%nat /\
      In (Stdout (N172 t child)) evs /\
      count (is_kill SIGCONT) evs = 1%nat /\
      In (Kill (- child) SIGCONT) evs.
Proof.
  intros s k t Hhot Hs Hlt.
  destruct (iteration_sampled s k t Hs) as [revs [Hev ->]].
  rewrite <- (hot_delivered k s) in Hhot.
  generalize dependent (delivered k s). intros s0 Hhot.
  unfold_turn. rewrite (eqb_nonzero _ Hhot), Hlt.
  split_tests; simpl;
    (eexists; eexists; split; [reflexivity|]);
    rewrite !count_app, (sampling_no_notice 172 revs Hev),
      (sampling_no_kill SIGCONT revs Hev);
    (split; [reflexivity|]); (split; [reflexivity|]);
    (split; [apply in_or_app; right; simpl; tauto|]);
    (split; [reflexivity|]); apply in_or_app; right; simpl; tauto.
Qed.

(** C6: a sample inside the band [cool_threshold <= t <= hot_threshold]
    leaves [hot] as it was, in either state, and the turn sends neither
    SIGSTOP nor SIGCONT. *)
Theorem band_is_sticky :
  forall s k t,
    sampled temps k = Some t ->
    le cool_threshold t = true ->
    le t hot_threshold = true ->
    exists evs c,
      iteration s k = (evs, Value c) /\
      hot (state_of c) = hot s /\
      count (is_kill SIGSTOP) evs = 0%nat /\
      count (is_kill SIGCONT) evs = 0%nat.
Proof.
  intros s k t Hs Hlo Hhi.
  destruct (iteration_sampled s k t Hs) as [revs [Hev ->]].
  rewrite <- (hot_delivered k s).
  generalize (delivered k s). intros s0.
  apply DoubleFacts.le_not_gt in Hlo, Hhi.
  unfold gt in Hlo. fold (lt t cool_threshold) in Hlo.
  unfold_turn. rewrite Hlo, Hhi.
  split_tests; simpl;
    (eexists; eexists; split; [reflexivity|]);
    rewrite !count_app, (sampling_no_kill SIGSTOP revs Hev),
      (sampling_no_kill SIGCONT revs Hev);
    repeat split; reflexivity.
Qed.

(** What every turn that starts in state Hot does. *)
Lemma hot_turn (s : state) (k : tick) (t : double) :
  hot s <> 0 ->
  sampled temps k = Some t ->
  exists evs s',
    iteration s k = (evs, Value (Continue s')) /\
    count is_waitid evs = 0%nat /\
    count (is_kill SIGKILL) evs = 0%nat /\
    killed s' = killed (delivered k s) /\
    hot_killed s' = 0 /\
    si_status s' = si_status s /\
    (lt t cool_threshold = false -> hot s' = hot s) /\
    (lt t cool_threshold = true -> hot s' = 0) /\
    (hot_killed (delivered k s) <> 0 -> In (Stdout N173) evs) /\
    (hot_killed (delivered k s) = 0 -> count (is_notice 173) evs = 0%nat).
Proof.
  intros Hhot Hs.
  destruct (iteration_sampled s k t Hs) as [revs [Hev ->]].
  rewrite <- (hot_delivered k s) in *.
  rewrite <- (si_status_delivered k s).
  generalize dependent (delivered k s). intros s0 Hhot.
  unfold_turn. rewrite (eqb_nonzero _ Hhot).
  split_tests; simpl;
    (eexists; eexists; split; [reflexivity|]);
    rewrite !count_app, (sampling_no_waitid revs Hev),
      (sampling_no_kill SIGKILL revs Hev),
      (sampling_no_notice 173 revs Hev); cbn;
    repeat match goal with
           | H : negb (_ =? 0) = false |- _ =>
               apply negb_false_iff, Z.eqb_eq in H
           | H : negb (_ =? 0) = true |- _ =>
               apply negb_true_iff, Z.eqb_neq in H
           end;
    repeat split; try reflexivity; try congruence; intros;
    try congruence; try (apply in_or_app; right; simpl; tauto).
Qed.

(** What every turn that starts in state Cool does. *)
Lemma cool_turn (s : state) (k : tick) (t : double) :
  hot s = 0 ->
  sampled temps k = Some t ->
  exists evs c,
    iteration s k = (evs, Value c) /\
    count is_waitid evs = 1%nat /\
    In (Waitid child (waitid_ret k) (waitid_status k)) evs /\
    count (is_notice 173) evs = 0%nat /\
    killed (state_of c) = 0 /\
    hot_killed (state_of c) = hot_killed (delivered k s) /\
    (killed (delivered k s) <> 0 ->
       count (is_kill SIGKILL) evs = 1%nat /\
       In (Kill child SIGKILL) evs /\ In (Stdout N174) evs) /\
    (killed (delivered k s) = 0 -> count (is_kill SIGKILL) evs = 0%nat) /\
    (waitid_ret k <> 0 -> c = Break (state_of c) /\ hot (state_of c) = 0) /\
    (waitid_ret k = 0 -> c = Continue (state_of c)) /\
    (waitid_ret k = 0 -> gt t hot_threshold = true -> hot (state_of c) = 1) /\
    (gt t hot_threshold = false -> hot (state_of c) = 0) /\
    si_status (state_of c) = last_status evs (si_status s).
Proof.
  intros Hcool Hs.
  destruct (iteration_sampled s k t Hs) as [revs [Hev ->]].
  rewrite <- (hot_delivered k s) in *.
  rewrite <- (si_status_delivered k s).
  generalize dependent (delivered k s). intros s0 Hcool.
  unfold_turn. rewrite (eqb_zero _ Hcool).
  split_tests; simpl;
    (eexists; eexists; split; [reflexivity|]);
    rewrite !count_app, !last_status_app, (sampling_no_waitid revs Hev),
      (sampling_no_kill SIGKILL revs Hev),
      (sampling_no_notice 173 revs Hev),
      (sampling_last_status revs _ Hev); cbn;
    repeat match goal with
           | H : negb (_ =? 0) = false |- _ =>
               apply negb_false_iff, Z.eqb_eq in H
           | H : negb (_ =? 0) = true |- _ =>
               apply negb_true_iff, Z.eqb_neq in H
           end;
    repeat split; try reflexivity; try congruence; intros;
    try congruence; try (apply in_or_app; right; simpl; tauto).
Qed.

(** ** Runs of the loop *)

Lemma run_continue (s s' : state) (k : tick) (ks : list tick)
    (evs : list event) :
  iteration s k = (evs, Value (Continue s')) ->
  run s (k :: ks) = (evs ++ fst (run s' ks), snd (run s' ks)).
Proof.
  intros H. simpl. rewrite H. unfold bind.
  destruct (run s' ks) as [l r]. reflexivity.
Qed.

Lemma run_break (s s' : state) (k : tick) (ks : list tick)
    (evs : list event) :
  iteration s k = (evs, Value (Break s')) ->
  run s (k :: ks) = (evs, Value (Broke s')).
Proof.
  intros H. simpl. rewrite H. unfold bind, ret. rewrite app_nil_r.
  reflexivity.
Qed.

Lemma run_app (ks1 ks2 : list tick) :
  forall s evs1 s1,
    run s ks1 = (evs1, Value (Unfinished s1)) ->
    run s (ks1 ++ ks2) = (evs1 ++ fst (run s1 ks2), snd (run s1 ks2)).
Proof.
  induction ks1 as [|k ks1 IH]; intros s evs1 s1 H.
  - simpl in H. unfold ret in H. inversion H; subst.
    simpl. destruct (run s1 ks2); reflexivity.
  - simpl in H. change ((k :: ks1) ++ ks2) with (k :: (ks1 ++ ks2)).
    destruct (iteration s k) as [evs [[s'|s']| |]] eqn:E;
      unfold bind in H; try discriminate.
    destruct (run s' ks1) as [l r] eqn:Er.
    inversion H; subst.
    rewrite (run_continue _ _ _ _ _ E), (IH _ _ _ Er).
    simpl. rewrite app_assoc. reflexivity.
Qed.

(** C10: a turn that starts in state Hot makes no [waitid] call and
    does not leave the loop, whatever [waitid] would have answered;
    while no sample is below the cool threshold, a run that starts in
    state Hot stays in the loop, in state Hot, without any [waitid]. *)
Theorem hot_turns_never_reap :
  (forall s k,
      hot s <> 0 ->
      count is_waitid (fst (iteration s k)) = 0%nat /\
      (forall s', snd (iteration s k) <> Value (Break s'))) /\
  (forall ks s,
      hot s <> 0 ->
      Forall (stays_hot cool_threshold temps) ks ->
      exists evs s',
        run s ks = (evs, Value (Unfinished s')) /\
        hot s' <> 0 /\
        count is_waitid evs = 0%nat).
Proof.
  split.
  - intros s k Hhot.
    destruct (sampled temps k) as [t|] eqn:Hs.
    + destruct (hot_turn s k t Hhot Hs) as (evs & s' & E & Hw & _).
      rewrite E. simpl. split; [exact Hw | discriminate].
    + destruct (iteration_unsampled s k Hs) as [Hev Hv].
      split; [apply sampling_no_waitid; exact Hev | intros s'; apply Hv].
  - induction ks as [|k ks IH]; intros s Hhot Hall.
    + exists [], s. repeat split; auto.
    + inversion Hall as [|k' ks' (t & Hs & Hlt) Hrest]; subst.
      destruct (hot_turn s k t Hhot Hs)
        as (evs & s1 & E & Hw & _ & _ & _ & _ & Hstay & _).
      assert (Hhot1 : hot s1 <> 0) by (rewrite (Hstay Hlt); exact Hhot).
      destruct (IH s1 Hhot1 Hrest) as (evs' & s' & E' & Hhot' & Hw').
      exists (evs ++ evs'), s'.
      rewrite (run_continue _ _ _ _ _ E), E'. simpl.
      rewrite count_app, Hw, Hw'. repeat split; auto.
Qed.

(** ** Ctrl-C *)

Lemma delivered_sigint (k : tick) (s : state) :
  sigint k = true ->
  killed (delivered k s) = 1 /\ hot_killed (delivered k s) = 1.
Proof. unfold delivered. intros ->. split; reflexivity. Qed.

Lemma delivered_none (k : tick) (s : state) :
  sigint k = false -> delivered k s = s.
Proof. unfold delivered. intros ->. reflexivity. Qed.

Lemma delivered_killed (k : tick) (s : state) :
  killed s <> 0 -> killed (delivered k s) <> 0.
Proof. unfold delivered. destruct (sigint k); simpl; auto; lia. Qed.

(** Turns that stay Hot send no SIGKILL and keep a pending Ctrl-C
    pending; the first of them reports a Ctrl-C it finds. *)
Lemma hot_run (hots : list tick) :
  forall s,
    hot s <> 0 ->
    Forall (stays_hot cool_threshold temps) hots ->
    exists evs s',
      run s hots = (evs, Value (Unfinished s')) /\
      hot s' <> 0 /\
      count (is_kill SIGKILL) evs = 0%nat /\
      (killed s <> 0 -> killed s' <> 0) /\
      (forall k0 rest, hots = k0 :: rest -> sigint k0 = true ->
         In (Stdout N173) evs /\ killed s' <> 0).
Proof.
  induction hots as [|k hots IH]; intros s Hhot Hall.
  - exists [], s. repeat split; auto; discriminate.
  - inversion Hall as [|k' ks' (t & Hs & Hlt) Hrest]; subst.
    destruct (hot_turn s k t Hhot Hs)
      as (evs & s1 & E & _ & Hk & Hkilled & _ & _ & Hstay & _ & H173 & _).
    assert (Hhot1 : hot s1 <> 0) by (rewrite (Hstay Hlt); exact Hhot).
    destruct (IH s1 Hhot1 Hrest) as (evs' & s' & E' & Hhot' & Hk' & Hkeep & _).
    exists (evs ++ evs'), s'.
    rewrite (run_continue _ _ _ _ _ E), E'. simpl.
    rewrite count_app, Hk, Hk'.
    split; [reflexivity|]. split; [exact Hhot'|]. split; [reflexivity|].
    split.
    + intros Hkd. apply Hkeep. rewrite Hkilled.
      apply delivered_killed. exact Hkd.
    + intros k0 rest Heq Hsig. inversion Heq; subst.
      destruct (delivered_sigint k0 s Hsig) as [Hd1 Hd2].
      split.
      * apply in_or_app. left. apply H173. rewrite Hd2. discriminate.
      * apply Hkeep. rewrite Hkilled, Hd1. discriminate.
Qed.



(** ** Leaving the loop *)

Lemma iteration_value (s : state) (k : tick) (evs : list event)
    (c : control) :
  iteration s k = (evs, Value c) -> exists t, sampled temps k = Some t.
Proof.
  intros E. destruct (sampled temps k) as [t|] eqn:Hs.
  - exists t. reflexivity.
  - destruct (iteration_unsampled s k Hs) as [_ Hv].
    exfalso. apply (Hv c). rewrite E. reflexivity.
Qed.

Lemma no_waitid_last_status (evs : list event) (init : Z) :
  count is_waitid evs = 0%nat -> last_status evs init = init.
Proof.
  unfold count, last_status. revert init.
  induction evs as [|e evs IH]; intros init H; simpl in *.
  - reflexivity.
  - destruct e; simpl in *; try discriminate; apply IH; exact H.
Qed.

(** A turn leaves [si_status] as the [waitid] calls it logged left it. *)
Lemma iteration_status (s : state) (k : tick) (evs : list event)
    (c : control) :
  iteration s k = (evs, Value c) ->
  si_status (state_of c) = last_status evs (si_status s).
Proof.
  intros E. destruct (iteration_value s k evs c E) as [t Hs].
  destruct (Z.eq_dec (hot s) 0) as [Hcool|Hhot].
  - destruct (cool_turn s k t Hcool Hs)
      as (evs' & c' & E' & _ & _ & _ & _ & _ & _ & _ & _ & _ & _ & _ & Hst).
    rewrite E in E'. inversion E'; subst. exact Hst.
  - destruct (hot_turn s k t Hhot Hs)
      as (evs' & s' & E' & Hw & _ & _ & _ & Hst & _).
    rewrite E in E'. inversion E'; subst.
    rewrite (no_waitid_last_status _ _ Hw). exact Hst.
Qed.

Lemma run_status (ks : list tick) :
  forall s evs e,
    run s ks = (evs, Value e) ->
    si_status (end_state e) = last_status evs (si_status s).
Proof.
  induction ks as [|k ks IH]; intros s evs e H.
  - simpl in H. unfold ret in H. inversion H; subst. reflexivity.
  - simpl in H.
    destruct (iteration s k) as [evs0 [[s'|s']| |]] eqn:E;
      unfold bind in H; try discriminate.
    + destruct (run s' ks) as [l r] eqn:Er. inversion H; subst.
      rewrite last_status_app, <- (iteration_status _ _ _ _ E).
      apply (IH _ _ _ Er).
    + unfold ret in H. inversion H; subst. rewrite app_nil_r.
      apply (iteration_status _ _ _ _ E).
Qed.

(** The loop is left only by a turn that starts in state Cool and in
    which [waitid] returns non-zero. *)
Lemma loop_exit (ks : list tick) :
  forall s evs s',
    run s ks = (evs, Value (Broke s')) ->
    exists ks1 k ks2 evs1 s1 evs2,
      ks = ks1 ++ k :: ks2 /\
      run s ks1 = (evs1, Value (Unfinished s1)) /\
      iteration s1 k = (evs2, Value (Break s')) /\
      hot s1 = 0 /\
      waitid_ret k <> 0 /\
      evs = evs1 ++ evs2.
Proof.
  induction ks as [|k ks IH]; intros s evs s' H.
  - simpl in H. unfold ret in H. discriminate.
  - simpl in H.
    destruct (iteration s k) as [evs0 [[s0|s0]| |]] eqn:E;
      unfold bind in H; try discriminate.
    + destruct (run s0 ks) as [l r] eqn:Er. inversion H; subst.
      destruct (IH _ _ _ Er)
        as (ks1 & k' & ks2 & evs1 & s1 & evs2 & -> & E1 & E2 & Hc & Hw & ->).
      exists (k :: ks1), k', ks2, (evs0 ++ evs1), s1, evs2.
      rewrite (run_continue _ _ _ _ _ E), E1. simpl.
      rewrite app_assoc. repeat split; auto.
    + unfold ret in H. inversion H; subst. rewrite app_nil_r.
      exists [], k, ks, [], s, evs0. simpl.
      destruct (iteration_value _ _ _ _ E) as [t Hs].
      destruct (Z.eq_dec (hot s) 0) as [Hcool|Hhot].
      * destruct (cool_turn s k t Hcool Hs)
          as (evs' & c' & E' & _ & _ & _ & _ & _ & _ & _ & _ & Hcont & _).
        rewrite E in E'. inversion E'; subst.
        repeat split; auto. intros Hw. specialize (Hcont Hw). discriminate.
      * destruct (hot_turn s k t Hhot Hs) as (evs' & s1 & E' & _).
        rewrite E in E'. discriminate.
Qed.

(** The only [exit] in the loop is the [exit(-1)] of a failed read. *)
Lemma detect_temp_from_exit (src : sensor_source) (fs : list feature_t) :
  forall max,
    fatal_only (detect_temp_from src fs max).
Proof.
  unfold fatal_only.
  induction fs as [|f fs IH]; intros max; simpl.
  - exact I.
  - destruct (src (chip f) (subfeature_i f)) as [rc value].
    destruct (rc =? 0); simpl.
    + specialize (IH (if gt value max then value else max)).
      destruct (detect_temp_from src fs
                  (if gt value max then value else max)) as [l r].
      exact IH.
    + reflexivity.
Qed.

Lemma iteration_exit (s : state) (k : tick) :
  fatal_only (iteration s k).
Proof.
  unfold fatal_only.
  destruct (sampled temps k) as [t|] eqn:Hs.
  - destruct (Z.eq_dec (hot s) 0) as [Hcool|Hhot].
    + destruct (cool_turn s k t Hcool Hs) as (evs & c & E & _).
      rewrite E. exact I.
    + destruct (hot_turn s k t Hhot Hs) as (evs & s' & E & _).
      rewrite E. exact I.
  - unfold Krun.iteration, sampled in *.
    pose proof (detect_temp_from_exit (sensors k) temps (-1.0)%float) as H.
    unfold fatal_only in H.
    fold (detect_temp (sensors k) temps) in H.
    destruct (detect_temp (sensors k) temps) as [revs [t| |]];
      try discriminate; simpl in *; exact H.
Qed.

Lemma run_exit (ks : list tick) :
  forall s,
    fatal_only (run s ks).
Proof.
  unfold fatal_only.
  induction ks as [|k ks IH]; intros s; simpl.
  - exact I.
  - pose proof (iteration_exit s k) as H. unfold fatal_only in H.
    destruct (iteration s k) as [evs [[s'|s']| |]]; simpl in *; auto.
    specialize (IH s'). destruct (run s' ks) as [l r]. exact IH.
Qed.

End Turn.

(** ** Start-up *)

Lemma bind_value {A B : Type} (m : prog A) (k : A -> prog B)
    (evs : list event) (b : B) :
  bind m k = (evs, Value b) ->
  exists l a l',
    m = (l, Value a) /\ k a = (l', Value b) /\ evs = l ++ l'.
Proof.
  unfold bind. destruct m as [l [a|c|v]]; try discriminate.
  destruct (k a) as [l' r] eqn:E. intros H. inversion H; subst.
  exists l, a, l'. auto.
Qed.

Lemma bind_exit {A B : Type} (m : prog A) (k : A -> prog B)
    (evs : list event) (c : Z) :
  bind m k = (evs, Exit c) ->
  m = (evs, Exit c) \/
  exists l a l', m = (l, Value a) /\ k a = (l', Exit c) /\ evs = l ++ l'.
Proof.
  unfold bind. destruct m as [l [a|c'|v]]; try discriminate.
  - destruct (k a) as [l' r] eqn:E. intros H. inversion H; subst.
    right. exists l, a, l'. auto.
  - intros H. inversion H; subst. left. reflexivity.
Qed.

Lemma check_arguments_log (n : Z) (a0 : string) (h c : double) :
  count is_waitid (fst (check_arguments n a0 h c)) = 0%nat /\
  fatal_only (check_arguments n a0 h c).
Proof.
  unfold fatal_only, check_arguments.
  destruct (n <? 4); [split; reflexivity|].
  destruct (gt h 90.0%float); [split; reflexivity|].
  destruct (lt c 30.0%float); [split; reflexivity|].
  destruct (lt h c); split; reflexivity.
Qed.

Lemma init_feature_log (l : library) (f : feature_t)
    (ty : sensors_subfeature_type) :
  count is_waitid (fst (init_feature l f ty)) = 0%nat /\
  fatal_only (init_feature l f ty).
Proof.
  unfold fatal_only, init_feature.
  destruct (negb (sensors_parse_chip_name l (chip_name f) =? 0));
    [split; reflexivity|].
  destruct (scan_chips (feature_name f)
              (sensors_get_detected_chips l (chip_name f))) as [[c ft]|];
    [|split; reflexivity].
  destruct (sensors_get_subfeature ft ty); split; reflexivity.
Qed.

Lemma init_features_log (l : library) (ty : sensors_subfeature_type)
    (fs : list feature_t) :
  count is_waitid (fst (init_features l fs ty)) = 0%nat /\
  fatal_only (init_features l fs ty).
Proof.
  unfold fatal_only.
  induction fs as [|f fs [IH1 IH2]]; simpl.
  - split; [reflexivity | exact I].
  - destruct (init_feature_log l f ty) as [H1 H2]. unfold fatal_only in H2.
    destruct (init_feature l f ty) as [l0 [f'| |]]; simpl in *;
      try (split; assumption).
    destruct (init_features l fs ty) as [l1 [fs'| |]]; simpl in *;
      rewrite ?count_app, ?H1, ?IH1; rewrite ?app_nil_r;
      split; auto.
Qed.

Lemma init_log (l : library) :
  count is_waitid (fst (init l)) = 0%nat /\
  fatal_only (init l).
Proof.
  unfold fatal_only, init.
  destruct (negb (sensors_init l =? 0)); [split; reflexivity|].
  destruct (init_features_log l SENSORS_SUBFEATURE_TEMP_INPUT
              temperature_features) as [H1 H2].
  destruct (init_features_log l SENSORS_SUBFEATURE_FAN_INPUT
              fan_features) as [H3 H4].
  unfold fatal_only in H2, H4.
  unfold bind at 1.
  destruct (init_features l temperature_features
              SENSORS_SUBFEATURE_TEMP_INPUT) as [l0 [temps| |]];
    simpl in H1, H2; try (split; assumption).
  unfold bind at 1.
  destruct (init_features l fan_features SENSORS_SUBFEATURE_FAN_INPUT)
    as [l1 [fans| |]]; simpl in H3, H4; simpl;
    rewrite ?count_app, ?H1, ?H3; split; auto.
Qed.

Lemma start_child_log (k : spawn) (argv : list string) :
  count is_waitid (fst (start_child k argv)) = 0%nat /\
  match snd (start_child k argv) with
  | Value _ => True
  | Exit c => c = -1
  | Exec _ => fork_ret k = 0
  end.
Proof.
  unfold start_child.
  destruct (fork_ret k =? 0) eqn:E; simpl.
  - apply Z.eqb_eq in E.
    destruct (execvp_errno k); simpl; split; auto.
  - destruct (negb (setpgid_ret k =? 0)); simpl; [|split; auto].
    destruct (negb (getpgid_ret k =? fork_ret k)); simpl; split; auto.
Qed.

(** ** The exit status *)

Lemma exit_status_small (v : Z) : 0 <= v < 256 -> exit_status v = v.
Proof.
  intros H. unfold exit_status. change 255 with (Z.ones 8).
  rewrite Z.land_ones by lia. apply Z.mod_small. exact H.
Qed.

(** When [main] returns, it returns what the last [waitid] call that
    stored a status stored. *)
Lemma main_returned (w : world) (evs : list event) (v : Z) :
  main w = (evs, Value (Returned v)) -> v = last_status evs 0.
Proof.
  unfold main. intros H.
  apply bind_value in H. destruct H as (l0 & [] & l0' & E0 & H & ->).
  apply bind_value in H. destruct H as (l1 & tables & l1' & E1 & H & ->).
  apply bind_value in H. destruct H as (l2 & child & l2' & E2 & H & ->).
  apply bind_value in H. destruct H as (l3 & e & l3' & E3 & H & ->).
  destruct (check_arguments_log (argc w) (argv0 w) (hot_arg w) (cool_arg w))
    as [W0 _].
  destruct (init_log (lib w)) as [W1 _].
  destruct (start_child_log (child_start w) (command w)) as [W2 _].
  rewrite E0 in W0. rewrite E1 in W1. rewrite E2 in W2. simpl in W0, W1, W2.
  rewrite !last_status_app.
  rewrite (no_waitid_last_status l0 0 W0), (no_waitid_last_status l1 0 W1),
    (no_waitid_last_status l2 0 W2).
  pose proof (run_status _ _ _ _ _ _ _ _ E3) as Hst. simpl in Hst.
  destruct e as [s|s]; simpl in H; unfold ret in H.
  - inversion H; subst. simpl in *. exact Hst.
  - inversion H.
Qed.

(** However [main] ends the process by [exit], the argument is -1. *)
Lemma main_exit (w : world) (evs : list event) (c : Z) :
  main w = (evs, Exit c) -> c = -1.
Proof.
  unfold main. intros H.
  pose proof (check_arguments_log (argc w) (argv0 w) (hot_arg w) (cool_arg w))
    as [_ X0].
  unfold fatal_only in X0.
  apply bind_exit in H. destruct H as [E | (l0 & [] & l0' & E0 & H & ->)].
  { rewrite E in X0. exact X0. }
  pose proof (init_log (lib w)) as [_ X1]. unfold fatal_only in X1.
  apply bind_exit in H. destruct H as [E | (l1 & tables & l1' & E1 & H & ->)].
  { rewrite E in X1. exact X1. }
  pose proof (start_child_log (child_start w) (command w)) as [_ X2].
  apply bind_exit in H. destruct H as [E | (l2 & child & l2' & E2 & H & ->)].
  { rewrite E in X2. exact X2. }
  pose proof (run_exit (hot_arg w) (cool_arg w) child (fst tables)
                (ticks w) initial) as X3.
  unfold fatal_only in X3.
  apply bind_exit in H. destruct H as [E | (l3 & e & l3' & E3 & H & ->)].
  { rewrite E in X3. exact X3. }
  destruct e; simpl in H; discriminate.
Qed.

(** Resolving one table entry either succeeds silently or writes one
    diagnostic and calls [exit(-1)]; it succeeds exactly when the chip
    name parses, some detected chip has a feature of that name, and
    the first such feature has a subfeature of the wanted type. *)
Lemma init_feature_outcome (l : library) (f : feature_t)
    (ty : sensors_subfeature_type) :
  (exists f', init_feature l f ty = ([], Value f')) \/
  (exists d, init_feature l f ty = ([Stderr d], Exit (-1))).
Proof.
  unfold init_feature.
  destruct (negb (sensors_parse_chip_name l (chip_name f) =? 0));
    [right; eexists; reflexivity|].
  destruct (scan_chips (feature_name f)
              (sensors_get_detected_chips l (chip_name f))) as [[c ft]|];
    [|right; eexists; reflexivity].
  destruct (sensors_get_subfeature ft ty);
    [left | right]; eexists; reflexivity.
Qed.

Lemma init_feature_resolves (l : library) (f : feature_t)
    (ty : sensors_subfeature_type) :
  (exists f', init_feature l f ty = ([], Value f')) <->
  sensors_parse_chip_name l (chip_name f) = 0 /\
  exists c ft sf,
    scan_chips (feature_name f)
      (sensors_get_detected_chips l (chip_name f)) = Some (c, ft) /\
    sensors_get_subfeature ft ty = Some sf.
Proof.
  unfold init_feature.
  destruct (sensors_parse_chip_name l (chip_name f) =? 0) eqn:Ep; simpl.
  - apply Z.eqb_eq in Ep.
    destruct (scan_chips (feature_name f)
                (sensors_get_detected_chips l (chip_name f)))
      as [[c ft]|].
    + destruct (sensors_get_subfeature ft ty) as [sf|] eqn:Esf.
      * split; [|eexists; reflexivity].
        intros _. split; [exact Ep|]. exists c, ft, sf. auto.
      * split; [intros [f' H]; discriminate|].
        intros (_ & c' & ft' & sf' & H1 & H2). inversion H1; subst.
        congruence.
    + split; [intros [f' H]; discriminate|].
      intros (_ & c' & ft' & sf' & H1 & _). discriminate.
  - apply Z.eqb_neq in Ep.
    split; [intros [f' H]; discriminate | intros [H _]; contradiction].
Qed.

(** X18: when [main] returns, its value is the status the
    last [waitid] call that stored one stored (0 if none did), and a
    status between 0 and 255 reaches the parent unchanged; whenever the
    process ends by [exit], at start-up or later, the argument is -1,
    which the parent sees as 255; a rejected command line, a failed
    [sensors_init] and an entry that does not resolve do end the
    process so. *)
Theorem exit_status_of_main :
  (forall w evs v,
      main w = (evs, Value (Returned v)) ->
      v = last_status evs 0 /\
      (0 <= v < 256 -> exit_status v = v)) /\
  (forall w evs c,
      main w = (evs, Exit c) ->
      c = -1 /\ exit_status c = 255) /\
  (forall w evs c,
      check_arguments (argc w) (argv0 w) (hot_arg w) (cool_arg w)
        = (evs, Exit c) ->
      main w = (evs, Exit c)) /\
  (forall w evs c,
      check_arguments (argc w) (argv0 w) (hot_arg w) (cool_arg w)
        = ([], Value tt) ->
      init (lib w) = (evs, Exit c) ->
      main w = (evs, Exit c)) /\
  (forall l,
      sensors_init l <> 0 ->
      init l = ([Stderr (Sensors_init_error (sensors_init l))], Exit (-1))) /\
  (forall l f ty,
      (exists f', init_feature l f ty = ([], Value f')) \/
      (exists d, init_feature l f ty = ([Stderr d], Exit (-1)))).
Proof.
  split; [|split; [|split; [|split; [|split]]]].
  - intros w evs v H. split.
    + apply (main_returned w evs v H).
    + apply exit_status_small.
  - intros w evs c H. rewrite (main_exit w evs c H). split; reflexivity.
  - intros w evs c H. unfold main. rewrite H. reflexivity.
  - intros w evs c H0 H1. unfold main. rewrite H0, H1. reflexivity.
  - intros l H. unfold init. rewrite (eqb_nonzero _ H). reflexivity.
  - apply init_feature_outcome.
Qed.

(** ** The sample *)

(** The loop of [detect_temp] started with [max]: it reads every
    entry once, in order; its result is [max] or a reading above [max],
    and no reading is above the result. *)
Lemma detect_temp_from_spec (src : sensor_source) (fs : list feature_t) :
  forall max,
    all_succeed src fs ->
    exists r,
      detect_temp_from src fs max =
        (map (fun f => Sensors_get_value (chip f) (subfeature_i f)) fs,
         Value r) /\
      (r = max \/ (In r (readings src fs) /\ lt max r = true)) /\
      Forall (fun v => gt v r = false) (readings src fs).
Proof.
  induction fs as [|f fs IH]; intros max Hall.
  - exists max. simpl. repeat split; auto.
  - inversion Hall as [|f' fs' Hrc Hrest]; subst.
    unfold readings. simpl. fold (readings src fs).
    destruct (src (chip f) (subfeature_i f)) as [rc value] eqn:Esrc.
    simpl in Hrc. subst rc. simpl.
    destruct (IH (if gt value max then value else max) Hrest)
      as (r & E & Hr & Hall').
    exists r. rewrite E. simpl. split; [reflexivity|].
    destruct (gt value max) eqn:Hgt; unfold gt in Hgt;
      fold (lt max value) in Hgt.
    + (* the reading becomes the maximum so far *)
      split.
      * right. destruct Hr as [-> | [Hin Hlt]].
        -- split; [left; reflexivity | exact Hgt].
        -- split; [right; exact Hin|].
           apply (DoubleFacts.lt_trans max value r); assumption.
      * constructor; [|exact Hall'].
        unfold gt. fold (lt r value).
        destruct Hr as [-> | [_ Hlt]].
        -- apply DoubleFacts.lt_irrefl.
        -- apply DoubleFacts.lt_asym. exact Hlt.
    + (* the maximum so far stays *)
      split.
      * destruct Hr as [-> | [Hin Hlt]]; [left; reflexivity|].
        right. split; [right; exact Hin | exact Hlt].
      * constructor; [|exact Hall'].
        unfold gt. fold (lt r value).
        destruct Hr as [-> | [_ Hlt]]; [exact Hgt|].
        destruct (lt r value) eqn:Hrv; [|reflexivity].
        rewrite (DoubleFacts.lt_trans max r value Hlt Hrv) in Hgt.
        discriminate.
Qed.

(** C8, as amended: when every read succeeds, [detect_temp] reads every
    entry of the table once, in order, and returns a value no reading
    exceeds: the maximum of the readings when one of them is above
    -1.0, and -1.0 when none is. *)
Theorem detect_temp_is_floored_maximum :
  forall src fs,
    all_succeed src fs ->
    exists r,
      detect_temp src fs =
        (map (fun f => Sensors_get_value (chip f) (subfeature_i f)) fs,
         Value r) /\
      Forall (fun v => gt v r = false) (readings src fs) /\
      ((exists v, In v (readings src fs) /\ gt v (-1.0) = true) ->
       maximum_of r (readings src fs)) /\
      ((forall v, In v (readings src fs) -> gt v (-1.0) = false) ->
       r = (-1.0)%float).
Proof.
  intros src fs Hall.
  destruct (detect_temp_from_spec src fs (-1.0)%float Hall)
    as (r & E & Hr & Hmax).
  exists r. split; [exact E|]. split; [exact Hmax|]. split.
  - intros (v & Hin & Hgt). split; [|exact Hmax].
    destruct Hr as [-> | [Hr _]]; [|exact Hr].
    rewrite Forall_forall in Hmax. rewrite (Hmax v Hin) in Hgt.
    discriminate.
  - intros Hnone. destruct Hr as [-> | [Hin Hlt]]; [reflexivity|].
    specialize (Hnone r Hin). unfold gt in Hnone.
    fold (lt (-1.0) r) in Hnone. congruence.
Qed.

(** C8, as stated, fails: with every core at -5 degrees the sample is
    -1.0, which is not one of the readings. *)
Lemma cold_cores_sample_minus_one :
  snd (detect_temp (Sample.all_cores (-5)) Sample.resolved)
    = Value (-1.0)%float /\
  ~ maximum_of (-1.0) (readings (Sample.all_cores (-5)) Sample.resolved).
Proof.
  split.
  - vm_compute. reflexivity.
  - intros [Hin _]. vm_compute in Hin.
    repeat (destruct Hin as [Hin | Hin];
            [apply (f_equal (fun x => lt x (-2.0))) in Hin;
             vm_compute in Hin; discriminate|]).
    exact Hin.
Qed.

(** ** The command line *)

Lemma check_arguments_accepts (n : Z) (a0 : string) (h c : double) :
  check_arguments n a0 h c = ([], Value tt) <->
  (n <? 4) = false /\ gt h 90.0 = false /\ lt c 30.0 = false /\
  lt h c = false.
Proof.
  unfold check_arguments.
  destruct (n <? 4); [split; [discriminate | intros [? _]; discriminate]|].
  destruct (gt h 90.0);
    [split; [discriminate | intros (_ & ? & _); discriminate]|].
  destruct (lt c 30.0);
    [split; [discriminate | intros (_ & _ & ? & _); discriminate]|].
  destruct (lt h c);
    [split; [discriminate | intros (_ & _ & _ & ?); discriminate]|].
  split; auto.
Qed.

Lemma check_arguments_rejects (n : Z) (a0 : string) (h c : double) :
  check_arguments n a0 h c = ([], Value tt) \/
  exists d, check_arguments n a0 h c = ([Stderr d], Exit (-1)).
Proof.
  unfold check_arguments.
  destruct (n <? 4); [right; eexists; reflexivity|].
  destruct (gt h 90.0); [right; eexists; reflexivity|].
  destruct (lt c 30.0); [right; eexists; reflexivity|].
  destruct (lt h c); [right; eexists; reflexivity|].
  left. reflexivity.
Qed.

(** C7, as amended: fewer than four arguments give the usage line and
    [exit(-1)]; with four or more, thresholds that are numbers are
    accepted exactly when [hot <= 90], [cool >= 30] and [hot >= cool],
    and otherwise rejected with one diagnostic and [exit(-1)]; a
    rejection ends [main] before anything else is done; the parent
    sees a non-zero status; the four sample configurations. *)
Theorem arguments_are_validated :
  (forall n a0 h c,
      n < 4 ->
      check_arguments n a0 h c = ([Stderr (Usage a0)], Exit (-1))) /\
  (forall n a0 h c,
      4 <= n -> isnan h = false -> isnan c = false ->
      (check_arguments n a0 h c = ([], Value tt) <->
       le h 90.0 = true /\ ge c 30.0 = true /\ ge h c = true) /\
      (check_arguments n a0 h c = ([], Value tt) \/
       exists d, check_arguments n a0 h c = ([Stderr d], Exit (-1)))) /\
  (forall w evs c,
      check_arguments (argc w) (argv0 w) (hot_arg w) (cool_arg w)
        = (evs, Exit c) ->
      main w = (evs, Exit c)) /\
  exit_status (-1) <> 0 /\
  snd (check_arguments 4 "krun" 91 50) = Exit (-1) /\
  snd (check_arguments 4 "krun" 80 20) = Exit (-1) /\
  snd (check_arguments 4 "krun" 50 60) = Exit (-1) /\
  check_arguments 4 "krun" 70 50 = ([], Value tt).
Proof.
  split; [|split; [|split; [|split]]].
  - intros n a0 h c Hn. unfold check_arguments.
    apply Z.ltb_lt in Hn. rewrite Hn. reflexivity.
  - intros n a0 h c Hn Hh Hc. split; [|apply check_arguments_rejects].
    rewrite check_arguments_accepts.
    assert (H90 : isnan 90.0 = false) by reflexivity.
    assert (H30 : isnan 30.0 = false) by reflexivity.
    rewrite (DoubleFacts.not_gt_le h 90.0 Hh H90).
    rewrite (DoubleFacts.not_lt_ge c 30.0 Hc H30).
    rewrite (DoubleFacts.not_lt_ge h c Hh Hc).
    apply Z.ltb_ge in Hn. rewrite Hn. tauto.
  - intros w evs c H. unfold main. rewrite H. reflexivity.
  - vm_compute. discriminate.
  - repeat split; vm_compute; reflexivity.
Qed.

(** C7, as stated, fails: a hot threshold that is not a number violates
    [hot <= 90] and is accepted. *)
Lemma nan_threshold_is_accepted :
  check_arguments 4 "krun" nan 50 = ([], Value tt) /\
  le nan 90.0 = false.
Proof.
  split; vm_compute; reflexivity.
Qed.

(** ** The reap *)

(** A Cool turn in which [waitid] returns 0 stays in the loop, whatever
    status the call stored. *)
Lemma waitid_zero_continues (hot_threshold cool_threshold : double)
    (child : Z) (temps : list feature_t) (s : state) (k : tick)
    (t : double) :
  hot s = 0 ->
  sampled temps k = Some t ->
  waitid_ret k = 0 ->
  exists evs s',
    iteration hot_threshold cool_threshold child temps s k
      = (evs, Value (Continue s')) /\
    si_status s' = match waitid_status k with
                   | Some st => st
                   | None => si_status s
                   end.
Proof.
  intros Hcool Hs Hw.
  destruct (iteration_sampled hot_threshold cool_threshold child temps
              s k t Hs) as [revs [Hev ->]].
  rewrite <- (hot_delivered k s) in Hcool.
  rewrite <- (si_status_delivered k s).
  generalize dependent (delivered k s). intros s0 Hcool.
  unfold_turn. rewrite (eqb_zero _ Hcool), (eqb_zero _ Hw).
  split_tests; simpl; eexists; eexists; split; reflexivity.
Qed.

(** C1 at the failing input: the child has ended with status 7 and
    [waitid] reaps it, returning 0 with the status stored; the turn
    records the status and stays in the loop. *)
Theorem reaping_turn_stays_in_loop :
  snd (iteration 75 60 4242 Sample.resolved initial (Sample.reaped 70 7))
    = Value (Continue {| hot := 0; killed := 0; hot_killed := 0;
                         si_status := 7 |}) /\
  snd (main (Sample.command_line 75 60 [Sample.reaped 70 7]))
    = Value (Looping {| hot := 0; killed := 0; hot_killed := 0;
                        si_status := 7 |}).
Proof.
  split; vm_compute; reflexivity.
Qed.

(** ** The properties at sample inputs

    Thresholds 75 and 60, child 4242, the sample machine. *)

Lemma heating_suspends_once_witness :
  (hot initial = 0 /\
   sampled Sample.resolved (Sample.quiet 76) = Some 76%float /\
   waitid_ret (Sample.quiet 76) = 0 /\
   gt 76 75 = true /\
   exists evs s',
     iteration 75 60 4242 Sample.resolved initial (Sample.quiet 76)
       = (evs, Value (Continue s')) /\
     hot s' = 1 /\
     count (is_notice 171) evs = 1%nat /\
     In (Stdout (N171 76 4242)) evs /\
     count (is_kill SIGSTOP) evs = 1%nat /\
     In (Kill (- 4242) SIGSTOP) evs) /\
  (hot Sample.heated <> 0 /\
   count (is_kill SIGSTOP)
     (fst (iteration 75 60 4242 Sample.resolved Sample.heated
             (Sample.quiet 76))) = 0%nat /\
   count (is_notice 171)
     (fst (iteration 75 60 4242 Sample.resolved Sample.heated
             (Sample.quiet 76))) = 0%nat).
Proof.
  split.
  - split; [reflexivity|]. split; [reflexivity|]. split; [reflexivity|].
    split; [reflexivity|].
    apply (proj1 (heating_suspends_once 75 60 4242 Sample.resolved)
             initial (Sample.quiet 76) 76%float); reflexivity.
  - split; [discriminate|].
    apply (proj2 (heating_suspends_once 75 60 4242 Sample.resolved)).
    discriminate.
Defined.

Lemma cooling_resumes_once_witness :
  hot Sample.heated <> 0 /\
  sampled Sample.resolved (Sample.quiet 58) = Some 58%float /\
  lt 58 60 = true /\
  exists evs s',
    iteration 75 60 4242 Sample.resolved Sample.heated (Sample.quiet 58)
      = (evs, Value (Continue s')) /\
    hot s' = 0 /\
    count (is_notice 172) evs = 1%nat /\
    In (Stdout (N172 58 4242)) evs /\
    count (is_kill SIGCONT) evs = 1%nat /\
    In (Kill (- 4242) SIGCONT) evs.
Proof.
  split; [discriminate|]. split; [reflexivity|]. split; [reflexivity|].
  apply (cooling_resumes_once 75 60 4242 Sample.resolved
           Sample.heated (Sample.quiet 58) 58%float);
    [discriminate | reflexivity | reflexivity].
Defined.

Lemma band_is_sticky_witness :
  sampled Sample.resolved (Sample.quiet 70) = Some 70%float /\
  le 60 70 = true /\
  le 70 75 = true /\
  exists evs c,
    iteration 75 60 4242 Sample.resolved Sample.heated (Sample.quiet 70)
      = (evs, Value c) /\
    hot (state_of c) = hot Sample.heated /\
    count (is_kill SIGSTOP) evs = 0%nat /\
    count (is_kill SIGCONT) evs = 0%nat.
Proof.
  split; [reflexivity|]. split; [reflexivity|]. split; [reflexivity|].
  apply (band_is_sticky 75 60 4242 Sample.resolved
           Sample.heated (Sample.quiet 70) 70%float); reflexivity.
Defined.

Lemma hot_turns_never_reap_witness :
  (hot Sample.heated <> 0 /\
   count is_waitid
     (fst (iteration 75 60 4242 Sample.resolved Sample.heated
             (Sample.reaped 76 9))) = 0%nat /\
   (forall s',
       snd (iteration 75 60 4242 Sample.resolved Sample.heated
              (Sample.reaped 76 9)) <> Value (Break s'))) /\
  (Forall (stays_hot 60 Sample.resolved)
     [Sample.reaped 76 9; Sample.reaped 70 9] /\
   exists evs s',
     run 75 60 4242 Sample.resolved Sample.heated
       [Sample.reaped 76 9; Sample.reaped 70 9]
       = (evs, Value (Unfinished s')) /\
     hot s' <> 0 /\
     count is_waitid evs = 0%nat).
Proof.
  assert (Hall : Forall (stays_hot 60 Sample.resolved)
                   [Sample.reaped 76 9; Sample.reaped 70 9]).
  { repeat constructor.
    - exists 76%float. split; reflexivity.
    - exists 70%float. split; reflexivity. }
  split.
  - split; [discriminate|].
    apply (proj1 (hot_turns_never_reap 75 60 4242 Sample.resolved)).
    discriminate.
  - split; [exact Hall|].
    apply (proj2 (hot_turns_never_reap 75 60 4242 Sample.resolved));
      [discriminate | exact Hall].
Defined.


Lemma arguments_are_validated_witness :
  (3 < 4 /\
   check_arguments 3 "krun" 70 50 = ([Stderr (Usage "krun")], Exit (-1))) /\
  (4 <= 4 /\ isnan 70 = false /\ isnan 50 = false /\
   (check_arguments 4 "krun" 70 50 = ([], Value tt) <->
    le 70 90.0 = true /\ ge 50 30.0 = true /\ ge 70 50 = true)) /\
  (check_arguments 4 "krun" 91 50
     = ([Stderr (Hot_threshold_must_not_exceed_90 91)], Exit (-1)) /\
   main (Sample.command_line 91 50 [Sample.quiet 70])
     = ([Stderr (Hot_threshold_must_not_exceed_90 91)], Exit (-1))).
Proof.
  split; [|split].
  - split; [lia|].
    apply (proj1 arguments_are_validated 3 "krun"%string 70%float 50%float).
    lia.
  - split; [lia|]. split; [reflexivity|]. split; [reflexivity|].
    apply (proj1 (proj2 arguments_are_validated) 4 "krun"%string
             70%float 50%float); [lia | reflexivity | reflexivity].
  - split; [reflexivity|].
    apply (proj1 (proj2 (proj2 arguments_are_validated))
             (Sample.command_line 91 50 [Sample.quiet 70])).
    reflexivity.
Defined.

Lemma detect_temp_is_floored_maximum_witness :
  all_succeed (Sample.cores [40; 45; 50; 42; 41; 39]%float)
    Sample.resolved /\
  exists r,
    detect_temp (Sample.cores [40; 45; 50; 42; 41; 39]%float)
      Sample.resolved
      = (map (fun f => Sensors_get_value (chip f) (subfeature_i f))
           Sample.resolved,
         Value r) /\
    Forall (fun v => gt v r = false)
      (readings (Sample.cores [40; 45; 50; 42; 41; 39]%float)
         Sample.resolved) /\
    ((exists v,
         In v (readings (Sample.cores [40; 45; 50; 42; 41; 39]%float)
                 Sample.resolved) /\
         gt v (-1.0) = true) ->
     maximum_of r
       (readings (Sample.cores [40; 45; 50; 42; 41; 39]%float)
          Sample.resolved)) /\
    ((forall v,
         In v (readings (Sample.cores [40; 45; 50; 42; 41; 39]%float)
                 Sample.resolved) ->
         gt v (-1.0) = false) ->
     r = (-1.0)%float).
Proof.
  assert (Hall : all_succeed (Sample.cores [40; 45; 50; 42; 41; 39]%float)
                   Sample.resolved).
  { unfold all_succeed. repeat constructor. }
  split; [exact Hall|].
  apply (detect_temp_is_floored_maximum
           (Sample.cores [40; 45; 50; 42; 41; 39]%float) Sample.resolved
           Hall).
Defined.

(** * Further properties of the code *)

(** ** Resolving the tables *)

Lemma scan_features_none (n : string) (fs : list sensors_feature) :
  scan_features n fs = None <-> Forall (fun ft => name ft <> Some n) fs.
Proof.
  induction fs as [|ft fs IH]; simpl.
  - split; auto.
  - destruct (name ft) as [m|] eqn:E.
    + destruct (String.eqb n m) eqn:En.
      * apply String.eqb_eq in En. subst m. split; [discriminate|].
        intros H. inversion H; subst. congruence.
      * apply String.eqb_neq in En. rewrite IH. split.
        -- intros H. constructor; [congruence | exact H].
        -- intros H. inversion H; assumption.
    + rewrite IH. split.
      * intros H. constructor; [congruence | exact H].
      * intros H. inversion H; assumption.
Qed.

Lemma scan_features_some (n : string) (fs : list sensors_feature)
    (ft : sensors_feature) :
  scan_features n fs = Some ft <->
  exists pre post,
    fs = pre ++ ft :: post /\
    name ft = Some n /\
    Forall (fun f => name f <> Some n) pre.
Proof.
  induction fs as [|f fs IH]; simpl.
  - split; [discriminate|].
    intros (pre & post & H & _). destruct pre; discriminate.
  - assert (Hskip : name f <> Some n ->
              (scan_features n fs = Some ft <->
               exists pre post,
                 f :: fs = pre ++ ft :: post /\
                 name ft = Some n /\
                 Forall (fun f => name f <> Some n) pre)).
    { intros Hne. rewrite IH. split.
      - intros (pre & post & -> & Hn & Hpre).
        exists (f :: pre), post. repeat split; auto.
      - intros (pre & post & H & Hn & Hpre).
        destruct pre as [|f0 pre]; simpl in H; inversion H; subst.
        + contradiction.
        + inversion Hpre; subst. exists pre, post. auto. }
    destruct (name f) as [m|] eqn:E.
    + destruct (String.eqb n m) eqn:En.
      * apply String.eqb_eq in En. subst m. split.
        -- intros H. inversion H; subst. exists [], fs. auto.
        -- intros (pre & post & H & Hn & Hpre).
           destruct pre as [|f0 pre]; simpl in H; inversion H; subst.
           ++ reflexivity.
           ++ inversion Hpre; subst. congruence.
      * apply String.eqb_neq in En. apply Hskip. congruence.
    + apply Hskip. discriminate.
Qed.

Lemma scan_chips_some (n : string) (cs : list sensors_chip_name)
    (c : sensors_chip_name) (ft : sensors_feature) :
  scan_chips n cs = Some (c, ft) <->
  exists pre post,
    cs = pre ++ c :: post /\
    Forall (lacks_feature n) pre /\
    scan_features n (features c) = Some ft.
Proof.
  induction cs as [|c0 cs IH]; simpl.
  - split; [discriminate|].
    intros (pre & post & H & _). destruct pre; discriminate.
  - destruct (scan_features n (features c0)) as [ft0|] eqn:E.
    + split.
      * intros H. inversion H; subst. exists [], cs. auto.
      * intros (pre & post & H & Hpre & Hft).
        destruct pre as [|c1 pre]; simpl in H; inversion H; subst.
        -- congruence.
        -- inversion Hpre as [|? ? Hl _]; subst.
           apply scan_features_none in Hl. congruence.
    + rewrite IH. split.
      * intros (pre & post & -> & Hpre & Hft).
        exists (c0 :: pre), post. repeat split; auto.
        constructor; [apply scan_features_none; exact E | exact Hpre].
      * intros (pre & post & H & Hpre & Hft).
        destruct pre as [|c1 pre]; simpl in H; inversion H; subst.
        -- congruence.
        -- inversion Hpre; subst. exists pre, post. auto.
Qed.

(** X1: [init_feature] takes the first detected chip that has a
    feature of exactly the configured name and, in it, the first such
    feature (features without a name are passed over); the entry it
    returns keeps the two names and records that chip, that feature and
    the number of its subfeature of the wanted type, and nothing is
    logged.  There is no going back: when that first feature has no
    subfeature of the wanted type, the process ends with one
    diagnostic and [exit(-1)], whatever later chips offer. *)
Theorem init_feature_takes_first_match :
  (forall l f ty evs f',
      init_feature l f ty = (evs, Value f') ->
      evs = [] /\
      chip_name f' = chip_name f /\
      feature_name f' = feature_name f /\
      exists c ft sf pre post fpre fpost,
        chip f' = Some c /\
        feature f' = Some ft /\
        subfeature_i f' = number sf /\
        sensors_get_detected_chips l (chip_name f) = pre ++ c :: post /\
        Forall (lacks_feature (feature_name f)) pre /\
        features c = fpre ++ ft :: fpost /\
        Forall (fun x => name x <> Some (feature_name f)) fpre /\
        name ft = Some (feature_name f) /\
        sensors_get_subfeature ft ty = Some sf) /\
  (forall l f ty c ft,
      sensors_parse_chip_name l (chip_name f) = 0 ->
      scan_chips (feature_name f)
        (sensors_get_detected_chips l (chip_name f)) = Some (c, ft) ->
      sensors_get_subfeature ft ty = None ->
      init_feature l f ty =
        ([Stderr (Cant_find_input_subfeature (chip_name f) (feature_name f))],
         Exit (-1))).
Proof.
  split.
  - intros l f ty evs f'. unfold init_feature.
    destruct (negb (sensors_parse_chip_name l (chip_name f) =? 0));
      [discriminate|].
    destruct (scan_chips (feature_name f)
                (sensors_get_detected_chips l (chip_name f)))
      as [[c ft]|] eqn:Esc; [|discriminate].
    destruct (sensors_get_subfeature ft ty) as [sf|] eqn:Esf; [|discriminate].
    intros H. unfold ret in H. inversion H; subst. simpl.
    repeat split.
    apply scan_chips_some in Esc.
    destruct Esc as (pre & post & Ecs & Hpre & Hft).
    apply scan_features_some in Hft.
    destruct Hft as (fpre & fpost & Efs & Hn & Hfpre).
    exists c, ft, sf, pre, post, fpre, fpost. repeat split; auto.
  - intros l f ty c ft Hp Hsc Hsf. unfold init_feature.
    rewrite Hp, Hsc, Hsf. reflexivity.
Qed.

Lemma init_features_outcome (l : library) (ty : sensors_subfeature_type)
    (fs : list feature_t) :
  (exists fs',
      init_features l fs ty = ([], Value fs') /\
      Forall2 (fun f f' => init_feature l f ty = ([], Value f')) fs fs') \/
  ((exists d, init_features l fs ty = ([Stderr d], Exit (-1))) /\
   ~ Forall (resolves l ty) fs).
Proof.
  induction fs as [|f fs IH]; simpl.
  - left. exists []. split; [reflexivity | constructor].
  - destruct (init_feature_outcome l f ty) as [[f' E] | [d E]]; rewrite E.
    + destruct IH as [(fs' & E' & Hall) | ((d & E') & Hnot)]; rewrite E'.
      * left. exists (f' :: fs'). split; [reflexivity|].
        constructor; assumption.
      * right. split; [exists d; reflexivity|].
        intros H. inversion H; subst. contradiction.
    + right. split; [exists d; reflexivity|].
      intros H. inversion H as [|? ? [f' Hf] _]; subst. congruence.
Qed.

Lemma Forall2_resolves (l : library) (ty : sensors_subfeature_type)
    (fs fs' : list feature_t) :
  Forall2 (fun f f' => init_feature l f ty = ([], Value f')) fs fs' ->
  Forall (resolves l ty) fs /\
  map chip_name fs' = map chip_name fs /\
  map feature_name fs' = map feature_name fs /\
  Forall (fun f' => chip f' <> None /\ feature f' <> None) fs'.
Proof.
  induction 1 as [|f f' fs fs' E _ IH]; simpl.
  - repeat split; constructor.
  - destruct IH as (H1 & H2 & H3 & H4).
    assert (Hf : chip_name f' = chip_name f /\
                 feature_name f' = feature_name f /\
                 chip f' <> None /\ feature f' <> None).
    { unfold init_feature in E.
      destruct (negb (sensors_parse_chip_name l (chip_name f) =? 0));
        [discriminate|].
      destruct (scan_chips (feature_name f)
                  (sensors_get_detected_chips l (chip_name f)))
        as [[c ft]|]; [|discriminate].
      destruct (sensors_get_subfeature ft ty); [|discriminate].
      unfold ret in E. inversion E; subst. simpl.
      repeat split; discriminate. }
    destruct Hf as (Hc & Hn & Hr).
    repeat split.
    + constructor; [exists f'; exact E | exact H1].
    + congruence.
    + congruence.
    + constructor; assumption.
Qed.

(** X2: [init] is all or nothing.  It succeeds exactly when
    [sensors_init] returns 0 and every entry of both tables resolves,
    the two fan entries included although [main] never reads a fan;
    it then logs nothing but the installation of the SIGINT handler,
    and the tables it returns keep the configured names, in order,
    each entry with its chip and feature set.  Otherwise the process
    ends with exactly one diagnostic and [exit(-1)], and the handler is
    not installed. *)
Theorem init_is_all_or_nothing :
  forall l,
    ((exists tables, snd (init l) = Value tables) <->
     sensors_init l = 0 /\
     Forall (resolves l SENSORS_SUBFEATURE_TEMP_INPUT) temperature_features /\
     Forall (resolves l SENSORS_SUBFEATURE_FAN_INPUT) fan_features) /\
    ((exists temps fans,
         init l = ([Install_SIGINT_handler], Value (temps, fans)) /\
         map chip_name temps = map chip_name temperature_features /\
         map feature_name temps = map feature_name temperature_features /\
         Forall (fun f => chip f <> None /\ feature f <> None) temps /\
         map chip_name fans = map chip_name fan_features /\
         map feature_name fans = map feature_name fan_features /\
         Forall (fun f => chip f <> None /\ feature f <> None) fans) \/
     (exists d, init l = ([Stderr d], Exit (-1)))).
Proof.
  intros l. unfold init.
  destruct (sensors_init l =? 0) eqn:E0; cbn [negb].
  - apply Z.eqb_eq in E0.
    destruct (init_features_outcome l SENSORS_SUBFEATURE_TEMP_INPUT
                temperature_features)
      as [(temps & Et & Ht) | ((d & Et) & Hnt)]; rewrite Et.
    + apply Forall2_resolves in Ht. destruct Ht as (Ht1 & Ht2 & Ht3 & Ht4).
      destruct (init_features_outcome l SENSORS_SUBFEATURE_FAN_INPUT
                  fan_features)
        as [(fans & Ef & Hf) | ((d & Ef) & Hnf)];
        unfold bind at 1; rewrite Ef.
      * apply Forall2_resolves in Hf.
        destruct Hf as (Hf1 & Hf2 & Hf3 & Hf4). simpl. split.
        -- split; [auto | intros _; eexists; reflexivity].
        -- left. exists temps, fans. repeat split; auto.
      * simpl. split.
        -- split; [intros [tables H]; discriminate|].
           intros (_ & _ & H). contradiction.
        -- right. exists d. reflexivity.
    + simpl. split.
      * split; [intros [tables H]; discriminate|].
        intros (_ & H & _). contradiction.
      * right. exists d. reflexivity.
  - apply Z.eqb_neq in E0. split.
    + split; [intros [tables H]; discriminate|].
      intros (H & _). contradiction.
    + right. eexists. reflexivity.
Qed.

(** ** Sampling, continued *)

Lemma detect_temp_from_first_failure (src : sensor_source)
    (pre : list feature_t) (f : feature_t) (post : list feature_t) :
  forall max,
    all_succeed src pre ->
    fst (src (chip f) (subfeature_i f)) <> 0 ->
    detect_temp_from src (pre ++ f :: post) max =
      (map (fun x => Sensors_get_value (chip x) (subfeature_i x))
         (pre ++ [f])
       ++ [Stderr (Unable_to_read_value (chip_name f) (feature_name f)
                     (fst (src (chip f) (subfeature_i f))))],
       Exit (-1)).
Proof.
  induction pre as [|g pre IH]; intros max Hall Hrc; simpl.
  - destruct (src (chip f) (subfeature_i f)) as [rc value]. simpl in *.
    rewrite (eqb_nonzero _ Hrc). reflexivity.
  - inversion Hall as [|? ? Hg Hpre]; subst.
    destruct (src (chip g) (subfeature_i g)) as [rc value]. simpl in Hg.
    subst rc. simpl.
    rewrite (IH (if gt value max then value else max) Hpre Hrc).
    reflexivity.
Qed.

(** X3: a failed read is fatal at once.  When the reads of the entries
    before [f] succeed and the read of [f] returns non-zero,
    [detect_temp] has read exactly the entries up to [f], in order,
    writes one diagnostic that names [f] and the return code, and ends
    the process with [exit(-1)]; the entries after [f] are not read,
    whatever they would have answered. *)
Theorem detect_temp_stops_at_first_failure :
  forall src pre f post,
    all_succeed src pre ->
    fst (src (chip f) (subfeature_i f)) <> 0 ->
    detect_temp src (pre ++ f :: post) =
      (map (fun x => Sensors_get_value (chip x) (subfeature_i x))
         (pre ++ [f])
       ++ [Stderr (Unable_to_read_value (chip_name f) (feature_name f)
                     (fst (src (chip f) (subfeature_i f))))],
       Exit (-1)).
Proof.
  intros src pre f post Hall Hrc. unfold detect_temp.
  apply detect_temp_from_first_failure; assumption.
Qed.

Lemma lt_not_nan (a b : double) :
  lt a b = true -> isnan a = false /\ isnan b = false.
Proof.
  unfold lt. rewrite ltb_spec. unfold SFltb. intros H.
  split.
  - destruct (isnan a) eqn:E; [|reflexivity].
    apply DoubleFacts.isnan_spec in E. rewrite E in H. discriminate.
  - destruct (isnan b) eqn:E; [|reflexivity].
    apply DoubleFacts.isnan_spec in E. rewrite E in H.
    destruct (Prim2SF a); discriminate.
Qed.

Lemma detect_temp_from_grows (src : sensor_source) (fs : list feature_t) :
  forall max evs r,
    detect_temp_from src fs max = (evs, Value r) ->
    r = max \/ lt max r = true.
Proof.
  induction fs as [|f fs IH]; intros max evs r; simpl.
  - unfold ret. intros H. inversion H. left. reflexivity.
  - destruct (src (chip f) (subfeature_i f)) as [rc value].
    destruct (rc =? 0); simpl; [|discriminate].
    destruct (detect_temp_from src fs (if gt value max then value else max))
      as [l [r'| |]] eqn:E; try discriminate.
    intros H. inversion H; subst.
    destruct (IH _ _ _ E) as [Hr | Hr];
      destruct (gt value max) eqn:Hgt; unfold gt in Hgt;
      fold (lt max value) in Hgt; subst; auto.
    right. apply (DoubleFacts.lt_trans max value r); assumption.
Qed.

(** X4: whatever the sensors answer, a sample that [detect_temp]
    returns is a number, never NaN, and is never below -1.0: a reading
    that is NaN or below -1.0 is never what the governor compares with
    its thresholds. *)
Theorem detect_temp_is_a_number_from_minus_one :
  forall src fs evs r,
    detect_temp src fs = (evs, Value r) ->
    isnan r = false /\ lt r (-1.0) = false.
Proof.
  intros src fs evs r H. unfold detect_temp in H.
  destruct (detect_temp_from_grows src fs _ _ _ H) as [-> | Hlt].
  - split; reflexivity.
  - split.
    + apply (lt_not_nan _ _ Hlt).
    + apply DoubleFacts.lt_asym. exact Hlt.
Qed.

(** ** What every turn keeps *)

Section Turns.

Variables hot_threshold cool_threshold : double.
Variable child : Z.
Variable temps : list feature_t.

Local Abbreviation loop_body := (loop_body hot_threshold cool_threshold child).
Local Abbreviation iteration :=
  (iteration hot_threshold cool_threshold child temps).
Local Abbreviation run := (run hot_threshold cool_threshold child temps).

Lemma sampling_no_sleep (revs : list event) :
  (forall e, In e revs -> sampling_event e) -> count is_sleep revs = 0%nat.
Proof.
  intros H. apply count_none. intros e He. apply H in He.
  destruct e; simpl in *; try reflexivity; contradiction.
Qed.

Lemma sampling_no_cleanup (revs : list event) :
  (forall e, In e revs -> sampling_event e) -> count is_cleanup revs = 0%nat.
Proof.
  intros H. apply count_none. intros e He. apply H in He.
  destruct e; simpl in *; try reflexivity; contradiction.
Qed.

Lemma sampling_aimed (revs : list event) :
  (forall e, In e revs -> sampling_event e) ->
  forall e, In e revs -> aimed child e.
Proof.
  intros H e He. apply H in He.
  destruct e; simpl in *; try exact I; contradiction.
Qed.

Lemma truth_zero (v : Z) : negb (v =? 0) = false -> truth v = 0%nat.
Proof.
  unfold truth. destruct (v =? 0); [reflexivity | discriminate].
Qed.

Lemma truth_nonzero (v : Z) : negb (v =? 0) = true -> truth v = 1%nat.
Proof.
  unfold truth. destruct (v =? 0); [discriminate | reflexivity].
Qed.

(** Rewrites the tests met so far into the values of [truth]. *)
Ltac settle_truth :=
  repeat match goal with
         | H : negb (?v =? 0) = false |- context [truth ?v] =>
             rewrite (truth_zero v H)
         | H : negb (?v =? 0) = true |- context [truth ?v] =>
             rewrite (truth_nonzero v H)
         end.

(** The acting part of a turn, for the sample [t] and the flags as
    delivered: the lines it prints match the signals it sends, which
    are aimed at the child; a SIGKILL uses up the pending Ctrl-C; the
    SIGSTOPs and SIGCONTs account for the change of [hot]. *)
Lemma act_facts (t : double) (s : state) (k : tick) :
  exists evs c,
    (c <- loop_body t s k ;; sleep c) = (evs, Value c) /\
    count (is_notice 171) evs = count (is_kill SIGSTOP) evs /\
    count (is_notice 172) evs = count (is_kill SIGCONT) evs /\
    count (is_notice 174) evs = count (is_kill SIGKILL) evs /\
    (forall e, In e evs -> aimed child e) /\
    (count (is_kill SIGKILL) evs + truth (killed (state_of c))
     = truth (killed s))%nat /\
    (count (is_kill SIGSTOP) evs + truth (hot s)
     = count (is_kill SIGCONT) evs + truth (hot (state_of c)))%nat /\
    count is_cleanup evs = 0%nat /\
    (forall s', c = Break s' -> truth (hot s') = 0%nat) /\
    (count (is_notice 173) evs + truth (hot_killed (state_of c))
     = truth (hot_killed s))%nat.
Proof.
  unfold_turn. split_tests; cbn;
    (eexists; eexists; split; [reflexivity|]); cbn;
    settle_truth;
    (split; [reflexivity|]); (split; [reflexivity|]);
    (split; [reflexivity|]);
    (split; [intros e He; simpl in He;
             repeat (destruct He as [<- | He]; [simpl; auto|]);
             contradiction|]);
    (split; [reflexivity|]); (split; [reflexivity|]);
    (split; [reflexivity|]);
    (split; [intros s' Hc; inversion Hc; subst; cbn; settle_truth;
             reflexivity|]);
    reflexivity.
Qed.

Lemma truth_delivered (k : tick) (s : state) :
  (truth (killed (delivered k s))
   <= truth (killed s) + (if sigint k then 1 else 0))%nat.
Proof.
  unfold delivered. destruct (sigint k); simpl.
  - unfold truth. destruct (killed s =? 0); simpl; lia.
  - lia.
Qed.

Lemma truth_delivered_hot (k : tick) (s : state) :
  (truth (hot_killed (delivered k s))
   <= truth (hot_killed s) + (if sigint k then 1 else 0))%nat.
Proof.
  unfold delivered. destruct (sigint k); simpl.
  - unfold truth. destruct (hot_killed s =? 0); simpl; lia.
  - lia.
Qed.

(** A whole turn, sampling included. *)
Lemma turn_facts (s : state) (k : tick) :
  count (is_notice 171) (fst (iteration s k))
    = count (is_kill SIGSTOP) (fst (iteration s k)) /\
  count (is_notice 172) (fst (iteration s k))
    = count (is_kill SIGCONT) (fst (iteration s k)) /\
  count (is_notice 174) (fst (iteration s k))
    = count (is_kill SIGKILL) (fst (iteration s k)) /\
  (forall e, In e (fst (iteration s k)) -> aimed child e) /\
  count is_cleanup (fst (iteration s k)) = 0%nat /\
  match snd (iteration s k) with
  | Value c =>
      (count (is_kill SIGKILL) (fst (iteration s k))
       + truth (killed (state_of c))
       = truth (killed (delivered k s)))%nat /\
      (count (is_kill SIGSTOP) (fst (iteration s k)) + truth (hot s)
       = count (is_kill SIGCONT) (fst (iteration s k))
         + truth (hot (state_of c)))%nat /\
      (forall s', c = Break s' -> truth (hot s') = 0%nat) /\
      (count (is_notice 173) (fst (iteration s k))
       + truth (hot_killed (state_of c))
       = truth (hot_killed (delivered k s)))%nat
  | Exit c =>
      c = -1 /\
      forall e, In e (fst (iteration s k)) -> sampling_event e
  | Exec _ => False
  end.
Proof.
  destruct (sampled temps k) as [t|] eqn:Hs.
  - destruct (iteration_sampled hot_threshold cool_threshold child temps
                s k t Hs) as [revs [Hev ->]].
    destruct (act_facts t (delivered k s) k)
      as (evs & c & -> & H1 & H2 & H3 & H4 & H5 & H6 & H7 & H8 & H9).
    cbn [fst snd].
    rewrite !count_app, (sampling_no_notice 171 revs Hev),
      (sampling_no_notice 173 revs Hev),
      (sampling_no_notice 172 revs Hev), (sampling_no_notice 174 revs Hev),
      (sampling_no_kill SIGSTOP revs Hev), (sampling_no_kill SIGCONT revs Hev),
      (sampling_no_kill SIGKILL revs Hev), (sampling_no_cleanup revs Hev).
    rewrite (hot_delivered k s) in H6. simpl.
    repeat split; auto.
    intros e He. apply in_app_or in He. destruct He as [He | He].
    + apply (sampling_aimed revs Hev e He).
    + apply H4. exact He.
  - destruct (iteration_unsampled hot_threshold cool_threshold child temps
                s k Hs) as [Hev Hv].
    pose proof (iteration_exit hot_threshold cool_threshold child temps s k)
      as Hx. unfold fatal_only in Hx.
    rewrite (sampling_no_notice 171 _ Hev), (sampling_no_notice 172 _ Hev),
      (sampling_no_notice 174 _ Hev), (sampling_no_kill SIGSTOP _ Hev),
      (sampling_no_kill SIGCONT _ Hev), (sampling_no_kill SIGKILL _ Hev).
    split; [reflexivity|]. split; [reflexivity|]. split; [reflexivity|].
    split; [apply sampling_aimed; exact Hev|].
    split; [apply sampling_no_cleanup; exact Hev|].
    destruct (snd (iteration s k)) as [c|c|v].
    + exfalso. apply (Hv c). reflexivity.
    + split; [exact Hx | exact Hev].
    + exact Hx.
Qed.

Lemma truth_le_one (v : Z) : (truth v <= 1)%nat.
Proof. unfold truth. destruct (v =? 0); lia. Qed.

Lemma deliveries_cons (k : tick) (ks : list tick) :
  deliveries (k :: ks)
  = ((if sigint k then 1 else 0) + deliveries ks)%nat.
Proof. unfold deliveries. simpl. destruct (sigint k); reflexivity. Qed.

Lemma run_exit_here (s : state) (k : tick) (ks : list tick)
    (evs : list event) (c : Z) :
  iteration s k = (evs, Exit c) -> run s (k :: ks) = (evs, Exit c).
Proof. intros H. simpl. rewrite H. reflexivity. Qed.

(** A run of the loop, however it ends. *)
Lemma run_facts (ks : list tick) :
  forall s,
    count (is_notice 171) (fst (run s ks))
      = count (is_kill SIGSTOP) (fst (run s ks)) /\
    count (is_notice 172) (fst (run s ks))
      = count (is_kill SIGCONT) (fst (run s ks)) /\
    count (is_notice 174) (fst (run s ks))
      = count (is_kill SIGKILL) (fst (run s ks)) /\
    (forall e, In e (fst (run s ks)) -> aimed child e) /\
    count is_cleanup (fst (run s ks)) = 0%nat /\
    (count (is_kill SIGKILL) (fst (run s ks))
     <= truth (killed s) + deliveries ks)%nat /\
    match snd (run s ks) with
    | Value e =>
        (count (is_kill SIGSTOP) (fst (run s ks)) + truth (hot s)
         = count (is_kill SIGCONT) (fst (run s ks))
           + truth (hot (end_state e)))%nat /\
        (forall s', e = Broke s' -> truth (hot s') = 0%nat)
    | Exit c =>
        c = -1 /\
        (count (is_kill SIGCONT) (fst (run s ks))
         <= count (is_kill SIGSTOP) (fst (run s ks)) + truth (hot s)
         <= count (is_kill SIGCONT) (fst (run s ks)) + 1)%nat
    | Exec _ => False
    end.
Proof.
  induction ks as [|k ks IH]; intros s.
  - simpl. repeat split; try reflexivity; try discriminate;
      try (intros ? []); unfold count; simpl; lia.
  - pose proof (turn_facts s k) as (T1 & T2 & T3 & T4 & T5 & T6).
    pose proof (truth_delivered k s) as Hd.
    rewrite deliveries_cons.
    destruct (iteration s k) as [evs [[s1|s1]|c|v]] eqn:E;
      cbn [fst snd state_of] in *.
    + (* the turn continues *)
      rewrite (run_continue _ _ _ _ _ _ _ _ _ E).
      destruct (IH s1) as (R1 & R2 & R3 & R4 & R5 & R6 & R7).
      destruct T6 as (K & B & _ & _).
      cbn [fst snd]. rewrite !count_app, T1, T2, T3, T5, R1, R2, R3, R5.
      split; [reflexivity|]. split; [reflexivity|]. split; [reflexivity|].
      split.
      { intros e He. apply in_app_or in He. destruct He; auto. }
      split; [reflexivity|]. split; [lia|].
      destruct (snd (run s1 ks)) as [e|c|v].
      * destruct R7 as [R7 R8]. split; [lia | exact R8].
      * destruct R7 as [R7 R8]. pose proof (truth_le_one (hot s1)).
        split; [exact R7 | lia].
      * exact R7.
    + (* the turn leaves the loop *)
      rewrite (run_break _ _ _ _ _ _ _ _ _ E).
      destruct T6 as (K & B & Hb & _). cbn [fst snd end_state].
      repeat split; auto; try lia.
      intros s' Hs'. inversion Hs'; subst. apply (Hb s' eq_refl).
    + (* a read failed *)
      rewrite (run_exit_here _ _ _ _ _ E).
      destruct T6 as (-> & Hev). cbn [fst snd].
      rewrite (sampling_no_kill SIGKILL _ Hev) in *.
      rewrite (sampling_no_kill SIGSTOP _ Hev) in *.
      rewrite (sampling_no_kill SIGCONT _ Hev) in *.
      pose proof (truth_le_one (hot s)).
      repeat split; auto; lia.
    + contradiction.
Qed.

(** The 173 lines of a run are bounded like its SIGKILLs. *)
Lemma run_deferred (ks : list tick) :
  forall s,
    (count (is_notice 173) (fst (run s ks))
     <= truth (hot_killed s) + deliveries ks)%nat.
Proof.
  induction ks as [|k ks IH]; intros s.
  - simpl. unfold count. simpl. lia.
  - pose proof (turn_facts s k) as (_ & _ & _ & _ & _ & T6).
    pose proof (truth_delivered_hot k s) as Hd.
    rewrite deliveries_cons.
    destruct (iteration s k) as [evs [[s1|s1]|c|v]] eqn:E;
      cbn [fst snd state_of] in *.
    + rewrite (run_continue _ _ _ _ _ _ _ _ _ E).
      destruct T6 as (_ & _ & _ & D). specialize (IH s1).
      cbn [fst]. rewrite count_app. lia.
    + rewrite (run_break _ _ _ _ _ _ _ _ _ E).
      destruct T6 as (_ & _ & _ & D). cbn [fst]. lia.
    + rewrite (run_exit_here _ _ _ _ _ E).
      destruct T6 as (_ & Hev). cbn [fst].
      rewrite (sampling_no_notice 173 _ Hev). lia.
    + contradiction.
Qed.

End Turns.

(** ** The whole of [main] *)

Lemma init_outcome (l : library) :
  (exists temps fans,
      init l = ([Install_SIGINT_handler], Value (temps, fans))) \/
  (exists d, init l = ([Stderr d], Exit (-1))).
Proof.
  unfold init.
  destruct (sensors_init l =? 0); cbn [negb];
    [|right; eexists; reflexivity].
  destruct (init_features_outcome l SENSORS_SUBFEATURE_TEMP_INPUT
              temperature_features)
    as [(temps & Et & _) | ((d & Et) & _)]; rewrite Et;
    [|right; exists d; reflexivity].
  destruct (init_features_outcome l SENSORS_SUBFEATURE_FAN_INPUT
              fan_features)
    as [(fans & Ef & _) | ((d & Ef) & _)]; unfold bind at 1; rewrite Ef.
  - left. exists temps, fans. reflexivity.
  - right. exists d. reflexivity.
Qed.

Lemma start_child_cases (k : spawn) (argv : list string) :
  (fork_ret k <> 0 /\
   start_child k argv
     = ([Fork; Setpgid (fork_ret k) 0], Value (fork_ret k))) \/
  (exists evs,
      (forall e, In e evs -> startup_event e) /\
      (start_child k argv = (evs, Exit (-1)) \/
       start_child k argv = (evs, Exec argv))).
Proof.
  unfold start_child.
  destruct (fork_ret k =? 0) eqn:E; cbn [negb].
  - right. destruct (execvp_errno k); eexists; (split;
      [|first [left; reflexivity | right; reflexivity]]);
      simpl; intros e He;
      repeat (destruct He as [<- | He]; [exact I|]); contradiction.
  - apply Z.eqb_neq in E.
    destruct (negb (setpgid_ret k =? 0)); [|left; split; [exact E|reflexivity]].
    destruct (negb (getpgid_ret k =? fork_ret k));
      [|left; split; [exact E|reflexivity]].
    right. eexists. split; [|left; reflexivity].
    simpl; intros e He;
      repeat (destruct He as [<- | He]; [exact I|]); contradiction.
Qed.

Lemma bind_known {A B : Type} (l : list event) (a : A) (k : A -> prog B) :
  bind (l, Value a) k = (l ++ fst (k a), snd (k a)).
Proof. unfold bind. destruct (k a). reflexivity. Qed.

(** [main] either ends during start-up, having logged start-up events
    only, or logs start-up events, then the loop run with the pid that
    [fork] returned, then the cleanup if the loop was left. *)
Lemma main_shape (w : world) :
  ((forall e, In e (fst (main w)) -> startup_event e) /\
   (forall v, snd (main w) <> Value v)) \/
  (exists pre tables,
      (forall e, In e pre -> startup_event e) /\
      snd (init (lib w)) = Value tables /\
      fork_ret (child_start w) <> 0 /\
      fst (main w)
        = pre
          ++ fst (run (hot_arg w) (cool_arg w) (fork_ret (child_start w))
                    (fst tables) initial (ticks w))
          ++ epilogue
               (snd (run (hot_arg w) (cool_arg w)
                       (fork_ret (child_start w)) (fst tables) initial
                       (ticks w))) /\
      snd (main w)
        = match snd (run (hot_arg w) (cool_arg w)
                       (fork_ret (child_start w)) (fst tables) initial
                       (ticks w)) with
          | Value (Broke s) => Value (Returned (si_status s))
          | Value (Unfinished s) => Value (Looping s)
          | Exit c => Exit c
          | Exec v => Exec v
          end).
Proof.
  unfold main.
  destruct (check_arguments_rejects (argc w) (argv0 w) (hot_arg w)
              (cool_arg w)) as [E0 | [d E0]]; rewrite E0.
  2:{ left. simpl. split; [|discriminate].
      intros e [<- | []]. exact I. }
  rewrite bind_known.
  destruct (init_outcome (lib w)) as [(temps & fans & E1) | [d E1]];
    rewrite E1.
  2:{ left. simpl. split; [|discriminate].
      intros e [<- | []]. exact I. }
  rewrite bind_known.
  destruct (start_child_cases (child_start w) (command w))
    as [[Hp E2] | (evs & Hev & [E2 | E2])]; rewrite E2.
  2:{ left. simpl. split; [|discriminate].
      intros e [<- | He]; [exact I | auto]. }
  2:{ left. simpl. split; [|discriminate].
      intros e [<- | He]; [exact I | auto]. }
  rewrite bind_known.
  right. exists [Install_SIGINT_handler; Fork;
                 Setpgid (fork_ret (child_start w)) 0], (temps, fans).
  split.
  { simpl. intros e He.
    repeat (destruct He as [<- | He]; [exact I|]). contradiction. }
  split; [reflexivity|]. split; [exact Hp|].
  cbn [fst snd].
  destruct (run (hot_arg w) (cool_arg w) (fork_ret (child_start w)) temps
              initial (ticks w)) as [l [[s|s]|c|v]]; simpl;
    rewrite ?app_nil_r; split; reflexivity.
Qed.

Lemma startup_count (p : event -> bool) (evs : list event) :
  (forall e, startup_event e -> p e = false) ->
  (forall e, In e evs -> startup_event e) ->
  count p evs = 0%nat.
Proof.
  intros Hp Hev. apply count_none. intros e He. apply Hp, Hev, He.
Qed.

Lemma startup_no_notice (n : Z) (e : event) :
  startup_event e -> is_notice n e = false.
Proof. destruct e; simpl; try reflexivity; contradiction. Qed.

Lemma startup_no_kill (sig : signal) (e : event) :
  startup_event e -> is_kill sig e = false.
Proof. destruct e; simpl; try reflexivity; contradiction. Qed.

Lemma startup_no_cleanup (e : event) :
  startup_event e -> is_cleanup e = false.
Proof. destruct e; simpl; try reflexivity; contradiction. Qed.

Lemma epilogue_count (p : event -> bool) (r : result loop_end) :
  p Sensors_cleanup = false -> count p (epilogue r) = 0%nat.
Proof.
  intros H. destruct r as [[s|s]|c|v]; simpl; try reflexivity.
  unfold count. simpl. rewrite H. reflexivity.
Qed.

(** Splits [main] by [main_shape], naming the run of the loop. *)
Ltac split_main w :=
  destruct (main_shape w)
    as [[Hstart Hnone] | (pre & tables & Hpre & Hinit & Hfork & -> & Hend)].

(** X5: every signal is announced, and nothing is announced that is
    not sent: in the log of any execution of [main], however it ends,
    the 171 lines are as many as the SIGSTOPs, the 172 lines as many as
    the SIGCONTs and the 174 lines as many as the SIGKILLs. *)
Theorem signals_are_announced :
  forall w,
    count (is_notice 171) (fst (main w))
      = count (is_kill SIGSTOP) (fst (main w)) /\
    count (is_notice 172) (fst (main w))
      = count (is_kill SIGCONT) (fst (main w)) /\
    count (is_notice 174) (fst (main w))
      = count (is_kill SIGKILL) (fst (main w)).
Proof.
  intros w. split_main w.
  - rewrite !(startup_count _ _ (startup_no_notice _) Hstart),
      !(startup_count _ _ (startup_no_kill _) Hstart).
    repeat split; reflexivity.
  - destruct (run_facts (hot_arg w) (cool_arg w) (fork_ret (child_start w))
                (fst tables) (ticks w) initial)
      as (R1 & R2 & R3 & _).
    rewrite !count_app, R1, R2, R3.
    rewrite !(startup_count _ _ (startup_no_notice _) Hpre),
      !(startup_count _ _ (startup_no_kill _) Hpre).
    rewrite !epilogue_count by reflexivity.
    repeat split; reflexivity.
Qed.

(** X6: [main] signals nothing but the child it forked: every SIGKILL
    in its log goes to the pid that [fork] returned, every SIGSTOP and
    SIGCONT to the process group of that number, whatever that pid is:
    the value of [fork] is used as it comes, -1 included. *)
Theorem signals_go_to_the_forked_pid :
  forall w e,
    In e (fst (main w)) -> aimed (fork_ret (child_start w)) e.
Proof.
  intros w e. split_main w.
  - intros He. apply Hstart in He.
    destruct e; simpl in *; try exact I; contradiction.
  - intros He. apply in_app_or in He. destruct He as [He | He].
    + apply Hpre in He. destruct e; simpl in *; try exact I; contradiction.
    + apply in_app_or in He. destruct He as [He | He].
      * destruct (run_facts (hot_arg w) (cool_arg w)
                    (fork_ret (child_start w)) (fst tables) (ticks w)
                    initial) as (_ & _ & _ & R4 & _).
        apply R4. exact He.
      * destruct (snd (run (hot_arg w) (cool_arg w)
                         (fork_ret (child_start w)) (fst tables) initial
                         (ticks w))) as [[s|s]|c|v];
          simpl in He; try contradiction.
        destruct He as [<- | []]. exact I.
Qed.

(** X7: the governor kills only on Ctrl-C: in the log of any execution
    of [main] the SIGKILLs are at most as many as the ticks at which
    SIGINT was delivered, and so are the 173 lines; with no delivery
    there is neither. *)
Theorem kills_need_an_interrupt :
  forall w,
    (count (is_kill SIGKILL) (fst (main w)) <= deliveries (ticks w))%nat /\
    (count (is_notice 173) (fst (main w)) <= deliveries (ticks w))%nat.
Proof.
  intros w. split_main w.
  - rewrite (startup_count _ _ (startup_no_kill _) Hstart),
      (startup_count _ _ (startup_no_notice _) Hstart). lia.
  - pose proof (run_deferred (hot_arg w) (cool_arg w)
                  (fork_ret (child_start w)) (fst tables) (ticks w) initial)
      as D.
    change (truth (hot_killed initial)) with 0%nat in D.
    destruct (run_facts (hot_arg w) (cool_arg w) (fork_ret (child_start w))
                (fst tables) (ticks w) initial)
      as (_ & _ & _ & _ & _ & R6 & _).
    rewrite !count_app, (startup_count _ _ (startup_no_kill _) Hpre),
      (startup_count _ _ (startup_no_notice _) Hpre).
    rewrite !epilogue_count by reflexivity.
    change (truth (killed initial)) with 0%nat in R6. lia.
Qed.

(** X9: [sensors_cleanup] is called once when [main] returns and never
    otherwise: not when the process ends by [exit(-1)], at start-up or
    on a failed read in the loop. *)
Theorem cleanup_only_on_return :
  forall w,
    count is_cleanup (fst (main w))
    = match snd (main w) with
      | Value (Returned _) => 1%nat
      | _ => 0%nat
      end.
Proof.
  intros w. split_main w.
  - rewrite (startup_count _ _ startup_no_cleanup Hstart).
    destruct (snd (main w)) as [v|c|v]; try reflexivity.
    exfalso. apply (Hnone v). reflexivity.
  - destruct (run_facts (hot_arg w) (cool_arg w) (fork_ret (child_start w))
                (fst tables) (ticks w) initial)
      as (_ & _ & _ & _ & R5 & _).
    rewrite Hend.
    rewrite !count_app, (startup_count _ _ startup_no_cleanup Hpre), R5.
    destruct (snd (run (hot_arg w) (cool_arg w) (fork_ret (child_start w))
                     (fst tables) initial (ticks w))) as [[s|s]|c|v];
      reflexivity.
Qed.

(** X10: the bounds are closed.  With four or more arguments, the
    command line is accepted whenever [hot <= 90], [30 <= cool] and
    [cool <= hot] hold; equal thresholds pass, although the diagnostic
    of the third check reads "must be more than". *)
Theorem closed_bounds_are_accepted :
  forall n a0 h c,
    4 <= n ->
    le h 90.0 = true ->
    le 30.0 c = true ->
    le c h = true ->
    check_arguments n a0 h c = ([], Value tt).
Proof.
  intros n a0 h c Hn Hh Hc Hch.
  apply check_arguments_accepts. repeat split.
  - apply Z.ltb_ge. exact Hn.
  - apply DoubleFacts.le_not_gt. exact Hh.
  - apply DoubleFacts.le_not_gt in Hc. exact Hc.
  - apply DoubleFacts.le_not_gt in Hch. exact Hch.
Qed.

Lemma closed_bounds_are_accepted_witness :
  4 <= 4 /\ le 60 90.0 = true /\ le 30.0 60 = true /\ le 60 60 = true /\
  check_arguments 4 "krun" 60 60 = ([], Value tt).
Proof.
  split; [lia|]. split; [reflexivity|]. split; [reflexivity|].
  split; [reflexivity|].
  apply (closed_bounds_are_accepted 4 "krun"%string 60%float 60%float);
    [lia | reflexivity | reflexivity | reflexivity].
Defined.

(** X16: what [start_child] gives back.  It returns a pid exactly when
    [fork] returned that pid, non-zero, and either [setpgid] succeeded
    or [getpgid] already reports the pid as its own group; the pid is
    not checked further, so a failed [fork] (-1) passes when
    [getpgid(-1)] answers -1.  In the forked child ([fork] returned 0)
    it never returns: the command replaces the program, or the process
    ends with [exit(-1)], and [main] there logs start-up events only. *)
Theorem start_child_returns_the_forked_pid :
  (forall k argv p,
      (exists evs, start_child k argv = (evs, Value p)) <->
      p = fork_ret k /\ p <> 0 /\
      (setpgid_ret k = 0 \/ getpgid_ret k = p)) /\
  (forall k argv,
      fork_ret k = 0 ->
      snd (start_child k argv)
      = match execvp_errno k with
        | None => Exec argv
        | Some _ => Exit (-1)
        end) /\
  (forall w,
      fork_ret (child_start w) = 0 ->
      forall e, In e (fst (main w)) -> startup_event e).
Proof.
  split; [|split].
  - intros k argv p. unfold start_child.
    destruct (fork_ret k =? 0) eqn:E0; cbn [negb].
    + apply Z.eqb_eq in E0. split.
      * intros [evs H]. destruct (execvp_errno k); discriminate.
      * intros (-> & Hp & _). contradiction.
    + apply Z.eqb_neq in E0.
      destruct (setpgid_ret k =? 0) eqn:E1; cbn [negb].
      * apply Z.eqb_eq in E1. split.
        -- intros [evs H]. inversion H; subst. auto.
        -- intros (-> & _). eexists. reflexivity.
      * apply Z.eqb_neq in E1.
        destruct (getpgid_ret k =? fork_ret k) eqn:E2; cbn [negb].
        -- apply Z.eqb_eq in E2. split.
           ++ intros [evs H]. inversion H; subst. auto.
           ++ intros (-> & _). eexists. reflexivity.
        -- apply Z.eqb_neq in E2. split.
           ++ intros [evs H]. discriminate.
           ++ intros (-> & _ & [H | H]); contradiction.
  - intros k argv H0. unfold start_child.
    rewrite H0. simpl. destruct (execvp_errno k); reflexivity.
  - intros w H0. destruct (main_shape w)
      as [[Hstart _] | (pre & tables & _ & _ & Hfork & _)].
    + exact Hstart.
    + contradiction.
Qed.

(** ** More on turns and runs *)

Section Course.

Variables hot_threshold cool_threshold : double.
Variable child : Z.
Variable temps : list feature_t.

Local Abbreviation loop_body := (loop_body hot_threshold cool_threshold child).
Local Abbreviation iteration :=
  (iteration hot_threshold cool_threshold child temps).
Local Abbreviation run := (run hot_threshold cool_threshold child temps).

Lemma without_stderr_app (l1 l2 : list event) :
  without_stderr (l1 ++ l2) = without_stderr l1 ++ without_stderr l2.
Proof. unfold without_stderr. apply filter_app. Qed.

Lemma turn_ignores_kill_ret (f : Z -> signal -> Z) (s : state) (k : tick) :
  snd (iteration s (with_kill_ret f k)) = snd (iteration s k) /\
  without_stderr (fst (iteration s (with_kill_ret f k)))
    = without_stderr (fst (iteration s k)).
Proof.
  unfold Krun.iteration.
  change (sensors (with_kill_ret f k)) with (sensors k).
  change (delivered (with_kill_ret f k) s) with (delivered k s).
  generalize (delivered k s). intros s0.
  destruct (detect_temp (sensors k) temps) as [revs [t| |]];
    [|split; reflexivity|split; reflexivity].
  rewrite !bind_known. cbn [fst snd]. rewrite !without_stderr_app.
  unfold_turn.
  change (waitid_ret (with_kill_ret f k)) with (waitid_ret k).
  change (waitid_status (with_kill_ret f k)) with (waitid_status k).
  change (kill_ret (with_kill_ret f k)) with f.
  split_tests; cbn in *; try discriminate; split; reflexivity.
Qed.

(** X11: a signal that cannot be sent changes nothing but the log of
    errors.  Whatever [kill] returns at each tick, a run of the loop
    ends the same way, in the same state, and logs the same events
    apart from the lines on [stderr]: the governor becomes Hot after a
    SIGSTOP that failed and Cool after a SIGCONT that failed, and does
    not send the signal again. *)
Theorem signal_failures_change_nothing :
  forall (g : tick -> Z -> signal -> Z) ks s,
    snd (run s (map (fun k => with_kill_ret (g k) k) ks)) = snd (run s ks) /\
    without_stderr (fst (run s (map (fun k => with_kill_ret (g k) k) ks)))
      = without_stderr (fst (run s ks)).
Proof.
  intros g ks. induction ks as [|k ks IH]; intros s.
  - split; reflexivity.
  - destruct (turn_ignores_kill_ret (g k) s k) as [Hr Hl].
    simpl map. simpl run.
    destruct (iteration s (with_kill_ret (g k) k)) as [l1 r1].
    destruct (iteration s k) as [l2 r2].
    simpl in Hr, Hl. subst r2.
    destruct r1 as [[s1|s1]| |]; try (split; [reflexivity | exact Hl]).
    + rewrite !bind_known. cbn [fst snd].
      destruct (IH s1) as [IH1 IH2].
      rewrite !without_stderr_app, Hl, IH1, IH2. split; reflexivity.
    + rewrite !bind_known. cbn [fst snd ret].
      rewrite !without_stderr_app, Hl. split; reflexivity.
Qed.

(** X12: a turn that stays in the loop ends with exactly one
    [nanosleep], of one second when the state it leaves is Hot and of
    a tenth of a second when it is Cool, so the turn that suspends the
    child already sleeps long and the turn that resumes it already
    sleeps short; a turn that leaves the loop or ends the process does
    not sleep. *)
Theorem turn_ends_with_its_sleep :
  forall s k,
    match snd (iteration s k) with
    | Value (Continue s') =>
        exists evs,
          fst (iteration s k)
          = evs ++ [if negb (hot s' =? 0) then Nanosleep 1 0
                    else Nanosleep 0 100000000] /\
          count is_sleep evs = 0%nat
    | _ => count is_sleep (fst (iteration s k)) = 0%nat
    end.
Proof.
  intros s k.
  destruct (sampled temps k) as [t|] eqn:Hs.
  - destruct (iteration_sampled hot_threshold cool_threshold child temps
                s k t Hs) as [revs [Hev ->]].
    generalize (delivered k s). intros s0.
    pose proof (sampling_no_sleep revs Hev) as Hn.
    unfold count in Hn |- *.
    unfold_turn. split_tests; cbn;
      try solve [exfalso; cbn in *; congruence];
      try (rewrite filter_app, length_app, Hn; reflexivity);
      repeat match goal with
             | H : ?b = _ |- context [if ?b then _ else _] => rewrite H
             end;
      match goal with
      | |- exists evs, ?r ++ ?l = _ /\ _ =>
          exists (r ++ removelast l);
          rewrite filter_app, length_app, Hn, <- app_assoc;
          split; reflexivity
      end.
  - destruct (iteration_unsampled hot_threshold cool_threshold child temps
                s k Hs) as [Hev Hv].
    destruct (snd (iteration s k)) as [c| |].
    + exfalso. apply (Hv c). reflexivity.
    + apply sampling_no_sleep. exact Hev.
    + apply sampling_no_sleep. exact Hev.
Qed.

(** X13: a failed read ends the run on the spot, in either state: the
    process ends with [exit(-1)] having logged, in that turn, only the
    reads and the diagnostic; no signal is sent, so a child that is
    stopped stays stopped, and later ticks are never reached. *)
Theorem failed_read_ends_the_run :
  forall s k ks,
    sampled temps k = None ->
    run s (k :: ks) = (fst (iteration s k), Exit (-1)) /\
    (forall e, In e (fst (iteration s k)) -> sampling_event e) /\
    count (is_kill SIGCONT) (fst (run s (k :: ks))) = 0%nat.
Proof.
  intros s k ks Hs.
  destruct (iteration_unsampled hot_threshold cool_threshold child temps
              s k Hs) as [Hev Hv].
  pose proof (iteration_exit hot_threshold cool_threshold child temps s k)
    as Hx. unfold fatal_only in Hx.
  assert (E : run s (k :: ks) = (fst (iteration s k), Exit (-1))).
  { simpl. destruct (iteration s k) as [l [c|c|v]]; simpl in *.
    - exfalso. apply (Hv c). reflexivity.
    - subst c. reflexivity.
    - contradiction. }
  split; [exact E|]. split; [exact Hev|].
  rewrite E. apply sampling_no_kill. exact Hev.
Qed.

(** X14: how the loop is left.  A turn that starts in state Cool and in
    which [waitid] returns non-zero leaves the loop, with the status
    [waitid] stored if it stored one, without looking at the sample
    (no SIGSTOP however hot) and without sleeping; and a run that has
    left the loop did so in such a turn, the ticks after it unused. *)
Theorem loop_is_left_when_waitid_returns_nonzero :
  (forall s k t,
      hot s = 0 ->
      sampled temps k = Some t ->
      waitid_ret k <> 0 ->
      exists evs s',
        iteration s k = (evs, Value (Break s')) /\
        si_status s' = match waitid_status k with
                       | Some st => st
                       | None => si_status s
                       end /\
        count (is_kill SIGSTOP) evs = 0%nat /\
        count is_sleep evs = 0%nat) /\
  (forall s ks evs s',
      run s ks = (evs, Value (Broke s')) ->
      exists ks1 k ks2 evs1 s1 evs2,
        ks = ks1 ++ k :: ks2 /\
        run s ks1 = (evs1, Value (Unfinished s1)) /\
        iteration s1 k = (evs2, Value (Break s')) /\
        hot s1 = 0 /\
        waitid_ret k <> 0 /\
        evs = evs1 ++ evs2).
Proof.
  split.
  - intros s k t Hcool Hs Hw.
    destruct (iteration_sampled hot_threshold cool_threshold child temps
                s k t Hs) as [revs [Hev ->]].
    rewrite <- (hot_delivered k s) in Hcool.
    rewrite <- (si_status_delivered k s).
    generalize dependent (delivered k s). intros s0 Hcool.
    pose proof (sampling_no_sleep revs Hev) as Hn.
    pose proof (sampling_no_kill SIGSTOP revs Hev) as Hk.
    unfold_turn. rewrite (eqb_zero _ Hcool), (eqb_nonzero _ Hw).
    split_tests; cbn; (eexists; eexists; split; [reflexivity|]);
      rewrite !count_app, Hn, Hk; repeat split; reflexivity.
  - intros s ks evs s' H.
    apply (loop_exit hot_threshold cool_threshold child temps ks s evs s' H).
Qed.

End Course.

(** ** What is read *)

Lemma detect_temp_from_reads (src : sensor_source) (fs : list feature_t) :
  forall max e,
    In e (fst (detect_temp_from src fs max)) ->
    is_read e = true ->
    exists f, In f fs /\ e = Sensors_get_value (chip f) (subfeature_i f).
Proof.
  induction fs as [|f fs IH]; intros max e; simpl.
  - contradiction.
  - destruct (src (chip f) (subfeature_i f)) as [rc value].
    destruct (rc =? 0); simpl.
    + specialize (IH (if gt value max then value else max) e).
      destruct (detect_temp_from src fs
                  (if gt value max then value else max)) as [l r].
      simpl in *. intros [<- | He] Hr.
      * exists f. auto.
      * destruct (IH He Hr) as (f' & Hin & ->). exists f'. auto.
    + intros [<- | [<- | []]] Hr.
      * exists f. auto.
      * discriminate.
Qed.

Lemma detect_temp_from_log (src : sensor_source) (fs : list feature_t) :
  forall max evs r,
    detect_temp_from src fs max = (evs, Value r) ->
    evs = map (fun f => Sensors_get_value (chip f) (subfeature_i f)) fs.
Proof.
  induction fs as [|f fs IH]; intros max evs r; simpl.
  - unfold ret. intros H. inversion H. reflexivity.
  - destruct (src (chip f) (subfeature_i f)) as [rc value].
    destruct (rc =? 0); simpl; [|discriminate].
    destruct (detect_temp_from src fs
                (if gt value max then value else max)) as [l [r'| |]] eqn:E;
      try discriminate.
    intros H. inversion H; subst. f_equal. apply (IH _ _ _ E).
Qed.

Lemma act_no_read (hot_threshold cool_threshold : double) (child : Z)
    (t : double) (s : state) (k : tick) :
  filter is_read
    (fst (c <- loop_body hot_threshold cool_threshold child t s k ;;
          sleep c)) = [].
Proof.
  unfold_turn. split_tests; reflexivity.
Qed.

Lemma filter_none_in (p : event -> bool) (l : list event) (e : event) :
  filter p l = [] -> In e l -> p e = false.
Proof.
  intros H Hin. destruct (p e) eqn:E; [|reflexivity].
  assert (Hf : In e (filter p l)) by (apply filter_In; auto).
  rewrite H in Hf. contradiction.
Qed.

Lemma iteration_reads (hot_threshold cool_threshold : double) (child : Z)
    (temps : list feature_t) (s : state) (k : tick) (e : event) :
  In e (fst (iteration hot_threshold cool_threshold child temps s k)) ->
  is_read e = true ->
  exists f, In f temps /\ e = Sensors_get_value (chip f) (subfeature_i f).
Proof.
  unfold Krun.iteration, detect_temp.
  pose proof (detect_temp_from_reads (sensors k) temps (-1.0)%float e)
    as Hreads.
  destruct (detect_temp_from (sensors k) temps (-1.0)%float)
    as [revs [t| |]]; simpl in Hreads; try (simpl; exact Hreads).
  rewrite bind_known. cbn [fst]. intros He Hr.
  apply in_app_or in He. destruct He as [He | He]; [auto|].
  rewrite (filter_none_in is_read _ e
             (act_no_read hot_threshold cool_threshold child t
                (delivered k s) k) He) in Hr.
  discriminate.
Qed.

Lemma run_reads (hot_threshold cool_threshold : double) (child : Z)
    (temps : list feature_t) (ks : list tick) :
  forall s e,
    In e (fst (run hot_threshold cool_threshold child temps s ks)) ->
    is_read e = true ->
    exists f, In f temps /\ e = Sensors_get_value (chip f) (subfeature_i f).
Proof.
  induction ks as [|k ks IH]; intros s e; simpl.
  - contradiction.
  - pose proof (iteration_reads hot_threshold cool_threshold child temps
                  s k e) as Hit.
    destruct (iteration hot_threshold cool_threshold child temps s k)
      as [l [[s1|s1]| |]]; simpl in Hit; try (simpl; exact Hit).
    + rewrite bind_known. cbn [fst]. intros He Hr.
      apply in_app_or in He. destruct He as [He | He]; [auto|].
      apply (IH s1 e He Hr).
    + rewrite bind_known. cbn [fst ret]. rewrite app_nil_r. exact Hit.
Qed.

(** X15: only temperatures are read.  A turn that gets its sample has
    read each entry of the temperature table exactly once, in table
    order, and nothing else; and every sensor read in the log of
    [main] is a read of an entry of the temperature table as [init]
    resolved it: the fan entries, which [init] insists on resolving,
    are never read. *)
Theorem only_temperatures_are_read :
  (forall hot_threshold cool_threshold child temps s k t,
      sampled temps k = Some t ->
      filter is_read
        (fst (iteration hot_threshold cool_threshold child temps s k))
      = map (fun f => Sensors_get_value (chip f) (subfeature_i f)) temps) /\
  (forall w e,
      In e (fst (main w)) ->
      is_read e = true ->
      exists tables f,
        snd (init (lib w)) = Value tables /\
        In f (fst tables) /\
        e = Sensors_get_value (chip f) (subfeature_i f)).
Proof.
  split.
  - intros hot_threshold cool_threshold child temps s k t Hs.
    unfold Krun.iteration. unfold sampled in Hs.
    destruct (detect_temp (sensors k) temps) as [revs [t'| |]] eqn:E;
      simpl in Hs; try discriminate.
    rewrite bind_known. cbn [fst]. rewrite filter_app, act_no_read, app_nil_r.
    unfold detect_temp in E. apply detect_temp_from_log in E. subst revs.
    clear. induction temps as [|f fs IH]; simpl; [reflexivity|].
    rewrite IH. reflexivity.
  - intros w e He Hr.
    destruct (main_shape w)
      as [[Hstart _] | (pre & tables & Hpre & Hinit & _ & Hlog & _)].
    + apply Hstart in He. destruct e; simpl in *; try discriminate;
        contradiction.
    + rewrite Hlog in He. apply in_app_or in He. destruct He as [He | He].
      * apply Hpre in He. destruct e; simpl in *; try discriminate;
          contradiction.
      * apply in_app_or in He. destruct He as [He | He].
        -- destruct (run_reads _ _ _ _ _ _ _ He Hr) as (f & Hin & ->).
           exists tables, f. auto.
        -- destruct (snd (run (hot_arg w) (cool_arg w)
                            (fork_ret (child_start w)) (fst tables) initial
                            (ticks w))) as [[s|s]| |];
             simpl in He; try contradiction.
           destruct He as [<- | []]. discriminate.
Qed.

(** ** The further properties at sample inputs *)

Lemma init_feature_takes_first_match_witness :
  (init_feature Sample.machine (entry "coretemp-isa-0000" "temp2")
     SENSORS_SUBFEATURE_TEMP_INPUT
     = ([], Value (nth 0 Sample.resolved (entry "" ""))) /\
   [] = @nil event /\
   chip_name (nth 0 Sample.resolved (entry "" ""))
     = chip_name (entry "coretemp-isa-0000" "temp2") /\
   feature_name (nth 0 Sample.resolved (entry "" ""))
     = feature_name (entry "coretemp-isa-0000" "temp2")) /\
  (sensors_parse_chip_name Sample.mislabelled "coretemp-isa-0000" = 0 /\
   scan_chips "temp2"
     (sensors_get_detected_chips Sample.mislabelled "coretemp-isa-0000")
     = Some ({| chip_id := 7;
                features := [Sample.fan_feature "temp2" 1] |},
             Sample.fan_feature "temp2" 1) /\
   sensors_get_subfeature (Sample.fan_feature "temp2" 1)
     SENSORS_SUBFEATURE_TEMP_INPUT = None /\
   init_feature Sample.mislabelled (entry "coretemp-isa-0000" "temp2")
     SENSORS_SUBFEATURE_TEMP_INPUT
     = ([Stderr (Cant_find_input_subfeature "coretemp-isa-0000" "temp2")],
        Exit (-1))).
Proof.
  split.
  - assert (H : init_feature Sample.machine
                  (entry "coretemp-isa-0000" "temp2")
                  SENSORS_SUBFEATURE_TEMP_INPUT
                = ([], Value (nth 0 Sample.resolved (entry "" ""))))
      by reflexivity.
    split; [exact H|].
    destruct (proj1 init_feature_takes_first_match _ _ _ _ _ H)
      as (H1 & H2 & H3 & _).
    split; [exact H1|]. split; [exact H2 | exact H3].
  - split; [reflexivity|]. split; [reflexivity|]. split; [reflexivity|].
    apply (proj2 init_feature_takes_first_match Sample.mislabelled
             (entry "coretemp-isa-0000" "temp2")
             SENSORS_SUBFEATURE_TEMP_INPUT
             {| chip_id := 7; features := [Sample.fan_feature "temp2" 1] |}
             (Sample.fan_feature "temp2" 1)); reflexivity.
Defined.

Lemma detect_temp_stops_at_first_failure_witness :
  all_succeed Sample.second_fails (firstn 1 Sample.resolved) /\
  fst (Sample.second_fails (chip (nth 1 Sample.resolved (entry "" "")))
         (subfeature_i (nth 1 Sample.resolved (entry "" "")))) <> 0 /\
  detect_temp Sample.second_fails
    (firstn 1 Sample.resolved
     ++ nth 1 Sample.resolved (entry "" "") :: skipn 2 Sample.resolved)
  = ([Sensors_get_value (Some Sample.coretemp) 4;
      Sensors_get_value (Some Sample.coretemp) 8;
      Stderr (Unable_to_read_value "coretemp-isa-0000" "temp3" (-5))],
     Exit (-1)).
Proof.
  assert (Hall : all_succeed Sample.second_fails (firstn 1 Sample.resolved)).
  { unfold all_succeed. repeat constructor. }
  assert (Hrc : fst (Sample.second_fails
                       (chip (nth 1 Sample.resolved (entry "" "")))
                       (subfeature_i (nth 1 Sample.resolved (entry "" ""))))
                <> 0) by discriminate.
  split; [exact Hall|]. split; [exact Hrc|].
  apply (detect_temp_stops_at_first_failure Sample.second_fails
           (firstn 1 Sample.resolved)
           (nth 1 Sample.resolved (entry "" ""))
           (skipn 2 Sample.resolved) Hall Hrc).
Defined.

Lemma detect_temp_is_a_number_from_minus_one_witness :
  detect_temp (Sample.cores [nan; 45; (-7); 42; 41; 39]%float)
    Sample.resolved
  = (map (fun f => Sensors_get_value (chip f) (subfeature_i f))
       Sample.resolved, Value 45%float) /\
  isnan 45 = false /\ lt 45 (-1.0) = false.
Proof.
  assert (H : detect_temp (Sample.cores [nan; 45; (-7); 42; 41; 39]%float)
                Sample.resolved
              = (map (fun f => Sensors_get_value (chip f) (subfeature_i f))
                   Sample.resolved, Value 45%float)) by reflexivity.
  split; [exact H|].
  apply (detect_temp_is_a_number_from_minus_one _ _ _ _ H).
Defined.

Lemma signals_go_to_the_forked_pid_witness :
  In (Kill (-4242) SIGSTOP)
    (fst (main (Sample.command_line 75 60 [Sample.quiet 76]))) /\
  aimed (fork_ret (child_start (Sample.command_line 75 60 [Sample.quiet 76])))
    (Kill (-4242) SIGSTOP).
Proof.
  assert (H : In (Kill (-4242) SIGSTOP)
                (fst (main (Sample.command_line 75 60 [Sample.quiet 76])))).
  { vm_compute. do 11 right. left. reflexivity. }
  split; [exact H|].
  apply (signals_go_to_the_forked_pid _ _ H).
Defined.

Lemma failed_read_ends_the_run_witness :
  sampled Sample.resolved Sample.unreadable = None /\
  run 75 60 4242 Sample.resolved Sample.heated
    [Sample.unreadable; Sample.quiet 58]
  = (fst (iteration 75 60 4242 Sample.resolved Sample.heated
            Sample.unreadable), Exit (-1)) /\
  (forall e,
      In e (fst (iteration 75 60 4242 Sample.resolved Sample.heated
                   Sample.unreadable)) -> sampling_event e) /\
  count (is_kill SIGCONT)
    (fst (run 75 60 4242 Sample.resolved Sample.heated
            [Sample.unreadable; Sample.quiet 58])) = 0%nat.
Proof.
  split; [reflexivity|].
  apply (failed_read_ends_the_run 75 60 4242 Sample.resolved
           Sample.heated Sample.unreadable [Sample.quiet 58]).
  reflexivity.
Defined.

Lemma loop_is_left_when_waitid_returns_nonzero_witness :
  (hot initial = 0 /\
   sampled Sample.resolved (Sample.no_child 80) = Some 80%float /\
   waitid_ret (Sample.no_child 80) <> 0 /\
   exists evs s',
     iteration 75 60 4242 Sample.resolved initial (Sample.no_child 80)
       = (evs, Value (Break s')) /\
     si_status s' = match waitid_status (Sample.no_child 80) with
                    | Some st => st
                    | None => si_status initial
                    end /\
     count (is_kill SIGSTOP) evs = 0%nat /\
     count is_sleep evs = 0%nat) /\
  (run 75 60 4242 Sample.resolved initial
     [Sample.reaped 70 9; Sample.no_child 70; Sample.quiet 70]
   = (fst (run 75 60 4242 Sample.resolved initial
             [Sample.reaped 70 9; Sample.no_child 70; Sample.quiet 70]),
      Value (Broke {| hot := 0; killed := 0; hot_killed := 0;
                      si_status := 0 |})) /\
   exists ks1 k ks2 evs1 s1 evs2,
     [Sample.reaped 70 9; Sample.no_child 70; Sample.quiet 70]
       = ks1 ++ k :: ks2 /\
     run 75 60 4242 Sample.resolved initial ks1
       = (evs1, Value (Unfinished s1)) /\
     iteration 75 60 4242 Sample.resolved s1 k
       = (evs2, Value (Break {| hot := 0; killed := 0; hot_killed := 0;
                                si_status := 0 |})) /\
     hot s1 = 0 /\
     waitid_ret k <> 0 /\
     fst (run 75 60 4242 Sample.resolved initial
            [Sample.reaped 70 9; Sample.no_child 70; Sample.quiet 70])
       = evs1 ++ evs2).
Proof.
  split.
  - split; [reflexivity|]. split; [reflexivity|]. split; [discriminate|].
    apply (proj1 (loop_is_left_when_waitid_returns_nonzero 75 60 4242
                    Sample.resolved)
             initial (Sample.no_child 80) 80%float);
      [reflexivity | reflexivity | discriminate].
  - assert (H : run 75 60 4242 Sample.resolved initial
                  [Sample.reaped 70 9; Sample.no_child 70; Sample.quiet 70]
                = (fst (run 75 60 4242 Sample.resolved initial
                          [Sample.reaped 70 9; Sample.no_child 70;
                           Sample.quiet 70]),
                   Value (Broke {| hot := 0; killed := 0; hot_killed := 0;
                                   si_status := 0 |})))
      by (vm_compute; reflexivity).
    split; [exact H|].
    apply (proj2 (loop_is_left_when_waitid_returns_nonzero 75 60 4242
                    Sample.resolved) _ _ _ _ H).
Defined.

Lemma only_temperatures_are_read_witness :
  (sampled Sample.resolved (Sample.quiet 70) = Some 70%float /\
   filter is_read
     (fst (iteration 75 60 4242 Sample.resolved initial (Sample.quiet 70)))
   = map (fun f => Sensors_get_value (chip f) (subfeature_i f))
       Sample.resolved) /\
  (In (Sensors_get_value (Some Sample.coretemp) 4)
     (fst (main (Sample.command_line 75 60 [Sample.quiet 70]))) /\
   is_read (Sensors_get_value (Some Sample.coretemp) 4) = true /\
   exists tables f,
     snd (init (lib (Sample.command_line 75 60 [Sample.quiet 70])))
       = Value tables /\
     In f (fst tables) /\
     Sensors_get_value (Some Sample.coretemp) 4
       = Sensors_get_value (chip f) (subfeature_i f)).
Proof.
  split.
  - split; [reflexivity|].
    apply (proj1 only_temperatures_are_read 75%float 60%float 4242
             Sample.resolved initial (Sample.quiet 70) 70%float).
    reflexivity.
  - assert (H : In (Sensors_get_value (Some Sample.coretemp) 4)
                  (fst (main (Sample.command_line 75 60 [Sample.quiet 70])))).
    { vm_compute. do 3 right. left. reflexivity. }
    split; [exact H|]. split; [reflexivity|].
    apply (proj2 only_temperatures_are_read _ _ H). reflexivity.
Defined.

Lemma start_child_returns_the_forked_pid_witness :
  (fork_ret Sample.in_child = 0 /\
   snd (start_child Sample.in_child ["sleep"%string])
   = match execvp_errno Sample.in_child with
     | None => Exec ["sleep"%string]
     | Some _ => Exit (-1)
     end) /\
  (fork_ret (child_start Sample.child_side) = 0 /\
   In Fork (fst (main Sample.child_side)) /\
   startup_event Fork).
Proof.
  split.
  - split; [reflexivity|].
    apply (proj1 (proj2 start_child_returns_the_forked_pid)
             Sample.in_child ["sleep"%string]).
    reflexivity.
  - assert (H : In Fork (fst (main Sample.child_side))).
    { vm_compute. right. left. reflexivity. }
    split; [reflexivity|]. split; [exact H|].
    apply (proj2 (proj2 start_child_returns_the_forked_pid)
             Sample.child_side eq_refl Fork H).
Defined.

(** ** SIGINT inside a turn *)

Ltac unfold_turn_at :=
  unfold Krun.loop_body_at, taken, moment_eqb, handle_INT, sleep, resume,
    suspend, kill_child, printf, fprintf_stderr, emit, exit, ret, bind,
    hot_delay, cool_delay.

Ltac int_tests :=
  repeat match goal with
         | H : negb (_ =? 0) = false |- _ =>
             apply negb_false_iff, Z.eqb_eq in H
         | H : negb (_ =? 0) = true |- _ =>
             apply negb_true_iff, Z.eqb_neq in H
         end.

Lemma hot_killed_delivered (k : tick) (s : state) :
  hot_killed s <> 0 -> hot_killed (delivered k s) <> 0.
Proof. unfold delivered. destruct (sigint k); simpl; auto; lia. Qed.

Section Async.

Variables hot_threshold cool_threshold : double.
Variable child : Z.
Variable temps : list feature_t.

Local Abbreviation iteration := (iteration hot_threshold cool_threshold child temps).
Local Abbreviation iteration_at :=
  (iteration_at hot_threshold cool_threshold child temps).
Local Abbreviation loop_body_at := (loop_body_at hot_threshold cool_threshold child).
Local Abbreviation run_at := (run_at hot_threshold cool_threshold child temps).

Lemma iteration_at_Never (s : state) (k : tick) :
  iteration_at Never s k = iteration s k.
Proof. reflexivity. Qed.

Lemma iteration_at_sampled (m : moment) (s : state) (k : tick) (t : double) :
  sampled temps k = Some t ->
  exists revs,
    (forall e, In e revs -> sampling_event e) /\
    iteration_at m s k =
      (revs ++ fst (c <- loop_body_at m t (delivered k s) k ;; sleep c),
       snd (c <- loop_body_at m t (delivered k s) k ;; sleep c)).
Proof.
  intros H. destruct (sampled_detect_temp temps k t H) as [revs [E Hev]].
  exists revs. split; [exact Hev|].
  unfold Krun.iteration_at. rewrite E.
  unfold bind at 1.
  destruct (c <- loop_body_at m t (delivered k s) k ;; sleep c) as [l r].
  reflexivity.
Qed.

Lemma iteration_at_unsampled (m : moment) (s : state) (k : tick) :
  sampled temps k = None ->
  (forall e, In e (fst (iteration_at m s k)) -> sampling_event e) /\
  (forall c, snd (iteration_at m s k) <> Value c).
Proof.
  unfold Krun.iteration_at, sampled. intros H.
  pose proof (detect_temp_from_events (sensors k) temps (-1.0)%float) as Hev.
  fold (detect_temp (sensors k) temps) in Hev.
  destruct (detect_temp (sensors k) temps) as [revs [t| |]];
    try discriminate; simpl in *; split; auto; discriminate.
Qed.

(** What a turn that starts in state Hot does, whenever the handler
    runs. *)
Lemma hot_turn_at (m : moment) (s : state) (k : tick) (t : double) :
  hot s <> 0 ->
  sampled temps k = Some t ->
  exists evs s',
    iteration_at m s k = (evs, Value (Continue s')) /\
    count (is_kill SIGKILL) evs = 0%nat /\
    count is_waitid evs = 0%nat /\
    (hot_killed (delivered k s) <> 0 ->
       In (Stdout N173) evs /\ count (is_notice 173) evs = 1%nat) /\
    (hot_killed (delivered k s) = 0 -> count (is_notice 173) evs = 0%nat) /\
    (m = Never -> killed s' = killed (delivered k s) /\ hot_killed s' = 0) /\
    (m <> Never -> killed s' = 1) /\
    (m <> Never -> hot_killed (delivered k s) = 0 -> hot_killed s' = 1) /\
    (m = After_the_block -> hot_killed s' = 1) /\
    (killed (delivered k s) <> 0 -> killed s' <> 0) /\
    (lt t cool_threshold = true ->
       hot s' = 0 /\ In (Stdout (N172 t child)) evs /\
       In (Kill (- child) SIGCONT) evs) /\
    (lt t cool_threshold = false -> hot s' = hot s).
Proof.
  intros Hhot Hs.
  destruct (iteration_at_sampled m s k t Hs) as [revs [Hev ->]].
  rewrite <- (hot_delivered k s) in *.
  generalize dependent (delivered k s). intros s0 Hhot.
  unfold_turn_at. rewrite (eqb_nonzero _ Hhot).
  destruct m; cbn [negb];
  split_tests; cbn;
    (eexists; eexists; split; [reflexivity|]);
    rewrite !count_app, (sampling_no_waitid revs Hev),
      (sampling_no_kill SIGKILL revs Hev),
      (sampling_no_notice 173 revs Hev); cbn;
    int_tests;
    repeat split; try reflexivity; try congruence; intros;
    try congruence; try lia; try (apply in_or_app; right; simpl; tauto).
Qed.


(** What a turn that starts in state Cool does, whenever the handler
    runs. *)
Lemma cool_turn_at (m : moment) (s : state) (k : tick) (t : double) :
  hot s = 0 ->
  sampled temps k = Some t ->
  exists revs rest c,
    iteration_at m s k = (revs ++ rest, Value c) /\
    (forall e, In e revs -> sampling_event e) /\
    In (Waitid child (waitid_ret k) (waitid_status k)) rest /\
    count (is_notice 173) (revs ++ rest) = 0%nat /\
    (killed (delivered k s) <> 0 ->
       exists rest',
         rest = Stdout N174 :: Kill child SIGKILL :: rest' /\
         count (is_kill SIGKILL) rest' = 0%nat /\
         In (Waitid child (waitid_ret k) (waitid_status k)) rest') /\
    (killed (delivered k s) = 0 ->
       count (is_kill SIGKILL) (revs ++ rest) = 0%nat /\
       count (is_notice 174) (revs ++ rest) = 0%nat) /\
    (m <> After_the_block -> killed (delivered k s) <> 0 ->
       killed (state_of c) = 0) /\
    (m = Never -> killed (state_of c) = 0) /\
    (m <> Never -> killed (delivered k s) = 0 ->
       killed (state_of c) = 1 /\ hot_killed (state_of c) = 1) /\
    (waitid_ret k <> 0 -> c = Break (state_of c) /\ hot (state_of c) = 0) /\
    (waitid_ret k = 0 -> c = Continue (state_of c)) /\
    (waitid_ret k = 0 -> gt t hot_threshold = true ->
       hot (state_of c) = 1) /\
    (gt t hot_threshold = false -> hot (state_of c) = 0).
Proof.
  intros Hcool Hs.
  destruct (iteration_at_sampled m s k t Hs) as [revs [Hev ->]].
  rewrite <- (hot_delivered k s) in *.
  generalize dependent (delivered k s). intros s0 Hcool.
  exists revs.
  unfold_turn_at. rewrite (eqb_zero _ Hcool).
  destruct m; cbn [negb];
  split_tests; cbn;
    (eexists; eexists; split; [reflexivity|]);
    (split; [exact Hev|]);
    rewrite !count_app,
      (sampling_no_kill SIGKILL revs Hev),
      (sampling_no_notice 173 revs Hev),
      (sampling_no_notice 174 revs Hev); cbn;
    int_tests;
    repeat split; try reflexivity; try congruence; try tauto; intros;
    try congruence; try tauto;
    try (eexists; split; [reflexivity|]; split; [reflexivity|];
         simpl; tauto).
Qed.

Lemma run_at_continue (m : moment) (s s' : state) (k : tick)
    (bs : list (moment * tick)) (evs : list event) :
  iteration_at m s k = (evs, Value (Continue s')) ->
  run_at s ((m, k) :: bs) = (evs ++ fst (run_at s' bs), snd (run_at s' bs)).
Proof.
  intros H. simpl. rewrite H. unfold bind.
  destruct (run_at s' bs) as [l r]. reflexivity.
Qed.

Lemma run_at_break (m : moment) (s s' : state) (k : tick)
    (bs : list (moment * tick)) (evs : list event) :
  iteration_at m s k = (evs, Value (Break s')) ->
  run_at s ((m, k) :: bs) = (evs, Value (Broke s')).
Proof.
  intros H. simpl. rewrite H. unfold bind, ret. rewrite app_nil_r.
  reflexivity.
Qed.

Lemma run_at_app (bs1 bs2 : list (moment * tick)) :
  forall s evs1 s1,
    run_at s bs1 = (evs1, Value (Unfinished s1)) ->
    run_at s (bs1 ++ bs2)
      = (evs1 ++ fst (run_at s1 bs2), snd (run_at s1 bs2)).
Proof.
  induction bs1 as [|[m k] bs1 IH]; intros s evs1 s1 H.
  - simpl in H. unfold ret in H. inversion H; subst.
    simpl. destruct (run_at s1 bs2); reflexivity.
  - change (((m, k) :: bs1) ++ bs2) with ((m, k) :: (bs1 ++ bs2)).
    simpl in H.
    destruct (iteration_at m s k) as [evs0 [[s0|s0]| |]] eqn:E;
      unfold bind in H; try discriminate.
    destruct (run_at s0 bs1) as [l r] eqn:Er. inversion H; subst.
    rewrite (run_at_continue _ _ _ _ _ _ E).
    rewrite (IH s0 l s1 Er). cbn [fst snd]. rewrite app_assoc.
    reflexivity.
Qed.

(** With no SIGINT inside the turns, [run_at] is [run]. *)
Lemma run_at_Never (ks : list tick) :
  forall s,
    run_at s (map (fun k => (Never, k)) ks)
    = run hot_threshold cool_threshold child temps s ks.
Proof.
  induction ks as [|k ks IH]; intros s; [reflexivity|].
  simpl. rewrite iteration_at_Never.
  destruct (iteration s k) as [evs [[s'|s']| |]]; unfold bind;
    try reflexivity.
  rewrite IH. reflexivity.
Qed.

Lemma not_arrives (b : moment * tick) :
  ~ arrives b -> sigint (snd b) = false /\ fst b = Never.
Proof.
  unfold arrives. destruct b as [m k]. simpl. intros H.
  destruct (sigint k); [exfalso; auto|].
  destruct m; try (exfalso; apply H; right; discriminate).
  split; reflexivity.
Qed.

(** Turns that stay Hot send no SIGKILL and keep a pending Ctrl-C
    pending; a Ctrl-C that arrives in one of them is announced by the
    173 line or still to be announced at their end. *)
Lemma hot_run_at (hots : list (moment * tick)) :
  forall s,
    hot s <> 0 ->
    Forall (fun b => stays_hot cool_threshold temps (snd b)) hots ->
    exists evs s',
      run_at s hots = (evs, Value (Unfinished s')) /\
      hot s' <> 0 /\
      count (is_kill SIGKILL) evs = 0%nat /\
      (killed s <> 0 \/ Exists arrives hots -> killed s' <> 0) /\
      (hot_killed s <> 0 \/ Exists arrives hots ->
         In (Stdout N173) evs \/ hot_killed s' <> 0) /\
      (hot_killed s = 0 -> Forall (fun b => ~ arrives b) hots ->
         count (is_notice 173) evs = 0%nat /\ hot_killed s' = 0).
Proof.
  induction hots as [|[m k] hots IH]; intros s Hhot Hall.
  - exists [], s. split; [reflexivity|]. split; [exact Hhot|].
    split; [reflexivity|].
    split; [intros [H|H]; [exact H | inversion H]|].
    split; [intros [H|H]; [right; exact H | inversion H]|].
    intros H _. split; [reflexivity | exact H].
  - inversion Hall as [|b' bs' (t & Hs & Hlt) Hrest]; subst.
    cbn [snd] in Hs.
    destruct (hot_turn_at m s k t Hhot Hs)
      as (evs & s1 & E & Hk & _ & H173 & Hno173 & Hnever & Hlate & Hlatehk
          & _ & Hkeep & _ & Hstay).
    assert (Hhot1 : hot s1 <> 0) by (rewrite (Hstay Hlt); exact Hhot).
    destruct (IH s1 Hhot1 Hrest)
      as (evs' & s' & E' & Hhot' & Hk' & Hkd' & Hhk' & Hquiet').
    exists (evs ++ evs'), s'.
    rewrite (run_at_continue _ _ _ _ _ _ E), E'. cbn [fst snd].
    rewrite !count_app, Hk, Hk'.
    split; [reflexivity|]. split; [exact Hhot'|]. split; [reflexivity|].
    assert (Hkd1 : arrives (m, k) -> killed s1 <> 0).
    { intros [Hsig | Hm]; cbn [fst snd] in *.
      - apply Hkeep. destruct (delivered_sigint k s Hsig) as [-> _].
        discriminate.
      - rewrite (Hlate Hm). discriminate. }
    assert (Hhk1 : arrives (m, k) ->
                   In (Stdout N173) evs \/ hot_killed s1 <> 0).
    { intros [Hsig | Hm]; cbn [fst snd] in *.
      - left. apply H173.
        destruct (delivered_sigint k s Hsig) as [_ ->]. discriminate.
      - destruct (Z.eq_dec (hot_killed (delivered k s)) 0) as [Hz|Hnz].
        + right. rewrite (Hlatehk Hm Hz). discriminate.
        + left. apply H173. exact Hnz. }
    split; [|split].
    + intros [Hkd | Hex].
      * apply Hkd'. left. apply Hkeep. apply delivered_killed. exact Hkd.
      * inversion Hex as [? ? Ha | ? ? Ha]; subst.
        -- apply Hkd'. left. apply Hkd1. exact Ha.
        -- apply Hkd'. right. exact Ha.
    + assert (Hthen : In (Stdout N173) evs \/ hot_killed s1 <> 0 ->
                      In (Stdout N173) (evs ++ evs') \/ hot_killed s' <> 0).
      { intros [Hin | Hp].
        - left. apply in_or_app. left. exact Hin.
        - destruct (Hhk' (or_introl Hp)) as [Hin | Hp'].
          + left. apply in_or_app. right. exact Hin.
          + right. exact Hp'. }
      intros [Hhk | Hex].
      * left. apply in_or_app. left. apply H173.
        apply hot_killed_delivered. exact Hhk.
      * inversion Hex as [? ? Ha | ? ? Ha]; subst.
        -- apply Hthen, Hhk1. exact Ha.
        -- destruct (Hhk' (or_intror Ha)) as [Hin | Hp'].
           ++ left. apply in_or_app. right. exact Hin.
           ++ right. exact Hp'.
    + intros Hz Hnone. inversion Hnone as [|? ? Hb Hnone']; subst.
      destruct (not_arrives _ Hb) as [Hsig Hm]. cbn [fst snd] in Hsig, Hm.
      rewrite (delivered_none k s Hsig) in *.
      destruct (Hnever Hm) as [_ Hz1].
      destruct (Hquiet' Hz1 Hnone') as [Hc' Hz'].
      rewrite (Hno173 Hz), Hc'. split; [reflexivity | exact Hz'].
Qed.

(** C5, as amended: Ctrl-C arrives while the state is Hot, at any
    moment of a turn.  No turn that starts in state Hot sends a
    SIGKILL.  A Hot turn prints the 173 line exactly when it finds
    [hot_killed] set at its test, which a Ctrl-C taken before that test
    ensures; it then clears [hot_killed] only, and [killed] stays set.
    Through the Hot turns [hots] and the turn [k_down] that samples
    below the cool threshold and resumes the child no SIGKILL is sent;
    the Cool turn that follows prints the 174 line and sends the one
    SIGKILL, to the child.  The 173 line is printed when the Ctrl-C
    arrives in one of [hots] or before the test of [k_down]; a Ctrl-C
    that arrives only after the test of [k_down] gets none. *)
Theorem interrupt_in_a_hot_turn_is_deferred :
  (forall m s k,
      hot s <> 0 ->
      count (is_kill SIGKILL) (fst (iteration_at m s k)) = 0%nat) /\
  (forall m s k t,
      hot s <> 0 ->
      sampled temps k = Some t ->
      exists evs s',
        iteration_at m s k = (evs, Value (Continue s')) /\
        (hot_killed (delivered k s) <> 0 ->
           In (Stdout N173) evs /\
           (m = Never ->
              hot_killed s' = 0 /\ killed s' = killed (delivered k s))) /\
        (hot_killed (delivered k s) = 0 ->
           count (is_notice 173) evs = 0%nat) /\
        (sigint k = true -> In (Stdout N173) evs /\ killed s' = 1) /\
        (arrives (m, k) -> killed s' = 1)) /\
  (forall s hots m_down k_down t_down m_cool k_cool t_cool,
      hot s <> 0 ->
      Forall (fun b => stays_hot cool_threshold temps (snd b)) hots ->
      sampled temps k_down = Some t_down ->
      lt t_down cool_threshold = true ->
      sampled temps k_cool = Some t_cool ->
      Exists arrives (hots ++ [(m_down, k_down)]) ->
      exists evs1 s1 evs2 s2 evs3 c,
        run_at s hots = (evs1, Value (Unfinished s1)) /\
        hot s1 <> 0 /\
        iteration_at m_down s1 k_down = (evs2, Value (Continue s2)) /\
        hot s2 = 0 /\
        In (Kill (- child) SIGCONT) evs2 /\
        count (is_kill SIGKILL) (evs1 ++ evs2) = 0%nat /\
        iteration_at m_cool s2 k_cool = (evs3, Value c) /\
        In (Stdout N174) evs3 /\
        In (Kill child SIGKILL) evs3 /\
        count (is_kill SIGKILL) evs3 = 1%nat /\
        (m_cool <> After_the_block -> killed (state_of c) = 0) /\
        fst (run_at s (hots ++ [(m_down, k_down); (m_cool, k_cool)]))
          = evs1 ++ evs2 ++ evs3 /\
        (Exists arrives hots \/ sigint k_down = true ->
           In (Stdout N173) (evs1 ++ evs2)) /\
        (hot_killed s = 0 ->
         Forall (fun b => ~ arrives b) hots ->
         sigint k_down = false ->
           count (is_notice 173) (evs1 ++ evs2 ++ evs3) = 0%nat)).
Proof.
  split; [|split].
  - intros m s k Hhot.
    destruct (sampled temps k) as [t|] eqn:Hs.
    + destruct (hot_turn_at m s k t Hhot Hs) as (evs & s' & E & Hk & _).
      rewrite E. exact Hk.
    + destruct (iteration_at_unsampled m s k Hs) as [Hev _].
      apply sampling_no_kill. exact Hev.
  - intros m s k t Hhot Hs.
    destruct (hot_turn_at m s k t Hhot Hs)
      as (evs & s' & E & _ & _ & H173 & Hno173 & Hnever & Hlate & _ & _
          & _ & _ & _).
    exists evs, s'. split; [exact E|].
    split; [|split; [|split]].
    + intros Hhk. split; [apply H173; exact Hhk|].
      intros Hm. destruct (Hnever Hm) as [Hkd Hz]. split; assumption.
    + exact Hno173.
    + intros Hsig. destruct (delivered_sigint k s Hsig) as [Hd1 Hd2].
      split; [apply H173; rewrite Hd2; discriminate|].
      destruct m; [destruct (Hnever eq_refl) as [-> _]; exact Hd1| |];
        apply Hlate; discriminate.
    + intros [Hsig | Hm]; cbn [fst snd] in *.
      * destruct (delivered_sigint k s Hsig) as [Hd1 _].
        destruct m; [destruct (Hnever eq_refl) as [-> _]; exact Hd1| |];
          apply Hlate; discriminate.
      * apply Hlate. exact Hm.
  - intros s hots m_down k_down t_down m_cool k_cool t_cool
           Hhot Hall Hsd Hlt Hsc Hex.
    destruct (hot_run_at hots s Hhot Hall)
      as (evs1 & s1 & E1 & Hhot1 & Hk1 & Hkd1 & Hhk1 & Hquiet1).
    destruct (hot_turn_at m_down s1 k_down t_down Hhot1 Hsd)
      as (evs2 & s2 & E2 & Hk2 & _ & H173 & Hno173 & Hnever & Hlate & _ & _
          & Hkeep & Hdown & _).
    destruct (Hdown Hlt) as (Hcool2 & _ & Hcont).
    assert (Hkd2 : killed s2 <> 0).
    { apply Exists_app in Hex. destruct Hex as [Hex | Hex].
      - apply Hkeep, delivered_killed, Hkd1. right. exact Hex.
      - inversion Hex as [? ? Ha | ? ? Ha]; subst; [|inversion Ha].
        destruct Ha as [Hsig | Hm]; cbn [fst snd] in *.
        + apply Hkeep. destruct (delivered_sigint _ s1 Hsig) as [-> _].
          discriminate.
        + rewrite (Hlate Hm). discriminate. }
    destruct (cool_turn_at m_cool s2 k_cool t_cool Hcool2 Hsc)
      as (revs & rest & c & E3 & Hev & _ & Hc173 & Hkill & _ & Hclear & _).
    destruct (Hkill (delivered_killed k_cool s2 Hkd2))
      as (rest' & -> & Hkr & _).
    exists evs1, s1, evs2, s2,
      (revs ++ Stdout N174 :: Kill child SIGKILL :: rest'), c.
    rewrite !count_app, Hk1, Hk2, (sampling_no_kill SIGKILL revs Hev).
    change (count (is_kill SIGKILL)
              (Stdout N174 :: Kill child SIGKILL :: rest'))
      with (S (count (is_kill SIGKILL) rest')).
    rewrite Hkr.
    split; [exact E1|]. split; [exact Hhot1|]. split; [exact E2|].
    split; [exact Hcool2|]. split; [exact Hcont|]. split; [reflexivity|].
    split; [exact E3|].
    split; [apply in_or_app; right; apply in_eq|].
    split; [apply in_or_app; right; apply in_cons, in_eq|].
    split; [reflexivity|].
    split; [intros Hm; apply Hclear;
            [exact Hm | apply delivered_killed; exact Hkd2]|].
    split; [|split].
    + assert (R3 : fst (run_at s2 [(m_cool, k_cool)])
                   = revs ++ Stdout N174 :: Kill child SIGKILL :: rest').
      { destruct c as [s3|s3].
        - rewrite (run_at_continue _ _ _ _ _ _ E3). simpl. apply app_nil_r.
        - rewrite (run_at_break _ _ _ _ _ _ E3). reflexivity. }
      rewrite (run_at_app hots [(m_down, k_down); (m_cool, k_cool)]
                 s evs1 s1 E1).
      rewrite (run_at_continue _ _ _ _ _ _ E2). cbn [fst snd].
      rewrite R3. reflexivity.
    + intros [Hin | Hsig].
      * destruct (Hhk1 (or_intror Hin)) as [H | H].
        -- apply in_or_app. left. exact H.
        -- apply in_or_app. right. apply H173.
           apply hot_killed_delivered. exact H.
      * apply in_or_app. right. apply H173.
        destruct (delivered_sigint _ s1 Hsig) as [_ ->]. discriminate.
    + intros Hz Hnone Hsig.
      destruct (Hquiet1 Hz Hnone) as [Hc1 Hz1].
      rewrite (delivered_none _ s1 Hsig) in Hno173.
      rewrite <- !count_app. rewrite !count_app.
      rewrite Hc1, (Hno173 Hz1).
      rewrite <- count_app. exact Hc173.
Qed.

(** X17: Ctrl-C and a turn that starts in state Cool.  A Ctrl-C that is
    pending when the turn tests [killed] (taken before that test, or
    left pending by earlier turns) makes the turn print the 174 line
    and send SIGKILL to the child right after the sampling, once, and
    only then call [waitid]; [killed] is clear at the end of the turn
    unless another SIGINT is taken after the block.  A Ctrl-C taken
    after the test, none pending before, is not acted on in this turn:
    no 174 line and no SIGKILL, and both flags are set at its end.  If
    this turn makes the state Hot, the next turn defers that Ctrl-C:
    it prints the 173 line and sends no SIGKILL. *)
Theorem interrupt_in_a_cool_turn :
  (forall m s k t,
      hot s = 0 ->
      sigint k = true \/ killed s <> 0 ->
      sampled temps k = Some t ->
      exists revs rest c,
        iteration_at m s k
          = (revs ++ Stdout N174 :: Kill child SIGKILL :: rest, Value c) /\
        (forall e, In e revs -> sampling_event e) /\
        In (Waitid child (waitid_ret k) (waitid_status k)) rest /\
        count (is_kill SIGKILL) rest = 0%nat /\
        (m <> After_the_block -> killed (state_of c) = 0)) /\
  (forall m s k t,
      hot s = 0 ->
      sigint k = false ->
      killed s = 0 ->
      m <> Never ->
      sampled temps k = Some t ->
      exists evs c,
        iteration_at m s k = (evs, Value c) /\
        count (is_notice 174) evs = 0%nat /\
        count (is_kill SIGKILL) evs = 0%nat /\
        killed (state_of c) = 1 /\
        hot_killed (state_of c) = 1) /\
  (forall m s k t m' k' t',
      hot s = 0 ->
      sigint k = false ->
      killed s = 0 ->
      m <> Never ->
      sampled temps k = Some t ->
      waitid_ret k = 0 ->
      gt t hot_threshold = true ->
      sampled temps k' = Some t' ->
      exists evs s1 evs' s2,
        iteration_at m s k = (evs, Value (Continue s1)) /\
        hot s1 = 1 /\
        iteration_at m' s1 k' = (evs', Value (Continue s2)) /\
        In (Stdout N173) evs' /\
        count (is_kill SIGKILL) (evs ++ evs') = 0%nat /\
        killed s2 <> 0).
Proof.
  split; [|split].
  - intros m s k t Hcool Hpend Hs.
    destruct (cool_turn_at m s k t Hcool Hs)
      as (revs & rest & c & E & Hev & _ & _ & Hkill & _ & Hclear & _).
    assert (Hkd : killed (delivered k s) <> 0).
    { destruct Hpend as [Hsig | Hkd].
      - destruct (delivered_sigint k s Hsig) as [-> _]. discriminate.
      - apply delivered_killed. exact Hkd. }
    destruct (Hkill Hkd) as (rest' & -> & Hkr & Hw).
    exists revs, rest', c. split; [exact E|]. split; [exact Hev|].
    split; [exact Hw|]. split; [exact Hkr|].
    intros Hm. apply Hclear; assumption.
  - intros m s k t Hcool Hsig Hkd Hm Hs.
    destruct (cool_turn_at m s k t Hcool Hs)
      as (revs & rest & c & E & _ & _ & _ & _ & Hquiet & _ & _ & Hlate & _).
    rewrite (delivered_none k s Hsig) in *.
    destruct (Hquiet Hkd) as [Hk H174].
    destruct (Hlate Hm Hkd) as [H1 H2].
    exists (revs ++ rest), c. repeat split; assumption.
  - intros m s k t m' k' t' Hcool Hsig Hkd Hm Hs Hw Hgt Hs'.
    destruct (cool_turn_at m s k t Hcool Hs)
      as (revs & rest & c & E & _ & _ & _ & _ & Hquiet & _ & _ & Hlate & _
          & Hcont & Hup & _).
    rewrite (delivered_none k s Hsig) in *.
    destruct (Hquiet Hkd) as [Hk _].
    destruct (Hlate Hm Hkd) as [H1 H2].
    rewrite (Hcont Hw) in E.
    assert (Hhot1 : hot (state_of c) <> 0)
      by (rewrite (Hup Hw Hgt); discriminate).
    destruct (hot_turn_at m' (state_of c) k' t' Hhot1 Hs')
      as (evs' & s2 & E' & Hk' & _ & H173 & _ & _ & _ & _ & _ & Hkeep & _).
    exists (revs ++ rest), (state_of c), evs', s2.
    split; [exact E|]. split; [exact (Hup Hw Hgt)|]. split; [exact E'|].
    split; [|split].
    + apply H173. apply hot_killed_delivered. rewrite H2. discriminate.
    + rewrite count_app, Hk, Hk'. reflexivity.
    + apply Hkeep. apply delivered_killed. rewrite H1. discriminate.
Qed.

End Async.

(** ** Deliveries inside a turn and at its boundaries *)

Section Boundary.

Variables hot_threshold cool_threshold : double.
Variable child : Z.
Variable temps : list feature_t.

Local Abbreviation loop_body := (loop_body hot_threshold cool_threshold child).
Local Abbreviation loop_body_at :=
  (loop_body_at hot_threshold cool_threshold child).
Local Abbreviation iteration :=
  (iteration hot_threshold cool_threshold child temps).
Local Abbreviation iteration_at :=
  (iteration_at hot_threshold cool_threshold child temps).

Lemma handle_INT_delivered (k : tick) (s : state) :
  handle_INT (delivered k s) = handle_INT s.
Proof. unfold delivered. destruct (sigint k); reflexivity. Qed.

Lemma act_at_end (m : moment) (t : double) (s : state) (k : tick) :
  m <> Never ->
  m = After_the_block \/ tested_flag s = 0 ->
  (c <- loop_body_at m t s k ;; sleep c)
  = (fst (c <- loop_body t s k ;; sleep c),
     match snd (c <- loop_body t s k ;; sleep c) with
     | Value c => Value (interrupted_after c)
     | r => r
     end).
Proof.
  intros Hm Hcase. unfold tested_flag in Hcase.
  unfold_turn_at. unfold Krun.loop_body.
  unfold sleep, resume, suspend, kill_child, printf, fprintf_stderr, emit,
    exit, ret, bind, hot_delay, cool_delay.
  destruct m; [contradiction| |];
    split_tests; try solve [exfalso; congruence];
    try solve [exfalso; cbn in *; int_tests; destruct Hcase; congruence];
    reflexivity.
Qed.

Lemma act_at_head (t : double) (s : state) (k : tick) :
  tested_flag (delivered k s) <> 0 ->
  (c <- loop_body_at After_the_test t (delivered k s) k ;; sleep c)
  = (c <- loop_body t (handle_INT s) (with_sigint true k) ;; sleep c).
Proof.
  rewrite <- (handle_INT_delivered k s).
  generalize (delivered k s). intros s0 Hflag.
  unfold tested_flag in Hflag.
  unfold_turn_at. unfold Krun.loop_body.
  unfold sleep, resume, suspend, kill_child, printf, fprintf_stderr, emit,
    exit, ret, bind, hot_delay, cool_delay, with_sigint.
  cbn [hot killed hot_killed si_status kill_ret waitid_ret waitid_status
       set_hot_killed set_killed negb Z.eqb].
  split_tests; try solve [exfalso; congruence];
    try solve [exfalso; cbn in *; int_tests; congruence];
    reflexivity.
Qed.

(** X19: a SIGINT taken inside a turn acts as one taken at a turn
    boundary.  Taken after the block, or after the test of a flag that
    was clear, it changes nothing in the turn: the log is that of the
    turn without it, and the handler has run when the turn ends, as
    for a SIGINT taken before the next turn tests its flag.  Taken
    after the test of a flag that was set, it acts as a SIGINT taken
    before the test of the same turn. *)
Theorem inner_delivery_is_a_boundary_delivery :
  (forall m s k,
      m <> Never ->
      m = After_the_block \/ tested_flag (delivered k s) = 0 ->
      iteration_at m s k
      = (fst (iteration s k),
         match snd (iteration s k) with
         | Value c => Value (interrupted_after c)
         | r => r
         end)) /\
  (forall s k,
      tested_flag (delivered k s) <> 0 ->
      iteration_at After_the_test s k = iteration s (with_sigint true k)).
Proof.
  split.
  - intros m s k Hm Hcase.
    unfold Krun.iteration_at, Krun.iteration. cbv zeta.
    destruct (detect_temp (sensors k) temps) as [revs [t| |]] eqn:E.
    + rewrite !bind_known. rewrite (act_at_end m t _ k Hm Hcase).
      reflexivity.
    + reflexivity.
    + reflexivity.
  - intros s k Hflag.
    unfold Krun.iteration_at, Krun.iteration. cbv zeta.
    change (sensors (with_sigint true k)) with (sensors k).
    change (delivered (with_sigint true k) s) with (handle_INT s).
    destruct (detect_temp (sensors k) temps) as [revs [t| |]] eqn:E.
    + rewrite !bind_known. rewrite (act_at_head t s k Hflag).
      reflexivity.
    + reflexivity.
    + reflexivity.
Qed.

End Boundary.

(** ** Alternation of SIGSTOP and SIGCONT *)

Lemma stop_cont_app (l1 l2 : list event) :
  forall b,
    stop_cont b (l1 ++ l2)
    = match stop_cont b l1 with
      | Some b' => stop_cont b' l2
      | None => None
      end.
Proof.
  induction l1 as [|e l1 IH]; intros b; [reflexivity|].
  destruct e as [| | | | | |pid sig| | |]; simpl; try apply IH.
  destruct sig, b; simpl; auto.
Qed.

Lemma stop_cont_none (l : list event) :
  forall b,
    count (is_kill SIGSTOP) l = 0%nat ->
    count (is_kill SIGCONT) l = 0%nat ->
    stop_cont b l = Some b.
Proof.
  unfold count.
  induction l as [|e l IH]; intros b H1 H2; [reflexivity|].
  destruct e as [| | | | | |pid sig| | |]; simpl in *; try (apply IH; assumption).
  destruct sig; simpl in *; try discriminate. apply IH; assumption.
Qed.

Section Alternation.

Variables hot_threshold cool_threshold : double.
Variable child : Z.
Variable temps : list feature_t.

Local Abbreviation loop_body := (loop_body hot_threshold cool_threshold child).
Local Abbreviation iteration :=
  (iteration hot_threshold cool_threshold child temps).
Local Abbreviation run := (run hot_threshold cool_threshold child temps).

(** The acting part of a turn stops a child that runs and continues a
    child that is stopped, following [hot]. *)
Lemma act_stop_cont (t : double) (s : state) (k : tick) :
  exists evs c,
    (c <- loop_body t s k ;; sleep c) = (evs, Value c) /\
    stop_cont (negb (hot s =? 0)) evs
      = Some (negb (hot (state_of c) =? 0)) /\
    (forall s', c = Break s' -> hot s' = 0).
Proof.
  unfold_turn.
  split_tests; try solve [exfalso; congruence]; cbn;
    (eexists; eexists; split; [reflexivity|]); cbn;
    repeat match goal with
           | H : negb (hot _ =? 0) = _ |- _ => rewrite H
           end;
    (split; [reflexivity|]);
    intros s' E; inversion E; subst; cbn;
    match goal with
    | H : negb (hot ?s =? 0) = false |- _ =>
        apply negb_false_iff, Z.eqb_eq in H; exact H
    end.
Qed.

Lemma turn_stop_cont (s : state) (k : tick) :
  match snd (iteration s k) with
  | Value c =>
      stop_cont (negb (hot s =? 0)) (fst (iteration s k))
        = Some (negb (hot (state_of c) =? 0)) /\
      (forall s', c = Break s' -> hot s' = 0)
  | _ =>
      stop_cont (negb (hot s =? 0)) (fst (iteration s k))
        = Some (negb (hot s =? 0))
  end.
Proof.
  destruct (sampled temps k) as [t|] eqn:Hs.
  - destruct (iteration_sampled hot_threshold cool_threshold child temps
                s k t Hs) as [revs [Hev ->]].
    destruct (act_stop_cont t (delivered k s) k) as (evs & c & -> & H & Hb).
    cbn [fst snd]. rewrite stop_cont_app.
    rewrite (stop_cont_none revs _ (sampling_no_kill SIGSTOP revs Hev)
               (sampling_no_kill SIGCONT revs Hev)).
    rewrite hot_delivered in H. split; assumption.
  - destruct (iteration_unsampled hot_threshold cool_threshold child temps
                s k Hs) as [Hev Hv].
    pose proof (stop_cont_none _ (negb (hot s =? 0))
                  (sampling_no_kill SIGSTOP _ Hev)
                  (sampling_no_kill SIGCONT _ Hev)) as H.
    destruct (snd (iteration s k)) as [c| |]; try exact H.
    exfalso. apply (Hv c). reflexivity.
Qed.

Lemma run_stop_cont (ks : list tick) :
  forall s,
    match snd (run s ks) with
    | Value (Unfinished s') =>
        stop_cont (negb (hot s =? 0)) (fst (run s ks))
          = Some (negb (hot s' =? 0))
    | Value (Broke s') =>
        stop_cont (negb (hot s =? 0)) (fst (run s ks)) = Some false
    | _ => stop_cont (negb (hot s =? 0)) (fst (run s ks)) <> None
    end.
Proof.
  induction ks as [|k ks IH]; intros s; [reflexivity|].
  pose proof (turn_stop_cont s k) as T.
  destruct (iteration s k) as [evs [[s1|s1]|c|v]] eqn:E;
    cbn [fst snd state_of] in T.
  - rewrite (run_continue _ _ _ _ _ _ _ _ _ E). cbn [fst snd].
    destruct T as [T _]. rewrite stop_cont_app, T.
    apply IH.
  - rewrite (run_break _ _ _ _ _ _ _ _ _ E). cbn [fst snd].
    destruct T as [T Hb]. rewrite T, (Hb s1 eq_refl). reflexivity.
  - simpl. rewrite E. unfold bind. cbn [fst snd]. rewrite T. discriminate.
  - simpl. rewrite E. unfold bind. cbn [fst snd]. rewrite T. discriminate.
Qed.

(** The status a turn that leaves the loop leaves in [si.si_status] is
    the one its [waitid] stored, if it stored one. *)
Lemma break_status (s s' : state) (k : tick) (evs : list event) :
  iteration s k = (evs, Value (Break s')) ->
  si_status s' = match waitid_status k with
                 | Some st => st
                 | None => si_status s
                 end.
Proof.
  intros E.
  destruct (iteration_value hot_threshold cool_threshold child temps
              s k evs _ E) as [t Hs].
  destruct (iteration_sampled hot_threshold cool_threshold child temps
              s k t Hs) as [revs [_ E2]].
  rewrite E2 in E. clear E2.
  rewrite <- (si_status_delivered k s).
  revert E. generalize (delivered k s). intros s0.
  unfold_turn.
  split_tests; try solve [exfalso; congruence]; cbn; intros E;
    inversion E; reflexivity.
Qed.

End Alternation.

(** The SIGSTOPs and SIGCONTs of an execution of [main], counted. *)
Lemma stops_and_continues_counts :
  forall w,
    match snd (main w) with
    | Value (Returned _) =>
        count (is_kill SIGSTOP) (fst (main w))
        = count (is_kill SIGCONT) (fst (main w))
    | Value (Looping s) =>
        count (is_kill SIGSTOP) (fst (main w))
        = (count (is_kill SIGCONT) (fst (main w)) + truth (hot s))%nat
    | Exit _ =>
        (count (is_kill SIGCONT) (fst (main w))
         <= count (is_kill SIGSTOP) (fst (main w))
         <= count (is_kill SIGCONT) (fst (main w)) + 1)%nat
    | Exec _ =>
        count (is_kill SIGSTOP) (fst (main w)) = 0%nat /\
        count (is_kill SIGCONT) (fst (main w)) = 0%nat
    end.
Proof.
  intros w. split_main w.
  - rewrite !(startup_count _ _ (startup_no_kill _) Hstart).
    destruct (snd (main w)) as [v|c|v].
    + exfalso. apply (Hnone v). reflexivity.
    + lia.
    + split; reflexivity.
  - destruct (run_facts (hot_arg w) (cool_arg w) (fork_ret (child_start w))
                (fst tables) (ticks w) initial)
      as (_ & _ & _ & _ & _ & _ & R7).
    rewrite Hend.
    rewrite !count_app, !(startup_count _ _ (startup_no_kill _) Hpre).
    rewrite !epilogue_count by reflexivity.
    change (truth (hot initial)) with 0%nat in R7.
    destruct (snd (run (hot_arg w) (cool_arg w) (fork_ret (child_start w))
                     (fst tables) initial (ticks w))) as [[s|s]|c|v].
    + destruct R7 as [R7 R8]. simpl in R7.
      rewrite (R8 s eq_refl) in R7. lia.
    + destruct R7 as [R7 _]. simpl in R7. lia.
    + destruct R7 as [_ R7]. lia.
    + contradiction.
Qed.

(** X8: stops and continues alternate, starting with a stop: in the
    log of any execution of [main] a SIGSTOP is sent only to a child
    that no earlier SIGSTOP holds stopped, and a SIGCONT only after a
    SIGSTOP that no SIGCONT has followed yet.  When [main] returns, the
    last of them, if any, is a SIGCONT, and the SIGCONTs are as many as
    the SIGSTOPs; while the loop turns, the last is a SIGSTOP exactly
    when the state is Hot; when the process ends by [exit], the
    SIGSTOPs exceed the SIGCONTs by at most one. *)
Theorem stops_and_continues_alternate :
  forall w,
    match snd (main w) with
    | Value (Returned _) =>
        stop_cont false (fst (main w)) = Some false /\
        count (is_kill SIGSTOP) (fst (main w))
        = count (is_kill SIGCONT) (fst (main w))
    | Value (Looping s) =>
        stop_cont false (fst (main w)) = Some (negb (hot s =? 0)) /\
        count (is_kill SIGSTOP) (fst (main w))
        = (count (is_kill SIGCONT) (fst (main w)) + truth (hot s))%nat
    | Exit _ =>
        stop_cont false (fst (main w)) <> None /\
        (count (is_kill SIGCONT) (fst (main w))
         <= count (is_kill SIGSTOP) (fst (main w))
         <= count (is_kill SIGCONT) (fst (main w)) + 1)%nat
    | Exec _ =>
        stop_cont false (fst (main w)) = Some false /\
        count (is_kill SIGSTOP) (fst (main w)) = 0%nat /\
        count (is_kill SIGCONT) (fst (main w)) = 0%nat
    end.
Proof.
  intros w. pose proof (stops_and_continues_counts w) as Hcount.
  assert (Halt :
    match snd (main w) with
    | Value (Returned _) => stop_cont false (fst (main w)) = Some false
    | Value (Looping s) =>
        stop_cont false (fst (main w)) = Some (negb (hot s =? 0))
    | Exit _ => stop_cont false (fst (main w)) <> None
    | Exec _ => stop_cont false (fst (main w)) = Some false
    end).
  { clear Hcount. split_main w.
    - rewrite (stop_cont_none _ false
                 (startup_count _ _ (startup_no_kill _) Hstart)
                 (startup_count _ _ (startup_no_kill _) Hstart)).
      destruct (snd (main w)) as [v|c|v]; try reflexivity; try discriminate.
      exfalso. apply (Hnone v). reflexivity.
    - pose proof (run_stop_cont (hot_arg w) (cool_arg w)
                    (fork_ret (child_start w)) (fst tables) (ticks w)
                    initial) as R.
      change (negb (hot initial =? 0)) with false in R.
      destruct (run_facts (hot_arg w) (cool_arg w)
                  (fork_ret (child_start w)) (fst tables) (ticks w) initial)
        as (_ & _ & _ & _ & _ & _ & R7).
      rewrite Hend. rewrite stop_cont_app.
      rewrite (stop_cont_none pre false
                 (startup_count _ _ (startup_no_kill _) Hpre)
                 (startup_count _ _ (startup_no_kill _) Hpre)).
      rewrite stop_cont_app.
      destruct (snd (run (hot_arg w) (cool_arg w) (fork_ret (child_start w))
                       (fst tables) initial (ticks w))) as [[s|s]|c|v];
        cbn [epilogue].
      + rewrite R. reflexivity.
      + rewrite R. reflexivity.
      + destruct (stop_cont false _) as [b|]; [discriminate|].
        exfalso. apply R. reflexivity.
      + contradiction. }
  destruct (snd (main w)) as [[v|s]|c|v]; split; assumption.
Qed.

(** What [main] returns is what the [waitid] call that failed left in
    [si.si_status]. *)
Lemma main_returns_the_last_status (w : world) (evs : list event) (v : Z) :
  main w = (evs, Value (Returned v)) ->
  exists ks1 k ks2 s1,
    ticks w = ks1 ++ k :: ks2 /\
    waitid_ret k <> 0 /\
    v = match waitid_status k with
        | Some st => st
        | None => si_status s1
        end.
Proof.
  intros E.
  destruct (main_shape w)
    as [[_ Hnone] | (pre & tables & _ & _ & _ & _ & Hend)].
  - exfalso. apply (Hnone (Returned v)). rewrite E. reflexivity.
  - rewrite E in Hend. cbn [snd] in Hend.
    destruct (run (hot_arg w) (cool_arg w) (fork_ret (child_start w))
                (fst tables) initial (ticks w)) as [l [[s|s]|c|x]] eqn:Er;
      cbn [snd] in Hend; try discriminate.
    inversion Hend; subst v.
    destruct (loop_exit _ _ _ _ _ _ _ _ Er)
      as (ks1 & k & ks2 & evs1 & s1 & evs2 & Hks & _ & Hit & _ & Hw & _).
    exists ks1, k, ks2, s1. split; [exact Hks|]. split; [exact Hw|].
    apply (break_status _ _ _ _ _ _ _ _ Hit).
Qed.

(** C2: the status of the child does not reach the exit status of the
    governor.  [main] returns what the failing [waitid] call that ends
    the loop left in [si.si_status]; where a failing [waitid] clears
    [si.si_status], as on Linux since 4.13, [main] returns 0 whatever
    the child reported.  A child that ends with status 7 is reaped by
    a [waitid] that returns 0, the next call fails, and [main] returns
    0. *)
Theorem status_of_the_child_is_lost :
  (forall w evs v,
      main w = (evs, Value (Returned v)) ->
      exists ks1 k ks2,
        ticks w = ks1 ++ k :: ks2 /\
        waitid_ret k <> 0 /\
        (forall st, waitid_status k = Some st -> v = st)) /\
  (forall w evs v,
      main w = (evs, Value (Returned v)) ->
      (forall k, In k (ticks w) ->
                 waitid_ret k <> 0 -> waitid_status k = Some 0) ->
      v = 0) /\
  (In (Waitid 4242 0 (Some 7))
      (fst (main (Sample.command_line 75 60
                    [Sample.reaped 70 7; Sample.no_child 70]))) /\
   snd (main (Sample.command_line 75 60
                [Sample.reaped 70 7; Sample.no_child 70]))
     = Value (Returned 0)).
Proof.
  split; [|split].
  - intros w evs v E.
    destruct (main_returns_the_last_status w evs v E)
      as (ks1 & k & ks2 & s1 & Hks & Hw & Hv).
    exists ks1, k, ks2. split; [exact Hks|]. split; [exact Hw|].
    intros st Hst. rewrite Hst in Hv. exact Hv.
  - intros w evs v E Hzero.
    destruct (main_returns_the_last_status w evs v E)
      as (ks1 & k & ks2 & s1 & Hks & Hw & Hv).
    rewrite (Hzero k) in Hv; [exact Hv | | exact Hw].
    rewrite Hks. apply in_or_app. right. apply in_eq.
  - split; vm_compute; [|reflexivity].
    repeat (try (left; reflexivity); right).
Qed.

(** C5, as stated, fails: a Ctrl-C taken while the state is Hot, after
    the turn has tested [hot_killed], in the turn that samples below
    the cool threshold.  The child is resumed and then killed, and no
    173 line is printed.  The log is shown without the reads of the
    sensors. *)
Lemma interrupt_after_the_test_gets_no_173 :
  hot Sample.heated <> 0 /\
  arrives (After_the_test, Sample.quiet 58) /\
  filter (fun e => negb (is_read e))
    (fst (run_at 75 60 4242 Sample.resolved Sample.heated
            [(After_the_test, Sample.quiet 58); (Never, Sample.quiet 58)]))
  = [Stdout (N172 58 4242); Kill (-4242) SIGCONT; Nanosleep 0 100000000;
     Stdout N174; Kill 4242 SIGKILL; Waitid 4242 0 (Some 0);
     Nanosleep 0 100000000] /\
  count (is_notice 173)
    (fst (run_at 75 60 4242 Sample.resolved Sample.heated
            [(After_the_test, Sample.quiet 58); (Never, Sample.quiet 58)]))
  = 0%nat.
Proof.
  split; [discriminate|].
  split; [right; discriminate|].
  split; vm_compute; reflexivity.
Qed.

Lemma interrupt_in_a_hot_turn_is_deferred_witness :
  (hot Sample.heated <> 0 /\
   count (is_kill SIGKILL)
     (fst (iteration_at 75 60 4242 Sample.resolved After_the_test
             Sample.heated (Sample.interrupted 58))) = 0%nat) /\
  (hot Sample.heated <> 0 /\
   sampled Sample.resolved (Sample.interrupted 80) = Some 80%float /\
   exists evs s',
     iteration_at 75 60 4242 Sample.resolved Never Sample.heated
       (Sample.interrupted 80) = (evs, Value (Continue s')) /\
     (hot_killed (delivered (Sample.interrupted 80) Sample.heated) <> 0 ->
        In (Stdout N173) evs /\
        (Never = Never ->
           hot_killed s' = 0 /\
           killed s'
           = killed (delivered (Sample.interrupted 80) Sample.heated))) /\
     (hot_killed (delivered (Sample.interrupted 80) Sample.heated) = 0 ->
        count (is_notice 173) evs = 0%nat) /\
     (sigint (Sample.interrupted 80) = true ->
        In (Stdout N173) evs /\ killed s' = 1) /\
     (arrives (Never, Sample.interrupted 80) -> killed s' = 1)) /\
  (hot Sample.heated <> 0 /\
   Forall (fun b => stays_hot 60 Sample.resolved (snd b))
     [(After_the_block, Sample.quiet 80)] /\
   sampled Sample.resolved (Sample.quiet 58) = Some 58%float /\
   lt 58 60 = true /\
   Exists arrives
     ([(After_the_block, Sample.quiet 80)] ++ [(Never, Sample.quiet 58)]) /\
   exists evs1 s1 evs2 s2 evs3 c,
     run_at 75 60 4242 Sample.resolved Sample.heated
       [(After_the_block, Sample.quiet 80)]
       = (evs1, Value (Unfinished s1)) /\
     hot s1 <> 0 /\
     iteration_at 75 60 4242 Sample.resolved Never s1 (Sample.quiet 58)
       = (evs2, Value (Continue s2)) /\
     hot s2 = 0 /\
     In (Kill (- 4242) SIGCONT) evs2 /\
     count (is_kill SIGKILL) (evs1 ++ evs2) = 0%nat /\
     iteration_at 75 60 4242 Sample.resolved Never s2 (Sample.quiet 58)
       = (evs3, Value c) /\
     In (Stdout N174) evs3 /\
     In (Kill 4242 SIGKILL) evs3 /\
     count (is_kill SIGKILL) evs3 = 1%nat /\
     (Never <> After_the_block -> killed (state_of c) = 0) /\
     fst (run_at 75 60 4242 Sample.resolved Sample.heated
            ([(After_the_block, Sample.quiet 80)]
             ++ [(Never, Sample.quiet 58); (Never, Sample.quiet 58)]))
       = evs1 ++ evs2 ++ evs3 /\
     (Exists arrives [(After_the_block, Sample.quiet 80)]
      \/ sigint (Sample.quiet 58) = true ->
        In (Stdout N173) (evs1 ++ evs2)) /\
     (hot_killed Sample.heated = 0 ->
      Forall (fun b => ~ arrives b) [(After_the_block, Sample.quiet 80)] ->
      sigint (Sample.quiet 58) = false ->
        count (is_notice 173) (evs1 ++ evs2 ++ evs3) = 0%nat)).
Proof.
  split; [|split].
  - split; [discriminate|].
    apply (proj1 (interrupt_in_a_hot_turn_is_deferred 75 60 4242
                    Sample.resolved)
             After_the_test Sample.heated (Sample.interrupted 58)).
    discriminate.
  - split; [discriminate|]. split; [reflexivity|].
    apply (proj1 (proj2 (interrupt_in_a_hot_turn_is_deferred 75 60 4242
                           Sample.resolved))
             Never Sample.heated (Sample.interrupted 80) 80%float);
      [discriminate | reflexivity].
  - assert (Hall : Forall (fun b => stays_hot 60 Sample.resolved (snd b))
                     [(After_the_block, Sample.quiet 80)]).
    { constructor; [|constructor]. exists 80%float.
      split; reflexivity. }
    assert (Hex : Exists arrives
                    ([(After_the_block, Sample.quiet 80)]
                     ++ [(Never, Sample.quiet 58)])).
    { apply Exists_cons_hd. right. discriminate. }
    split; [discriminate|]. split; [exact Hall|].
    split; [reflexivity|]. split; [reflexivity|]. split; [exact Hex|].
    apply (proj2 (proj2 (interrupt_in_a_hot_turn_is_deferred 75 60 4242
                           Sample.resolved))
             Sample.heated [(After_the_block, Sample.quiet 80)]
             Never (Sample.quiet 58) 58%float
             Never (Sample.quiet 58) 58%float);
      [discriminate | exact Hall | reflexivity | reflexivity | reflexivity
      | exact Hex].
Defined.

Lemma interrupt_in_a_cool_turn_witness :
  (hot initial = 0 /\
   (sigint (Sample.interrupted 70) = true \/ killed initial <> 0) /\
   sampled Sample.resolved (Sample.interrupted 70) = Some 70%float /\
   exists revs rest c,
     iteration_at 75 60 4242 Sample.resolved Never initial
       (Sample.interrupted 70)
       = (revs ++ Stdout N174 :: Kill 4242 SIGKILL :: rest, Value c) /\
     (forall e, In e revs -> sampling_event e) /\
     In (Waitid 4242 (waitid_ret (Sample.interrupted 70))
           (waitid_status (Sample.interrupted 70))) rest /\
     count (is_kill SIGKILL) rest = 0%nat /\
     (Never <> After_the_block -> killed (state_of c) = 0)) /\
  (hot initial = 0 /\
   sigint (Sample.quiet 70) = false /\
   killed initial = 0 /\
   After_the_test <> Never /\
   sampled Sample.resolved (Sample.quiet 70) = Some 70%float /\
   exists evs c,
     iteration_at 75 60 4242 Sample.resolved After_the_test initial
       (Sample.quiet 70) = (evs, Value c) /\
     count (is_notice 174) evs = 0%nat /\
     count (is_kill SIGKILL) evs = 0%nat /\
     killed (state_of c) = 1 /\
     hot_killed (state_of c) = 1) /\
  (hot initial = 0 /\
   sigint (Sample.quiet 80) = false /\
   killed initial = 0 /\
   After_the_test <> Never /\
   sampled Sample.resolved (Sample.quiet 80) = Some 80%float /\
   waitid_ret (Sample.quiet 80) = 0 /\
   gt 80 75 = true /\
   exists evs s1 evs' s2,
     iteration_at 75 60 4242 Sample.resolved After_the_test initial
       (Sample.quiet 80) = (evs, Value (Continue s1)) /\
     hot s1 = 1 /\
     iteration_at 75 60 4242 Sample.resolved Never s1 (Sample.quiet 80)
       = (evs', Value (Continue s2)) /\
     In (Stdout N173) evs' /\
     count (is_kill SIGKILL) (evs ++ evs') = 0%nat /\
     killed s2 <> 0).
Proof.
  split; [|split].
  - split; [reflexivity|]. split; [left; reflexivity|].
    split; [reflexivity|].
    apply (proj1 (interrupt_in_a_cool_turn 75 60 4242 Sample.resolved)
             Never initial (Sample.interrupted 70) 70%float);
      [reflexivity | left; reflexivity | reflexivity].
  - split; [reflexivity|]. split; [reflexivity|]. split; [reflexivity|].
    split; [discriminate|]. split; [reflexivity|].
    apply (proj1 (proj2 (interrupt_in_a_cool_turn 75 60 4242
                           Sample.resolved))
             After_the_test initial (Sample.quiet 70) 70%float);
      [reflexivity | reflexivity | reflexivity | discriminate
      | reflexivity].
  - split; [reflexivity|]. split; [reflexivity|]. split; [reflexivity|].
    split; [discriminate|]. split; [reflexivity|]. split; [reflexivity|].
    split; [reflexivity|].
    apply (proj2 (proj2 (interrupt_in_a_cool_turn 75 60 4242
                           Sample.resolved))
             After_the_test initial (Sample.quiet 80) 80%float
             Never (Sample.quiet 80) 80%float);
      [reflexivity | reflexivity | reflexivity | discriminate
      | reflexivity | reflexivity | reflexivity | reflexivity].
Defined.

Lemma status_of_the_child_is_lost_witness :
  main (Sample.command_line 75 60 [Sample.reaped 70 7; Sample.no_child 70])
    = (fst (main (Sample.command_line 75 60
                    [Sample.reaped 70 7; Sample.no_child 70])),
       Value (Returned 0)) /\
  (forall k,
      In k (ticks (Sample.command_line 75 60
                     [Sample.reaped 70 7; Sample.no_child 70])) ->
      waitid_ret k <> 0 -> waitid_status k = Some 0) /\
  (exists ks1 k ks2,
      ticks (Sample.command_line 75 60
               [Sample.reaped 70 7; Sample.no_child 70])
        = ks1 ++ k :: ks2 /\
      waitid_ret k <> 0 /\
      (forall st, waitid_status k = Some st -> 0 = st)) /\
  0 = 0.
Proof.
  assert (E : main (Sample.command_line 75 60
                      [Sample.reaped 70 7; Sample.no_child 70])
              = (fst (main (Sample.command_line 75 60
                              [Sample.reaped 70 7; Sample.no_child 70])),
                 Value (Returned 0))) by (vm_compute; reflexivity).
  assert (Hzero : forall k,
             In k (ticks (Sample.command_line 75 60
                            [Sample.reaped 70 7; Sample.no_child 70])) ->
             waitid_ret k <> 0 -> waitid_status k = Some 0).
  { intros k [<- | [<- | []]] H; [exfalso; apply H|]; reflexivity. }
  split; [exact E|]. split; [exact Hzero|]. split.
  - apply (proj1 status_of_the_child_is_lost _ _ _ E).
  - apply (proj1 (proj2 status_of_the_child_is_lost) _ _ _ E Hzero).
Defined.

Lemma exit_status_of_main_witness :
  (main (Sample.command_line 75 60
           [Sample.reaped 70 255; Sample.no_child 70])
     = (fst (main (Sample.command_line 75 60
                     [Sample.reaped 70 255; Sample.no_child 70])),
        Value (Returned 0)) /\
   0 = last_status
         (fst (main (Sample.command_line 75 60
                       [Sample.reaped 70 255; Sample.no_child 70]))) 0 /\
   (0 <= 0 < 256 -> exit_status 0 = 0)) /\
  (main (Sample.command_line 91 50 [])
     = ([Stderr (Hot_threshold_must_not_exceed_90 91)], Exit (-1)) /\
   -1 = -1 /\ exit_status (-1) = 255) /\
  (sensors_init Sample.unconfigured <> 0 /\
   init Sample.unconfigured = ([Stderr (Sensors_init_error (-4))], Exit (-1))).
Proof.
  split; [|split].
  - split; [vm_compute; reflexivity|].
    apply (proj1 exit_status_of_main
             (Sample.command_line 75 60
                [Sample.reaped 70 255; Sample.no_child 70])
             (fst (main (Sample.command_line 75 60
                           [Sample.reaped 70 255; Sample.no_child 70])))).
    vm_compute. reflexivity.
  - assert (H : check_arguments 4 "krun" 91 50
                = ([Stderr (Hot_threshold_must_not_exceed_90 91)],
                   Exit (-1))) by reflexivity.
    pose proof (proj1 (proj2 (proj2 exit_status_of_main))
                  (Sample.command_line 91 50 []) _ _ H) as Hmain.
    split; [exact Hmain|].
    apply (proj1 (proj2 exit_status_of_main)
             (Sample.command_line 91 50 []) _ _ Hmain).
  - split; [discriminate|].
    apply (proj1 (proj2 (proj2 (proj2 (proj2 exit_status_of_main))))
             Sample.unconfigured).
    discriminate.
Defined.

Lemma inner_delivery_is_a_boundary_delivery_witness :
  (After_the_block <> Never /\
   (After_the_block = After_the_block
    \/ tested_flag (delivered (Sample.quiet 80) initial) = 0) /\
   iteration_at 75 60 4242 Sample.resolved After_the_block initial
     (Sample.quiet 80)
   = (fst (iteration 75 60 4242 Sample.resolved initial (Sample.quiet 80)),
      match snd (iteration 75 60 4242 Sample.resolved initial
                   (Sample.quiet 80)) with
      | Value c => Value (interrupted_after c)
      | r => r
      end)) /\
  (tested_flag (delivered (Sample.interrupted 80) Sample.heated) <> 0 /\
   iteration_at 75 60 4242 Sample.resolved After_the_test Sample.heated
     (Sample.interrupted 80)
   = iteration 75 60 4242 Sample.resolved Sample.heated
       (with_sigint true (Sample.interrupted 80))).
Proof.
  split.
  - split; [discriminate|]. split; [left; reflexivity|].
    apply (proj1 (inner_delivery_is_a_boundary_delivery 75 60 4242
                    Sample.resolved)
             After_the_block initial (Sample.quiet 80));
      [discriminate | left; reflexivity].
  - split; [discriminate|].
    apply (proj2 (inner_delivery_is_a_boundary_delivery 75 60 4242
                    Sample.resolved)
             Sample.heated (Sample.interrupted 80)).
    discriminate.
Defined.
